(** * csibroker: the lifecycle operations of the CSI service broker

    A shallow embedding of [csibroker/csibroker.go]: the parameter
    evaluators, the fingerprint reconstruction, the probe-once gate and the
    four lifecycle operations [Provision], [Deprovision], [Bind], [Unbind],
    written as state-passing functions over the broker, its store and the
    plugin registry. *)

From stdpp Require Import base option list strings gmap fin_maps.
From Stdlib Require Import Ascii String.

Open Scope string_scope.
Open Scope list_scope.
Set Warnings "-register-all".

(** ** Errors and results *)

(** The [error] values the broker returns: the sentinel errors of
    [brokerapi], the errors built with [errors.New] and [fmt.Errorf], the
    two failure kinds of [encoding/json], and whatever a collaborator (the
    store, the registry, a plugin) hands back. *)
Inductive error : Type :=
  | ErrRawParamsInvalid
  | ErrInstanceAlreadyExists
  | ErrInstanceDoesNotExist
  | ErrAppGuidNotProvided
  | ErrBindingAlreadyExists
  | ErrBindingDoesNotExist
  | errorString (msg : string)
  | JsonSyntaxError
  | JsonUnmarshalTypeError (field : string).

#[global] Instance error_eq_dec : EqDecision error.
Proof. solve_decision. Defined.

(** A Go [(T, error)] pair of a call whose value is meaningless on error. *)
Inductive result (A : Type) : Type :=
  | Ok (a : A)
  | Err (e : error).
Arguments Ok {A} a.
Arguments Err {A} e.

(** A Go call either returns or panics. *)
Inductive outcome (A : Type) : Type :=
  | Ret (a : A)
  | Panic.
Arguments Ret {A} a.
Arguments Panic {A}.

(** ** JSON documents

    What [encoding/json] decodes into an [interface{}]: [nil], [bool],
    [float64] (kept as its literal), [string], [[]interface{}] and
    [map[string]interface{}].  An object keeps its members in order. *)
Inductive json : Type :=
  | JNull
  | JBool (b : bool)
  | JNumber (lit : string)
  | JString (s : string)
  | JArray (items : list json)
  | JObject (members : list (string * json)).

(** [json.RawMessage]: a [nil] slice, bytes that are not a JSON text, or the
    bytes of a document. *)
Inductive RawMessage : Type :=
  | RawNil
  | RawInvalid
  | RawDoc (doc : json).

(** ** The plugin's volume and the broker's fingerprint *)

(** Modelled from the spec: [csi.Volume], declared by the CSI library; the
    spec's VolumeDescriptor "carries an opaque volume-id and a mapping of
    context attributes".  Go's nil and empty map are one value here. *)
Record Volume : Type := mkVolume {
  VolumeId : string;
  VolumeContext : gmap string string
}.

(** [type ServiceFingerPrint struct { Name string; Volume *csi.Volume }] *)
Record ServiceFingerPrint : Type := mkServiceFingerPrint {
  Name : string;
  FPVolume : option Volume
}.

(** The dynamic value held by an [interface{}] fingerprint slot: a
    [*ServiceFingerPrint], a [ServiceFingerPrint] value, or a generically
    decoded document. *)
Inductive iface : Type :=
  | IfacePtrFingerPrint (fp : ServiceFingerPrint)
  | IfaceFingerPrint (fp : ServiceFingerPrint)
  | IfaceGeneric (doc : json).

(** ** [encoding/json] on the fingerprint *)

Definition lower_ascii (c : ascii) : ascii :=
  let n := nat_of_ascii c in
  if (65 <=? n)%nat && (n <=? 90)%nat then ascii_of_nat (n + 32) else c.

Fixpoint lower (s : string) : string :=
  match s with
  | EmptyString => EmptyString
  | String c r => String (lower_ascii c) (lower r)
  end.

(** A struct field is found by its name, an exact match or one up to case. *)
Definition key_matches (field key : string) : bool :=
  bool_decide (lower key = lower field).

Definition marshal_context (m : gmap string string) : json :=
  JObject ((fun kv : string * string => (kv.1, JString kv.2)) <$> map_to_list m).

(** [csi.Volume] carries the tags [json:"volume_id,omitempty"] and
    [json:"volume_context,omitempty"]. *)
Definition marshal_Volume (v : Volume) : json :=
  JObject
    ((if decide (VolumeId v = "") then [] else [("volume_id", JString (VolumeId v))])
     ++ (if decide (VolumeContext v = ∅) then []
         else [("volume_context", marshal_context (VolumeContext v))])).

Definition marshal_ServiceFingerPrint (fp : ServiceFingerPrint) : json :=
  JObject
    [("Name", JString (Name fp));
     ("Volume", match FPVolume fp with
                | None => JNull
                | Some v => marshal_Volume v
                end)].

(** [json.Marshal(rawObject)] on a fingerprint slot. *)
Definition json_Marshal (rawObject : iface) : result json :=
  match rawObject with
  | IfacePtrFingerPrint fp => Ok (marshal_ServiceFingerPrint fp)
  | IfaceFingerPrint fp => Ok (marshal_ServiceFingerPrint fp)
  | IfaceGeneric doc => Ok doc
  end.

(** Decoding into a [string] field: [null] leaves it as it is. *)
Definition unmarshal_string (field : string) (cur : string) (j : json) : result string :=
  match j with
  | JString s => Ok s
  | JNull => Ok cur
  | _ => Err (JsonUnmarshalTypeError field)
  end.

(** Decoding the members of an object into a [map[string]string]. *)
Fixpoint unmarshal_context_members (ms : list (string * json)) (cur : gmap string string)
  : result (gmap string string) :=
  match ms with
  | [] => Ok cur
  | (k, j) :: rest =>
      match unmarshal_string "volume_context" "" j with
      | Ok s => unmarshal_context_members rest (<[k := s]> cur)
      | Err e => Err e
      end
  end.

Definition unmarshal_context (cur : gmap string string) (j : json) : result (gmap string string) :=
  match j with
  | JNull => Ok ∅
  | JObject ms => unmarshal_context_members ms cur
  | _ => Err (JsonUnmarshalTypeError "volume_context")
  end.

Fixpoint unmarshal_Volume_members (ms : list (string * json)) (cur : Volume) : result Volume :=
  match ms with
  | [] => Ok cur
  | (k, j) :: rest =>
      if key_matches "volume_id" k then
        match unmarshal_string "volume_id" (VolumeId cur) j with
        | Ok s => unmarshal_Volume_members rest (mkVolume s (VolumeContext cur))
        | Err e => Err e
        end
      else if key_matches "volume_context" k then
        match unmarshal_context (VolumeContext cur) j with
        | Ok m => unmarshal_Volume_members rest (mkVolume (VolumeId cur) m)
        | Err e => Err e
        end
      else unmarshal_Volume_members rest cur
  end.

(** Decoding into the [*csi.Volume] field: [null] clears the pointer, an
    object fills the pointed volume, allocating it when the pointer is nil. *)
Definition unmarshal_Volume (cur : option Volume) (j : json) : result (option Volume) :=
  match j with
  | JNull => Ok None
  | JObject ms =>
      match unmarshal_Volume_members ms (default (mkVolume "" ∅) cur) with
      | Ok v => Ok (Some v)
      | Err e => Err e
      end
  | _ => Err (JsonUnmarshalTypeError "Volume")
  end.

Fixpoint unmarshal_FingerPrint_members (ms : list (string * json)) (cur : ServiceFingerPrint)
  : result ServiceFingerPrint :=
  match ms with
  | [] => Ok cur
  | (k, j) :: rest =>
      if key_matches "Name" k then
        match unmarshal_string "Name" (Name cur) j with
        | Ok s => unmarshal_FingerPrint_members rest (mkServiceFingerPrint s (FPVolume cur))
        | Err e => Err e
        end
      else if key_matches "Volume" k then
        match unmarshal_Volume (FPVolume cur) j with
        | Ok v => unmarshal_FingerPrint_members rest (mkServiceFingerPrint (Name cur) v)
        | Err e => Err e
        end
      else unmarshal_FingerPrint_members rest cur
  end.

(** [json.Unmarshal(rawJson, fingerprint)] into a [*ServiceFingerPrint]. *)
Definition json_Unmarshal_FingerPrint (rawJson : json) (fingerprint : ServiceFingerPrint)
  : result ServiceFingerPrint :=
  match rawJson with
  | JNull => Ok fingerprint
  | JObject ms => unmarshal_FingerPrint_members ms fingerprint
  | _ => Err (JsonUnmarshalTypeError "ServiceFingerPrint")
  end.

(** [getFingerprint]: the direct cast, and on mismatch the re-encoding and
    decoding as the typed value. *)
Definition getFingerprint (rawObject : iface) : result ServiceFingerPrint :=
  match rawObject with
  | IfacePtrFingerPrint fingerprint => Ok fingerprint
  | _ =>
      match json_Marshal rawObject with
      | Err err => Err err
      | Ok rawJson =>
          match json_Unmarshal_FingerPrint rawJson (mkServiceFingerPrint "" None) with
          | Err err => Err err
          | Ok fingerprint => Ok fingerprint
          end
      end
  end.

(** ** The parameter evaluators *)

Definition DefaultContainerPath : string := "/var/vcap/data".

(** [strings.Split(s, "/")]. *)
Fixpoint split_slash (s : string) : list string :=
  match s with
  | EmptyString => [EmptyString]
  | String c r =>
      if decide (c = "/"%char) then EmptyString :: split_slash r
      else match split_slash r with
           | [] => [String c EmptyString]
           | x :: xs => String c x :: xs
           end
  end.

Fixpoint join_slash (l : list string) : string :=
  match l with
  | [] => ""
  | [x] => x
  | x :: rest => x +:+ "/" +:+ join_slash rest
  end.

(** One element of a path in [path.Clean]; [acc] is the output so far, last
    element first. *)
Definition clean_step (rooted : bool) (acc : list string) (c : string) : list string :=
  if decide (c = "") then acc
  else if decide (c = ".") then acc
  else if decide (c = "..") then
    match acc with
    | [] => if rooted then [] else [".."]
    | top :: below => if decide (top = "..") then ".." :: acc else below
    end
  else c :: acc.

(** [path.Clean], element by element: empty and [.] elements go, an inner
    [..] takes the element before it, a [..] at the root goes. *)
Definition path_Clean (p : string) : string :=
  match p with
  | EmptyString => "."
  | String c _ =>
      let rooted := bool_decide (c = "/"%char) in
      let out := rev (foldl (clean_step rooted) [] (split_slash p)) in
      if rooted then "/" +:+ join_slash out
      else match out with
           | [] => "."
           | _ => join_slash out
           end
  end.

(** [path.Join]: the elements from the first non-empty one on, joined by
    slashes and cleaned. *)
Fixpoint path_Join (elem : list string) : string :=
  match elem with
  | [] => ""
  | e :: rest => if decide (e = "") then path_Join rest else path_Clean (join_slash elem)
  end.

(** [evaluateContainerPath]: the comparison [containerPath != ""] is one of
    interface values, and the assertion [containerPath.(string)] panics on
    any other dynamic type. *)
Definition evaluateContainerPath (parameters : gmap string json) (volId : string) : outcome string :=
  match parameters !! "mount" with
  | Some containerPath =>
      match containerPath with
      | JString "" => Ret (path_Join [DefaultContainerPath; volId])
      | JString s => Ret s
      | _ => Panic
      end
  | None => Ret (path_Join [DefaultContainerPath; volId])
  end.

(** [evaluateId]: [None] is the nil map. *)
Definition evaluateId (parameters : gmap string json) : outcome (option (gmap string string)) :=
  match parameters !! "uid" with
  | None => Ret None
  | Some uid =>
      match parameters !! "gid" with
      | None => Ret None
      | Some gid =>
          match uid with
          | JString u =>
              match gid with
              | JString g => Ret (Some (<["gid" := g]> (<["uid" := u]> ∅)))
              | _ => Panic
              end
          | _ => Panic
          end
      end
  end.

Definition readOnlyToMode (ro : bool) : string :=
  if ro then "r" else "rw".

Definition evaluateMode (parameters : gmap string json) : result string :=
  match parameters !! "readonly" with
  | Some ro =>
      match ro with
      | JBool ro => Ok (readOnlyToMode ro)
      | _ => Err ErrRawParamsInvalid
      end
  | None => Ok "rw"
  end.

(** ** The records of the broker API, the store and the plugin protocol *)

#[global] Instance json_eq_dec : EqDecision json.
Proof.
  refine (fix go (x y : json) {struct x} : Decision (x = y) :=
    let _ : EqDecision json := go in
    match x, y with
    | JNull, JNull => left _
    | JBool a, JBool b => cast_if (decide (a = b))
    | JNumber a, JNumber b => cast_if (decide (a = b))
    | JString a, JString b => cast_if (decide (a = b))
    | JArray a, JArray b => cast_if (decide (a = b))
    | JObject a, JObject b => cast_if (decide (a = b))
    | _, _ => right _
    end); congruence.
Defined.

#[global] Instance RawMessage_eq_dec : EqDecision RawMessage.
Proof. solve_decision. Defined.

#[global] Instance Volume_eq_dec : EqDecision Volume.
Proof. solve_decision. Defined.

#[global] Instance ServiceFingerPrint_eq_dec : EqDecision ServiceFingerPrint.
Proof. solve_decision. Defined.

Definition dquote : string := String (ascii_of_nat 34) EmptyString.

(** [brokerapi.ProvisionDetails] *)
Record ProvisionDetails : Type := mkProvisionDetails {
  PD_ServiceID : string;
  PD_PlanID : string;
  PD_OrganizationGUID : string;
  PD_SpaceGUID : string;
  PD_RawParameters : RawMessage
}.

(** [brokerapi.DeprovisionDetails] *)
Record DeprovisionDetails : Type := mkDeprovisionDetails {
  DD_PlanID : string;
  DD_ServiceID : string
}.

(** [brokerapi.BindDetails] *)
Record BindDetails : Type := mkBindDetails {
  BD_AppGUID : string;
  BD_ServiceID : string;
  BD_RawParameters : RawMessage
}.

#[global] Instance BindDetails_eq_dec : EqDecision BindDetails.
Proof. solve_decision. Defined.

(** [brokerapi.UnbindDetails] *)
Record UnbindDetails : Type := mkUnbindDetails {
  UD_ServiceID : string
}.

(** [brokerapi.ProvisionedServiceSpec] and [brokerapi.DeprovisionServiceSpec] *)
Record ProvisionedServiceSpec : Type := mkProvisionedServiceSpec {
  PS_IsAsync : bool
}.

Record DeprovisionServiceSpec : Type := mkDeprovisionServiceSpec {
  DS_IsAsync : bool;
  DS_OperationData : string
}.

(** The values of a [MountConfig]: a string, a [map[string]string], or the
    nil map. *)
Inductive configValue : Type :=
  | CfgString (s : string)
  | CfgMap (m : gmap string string)
  | CfgNilMap.

(** [brokerapi.SharedDevice], [brokerapi.VolumeMount], [brokerapi.Binding] *)
Record SharedDevice : Type := mkSharedDevice {
  SD_VolumeId : string;
  MountConfig : gmap string configValue
}.

Record VolumeMount : Type := mkVolumeMount {
  Driver : string;
  ContainerDir : string;
  Mode : string;
  DeviceType : string;
  Device : SharedDevice
}.

(** The [Credentials] of a binding are an [interface{}]: [None] is nil, and
    the broker's only value is the empty struct. *)
Inductive credentials : Type := EmptyStruct.

Record Binding : Type := mkBinding {
  Credentials : option credentials;
  VolumeMounts : list VolumeMount
}.

(** [brokerstore.ServiceInstance] *)
Record ServiceInstance : Type := mkServiceInstance {
  SI_ServiceID : string;
  SI_PlanID : string;
  SI_OrganizationGUID : string;
  SI_SpaceGUID : string;
  SI_ServiceFingerPrint : iface
}.

(** An entry of the request's [volume_capabilities], not looked into. *)
Inductive VolumeCapability : Type := Capability (descr : json).

(** Modelled from the spec: [csi.CreateVolumeRequest] and
    [csi.DeleteVolumeRequest], declared by the CSI library;
    "CreateVolume(name, volumeCapabilities, parameters)" and
    "DeleteVolume(volumeID, secrets)". *)
Record CreateVolumeRequest : Type := mkCreateVolumeRequest {
  CVR_Name : string;
  CVR_VolumeCapabilities : list VolumeCapability;
  CVR_Parameters : gmap string string
}.

Record DeleteVolumeRequest : Type := mkDeleteVolumeRequest {
  DVR_VolumeId : string;
  DVR_Secrets : gmap string string
}.

(** The interface [brokerstore.Store], over the state [S] of a store. *)
Class Store (S : Type) : Type := {
  RetrieveInstanceDetails : string -> S -> result ServiceInstance;
  RetrieveBindingDetails : string -> S -> result BindDetails;
  CreateInstanceDetails : string -> ServiceInstance -> S -> option error * S;
  CreateBindingDetails : string -> BindDetails -> S -> option error * S;
  DeleteInstanceDetails : string -> S -> option error * S;
  DeleteBindingDetails : string -> S -> option error * S;
  IsInstanceConflict : string -> ServiceInstance -> S -> bool;
  IsBindingConflict : string -> BindDetails -> S -> bool;
  Restore : S -> option error * S;
  Save : S -> option error * S
}.

(** The interface [ServicesRegistry] with the plugin clients it hands out,
    over the state [W] of the registry, its connections and the plugins.
    A client is named by the service it was asked for. *)
Class ServicesRegistry (W : Type) : Type := {
  IdentityClient : string -> W -> option error * W;
  Probe : string -> W -> option error * W;
  ControllerClient : string -> W -> option error * W;
  CreateVolume : string -> CreateVolumeRequest -> W -> result (option Volume) * W;
  DeleteVolume : string -> DeleteVolumeRequest -> W -> option error * W;
  DriverName : string -> W -> result string
}.

(** [jsonpb.UnmarshalString] into a [csi.CreateVolumeRequest]. *)
Class Jsonpb : Type := {
  jsonpb_UnmarshalString : RawMessage -> result CreateVolumeRequest
}.

(** What a run of the broker does to the outside: the plugin calls, the
    mutex and the store's [Save] with what it returned. *)
Inductive event : Type :=
  | EvProbe (serviceID : string) (res : option error)
  | EvCreateVolume (serviceID : string) (req : CreateVolumeRequest)
  | EvDeleteVolume (serviceID : string) (req : DeleteVolumeRequest)
  | EvLock
  | EvSave (out : option error)
  | EvUnlock.

(** [json.Unmarshal(bindDetails.RawParameters, &params)] into a
    [map[string]interface{}]. *)
Definition json_Unmarshal_params (raw : RawMessage) : result (gmap string json) :=
  match raw with
  | RawNil => Err JsonSyntaxError
  | RawInvalid => Err JsonSyntaxError
  | RawDoc JNull => Ok ∅
  | RawDoc (JObject ms) =>
      Ok (foldl (fun (m : gmap string json) (kv : string * json) => <[kv.1 := kv.2]> m) ∅ ms)
  | RawDoc _ => Err (JsonUnmarshalTypeError "params")
  end.

(** The [params] of [Bind]: the empty map made first, decoded into when the
    raw parameters are not nil. *)
Definition decodeBindParameters (raw : RawMessage) : result (gmap string json) :=
  match raw with
  | RawNil => Ok ∅
  | raw => json_Unmarshal_params raw
  end.

(** ** The broker *)

(** [type Broker struct]: the store, the registry and the latch; [history]
    is the log of what the broker did so far, oldest event first. *)
Record Broker (S W : Type) : Type := mkBroker {
  store : S;
  servicesRegistry : W;
  controllerProbed : bool;
  history : list event
}.
Arguments mkBroker {S W}.
Arguments store {S W}.
Arguments servicesRegistry {S W}.
Arguments controllerProbed {S W}.
Arguments history {S W}.

(** A method of the broker: it runs on the broker's state, and returns or
    panics. *)
Definition M (S W A : Type) : Type := Broker S W -> outcome A * Broker S W.

#[global] Instance M_ret {S W} : MRet (M S W) :=
  fun A (a : A) b => (Ret a, b).

#[global] Instance M_bind {S W} : MBind (M S W) :=
  fun A B (k : A -> M S W B) (m : M S W A) b =>
    match m b with
    | (Ret a, b') => k a b'
    | (Panic, b') => (Panic, b')
    end.

Definition panic {S W A} : M S W A := fun b => (Panic, b).

Definition emit {S W} (ev : event) : M S W unit := fun b =>
  (Ret tt, mkBroker (store b) (servicesRegistry b) (controllerProbed b) (history b ++ [ev])).

Definition readStore {S W A} (f : S -> A) : M S W A := fun b => (Ret (f (store b)), b).

Definition onStore {S W A} (f : S -> A * S) : M S W A := fun b =>
  let '(a, s) := f (store b) in
  (Ret a, mkBroker s (servicesRegistry b) (controllerProbed b) (history b)).

Definition readRegistry {S W A} (f : W -> A) : M S W A := fun b =>
  (Ret (f (servicesRegistry b)), b).

Definition onRegistry {S W A} (f : W -> A * W) : M S W A := fun b =>
  let '(a, w) := f (servicesRegistry b) in
  (Ret a, mkBroker (store b) w (controllerProbed b) (history b)).

Definition getControllerProbed {S W} : M S W bool := fun b => (Ret (controllerProbed b), b).

Definition setControllerProbed {S W} (v : bool) : M S W unit := fun b =>
  (Ret tt, mkBroker (store b) (servicesRegistry b) v (history b)).

Section Broker.
Context {S W : Type} `{!Store S} `{!ServicesRegistry W} `{!Jsonpb}.

#[local] Abbreviation M := (M S W).

(** [New]: the latch starts unset, after the store's [Restore]. *)
Definition New (s : S) (w : W) : Broker S W * option error :=
  let '(err, s') := Restore s in
  (mkBroker s' w false [], err).

(** [b.mutex.Lock()], the two deferred calls, and the rest of the method
    as [body]: on the way out, also of a panic, [Save] runs and then the
    mutex is released; [Save]'s error becomes the method's when the
    method has none. *)
Definition lockDeferSave {A} (body : M (A * option error)) : M (A * option error) :=
  fun b =>
    let '(_, b0) := emit EvLock b in
    let '(r, b1) := body b0 in
    let '(out, s2) := Save (store b1) in
    (match r with
     | Ret (v, e) => Ret (v, match e with None => out | Some _ => e end)
     | Panic => Panic
     end,
     mkBroker s2 (servicesRegistry b1) (controllerProbed b1)
       (history b1 ++ [EvSave out; EvUnlock])).

Definition probeController (serviceID : string) : M (option error) :=
  probed ← getControllerProbed;
  if negb probed then
    err ← onRegistry (IdentityClient serviceID);
    match err with
    | Some err => mret (Some err)
    | None =>
        err ← onRegistry (Probe serviceID);
        _ ← emit (EvProbe serviceID err);
        match err with
        | Some err => mret (Some err)
        | None => _ ← setControllerProbed true; mret None
        end
    end
  else mret None.

Definition instanceConflicts (details : ServiceInstance) (instanceID : string) : M bool :=
  readStore (IsInstanceConflict instanceID details).

Definition bindingConflicts (bindingID : string) (details : BindDetails) : M bool :=
  readStore (IsBindingConflict bindingID details).

(** The part of [Provision] that runs under the mutex. *)
Definition Provision_locked (instanceID : string) (details : ProvisionDetails)
    (configuration : CreateVolumeRequest) (volInfo : option Volume)
  : M (ProvisionedServiceSpec * option error) :=
  let fingerprint := mkServiceFingerPrint (CVR_Name configuration) volInfo in
  let instanceDetails :=
    mkServiceInstance (PD_ServiceID details) (PD_PlanID details)
      (PD_OrganizationGUID details) (PD_SpaceGUID details)
      (IfaceFingerPrint fingerprint) in
  conflict ← instanceConflicts instanceDetails instanceID;
  if conflict : bool then mret (mkProvisionedServiceSpec false, Some ErrInstanceAlreadyExists)
  else
    err ← onStore (CreateInstanceDetails instanceID instanceDetails);
    match err with
    | Some _ =>
        mret (mkProvisionedServiceSpec false,
              Some (errorString ("failed to store instance details " +:+ instanceID)))
    | None => mret (mkProvisionedServiceSpec false, None)
    end.

Definition Provision (instanceID : string) (details : ProvisionDetails)
  : M (ProvisionedServiceSpec * option error) :=
  err ← probeController (PD_ServiceID details);
  match err with
  | Some err => mret (mkProvisionedServiceSpec false, Some err)
  | None =>
      match jsonpb_UnmarshalString (PD_RawParameters details) with
      | Err _ => mret (mkProvisionedServiceSpec false, Some ErrRawParamsInvalid)
      | Ok configuration =>
          if decide (CVR_Name configuration = "") then
            mret (mkProvisionedServiceSpec false,
                  Some (errorString ("config requires a " +:+ dquote +:+ "name" +:+ dquote)))
          else if decide (List.length (CVR_VolumeCapabilities configuration) = 0) then
            mret (mkProvisionedServiceSpec false,
                  Some (errorString
                          ("config requires " +:+ dquote +:+ "volume_capabilities" +:+ dquote)))
          else
            err ← onRegistry (ControllerClient (PD_ServiceID details));
            match err with
            | Some err => mret (mkProvisionedServiceSpec false, Some err)
            | None =>
                _ ← emit (EvCreateVolume (PD_ServiceID details) configuration);
                response ← onRegistry (CreateVolume (PD_ServiceID details) configuration);
                match response with
                | Err err => mret (mkProvisionedServiceSpec false, Some err)
                | Ok volInfo =>
                    lockDeferSave (Provision_locked instanceID details configuration volInfo)
                end
            end
      end
  end.

(** The part of [Deprovision] that runs under the mutex. *)
Definition Deprovision_locked (instanceID : string)
  : M (DeprovisionServiceSpec * option error) :=
  err ← onStore (DeleteInstanceDetails instanceID);
  match err with
  | Some err => mret (mkDeprovisionServiceSpec false "", Some err)
  | None => mret (mkDeprovisionServiceSpec false "deprovision", None)
  end.

Definition Deprovision (instanceID : string) (details : DeprovisionDetails)
  : M (DeprovisionServiceSpec * option error) :=
  let fail (e : error) : M (DeprovisionServiceSpec * option error) :=
    mret (mkDeprovisionServiceSpec false "", Some e) in
  err ← probeController (DD_ServiceID details);
  match err with
  | Some err => fail err
  | None =>
      if decide (instanceID = "") then
        fail (errorString "volume deletion requires instance ID")
      else if decide (DD_PlanID details = "") then
        fail (errorString ("volume deletion requires " +:+ dquote +:+ "plan_id" +:+ dquote))
      else if decide (DD_ServiceID details = "") then
        fail (errorString ("volume deletion requires " +:+ dquote +:+ "service_id" +:+ dquote))
      else
        instanceDetails ← readStore (RetrieveInstanceDetails instanceID);
        match instanceDetails with
        | Err _ => fail ErrInstanceDoesNotExist
        | Ok instanceDetails =>
            match getFingerprint (SI_ServiceFingerPrint instanceDetails) with
            | Err err => fail err
            | Ok fingerprint =>
                match FPVolume fingerprint with
                | None => panic
                | Some volume =>
                    let configuration := mkDeleteVolumeRequest (VolumeId volume) ∅ in
                    err ← onRegistry (ControllerClient (DD_ServiceID details));
                    match err with
                    | Some err => fail err
                    | None =>
                        _ ← emit (EvDeleteVolume (DD_ServiceID details) configuration);
                        err ← onRegistry (DeleteVolume (DD_ServiceID details) configuration);
                        match err with
                        | Some err => fail err
                        | None => lockDeferSave (Deprovision_locked instanceID)
                        end
                    end
                end
            end
        end
  end.

(** The part of [Bind] that runs under the mutex: all of it after the
    probe. *)
Definition Bind_locked (instanceID bindingID : string) (bindDetails : BindDetails)
  : M (Binding * option error) :=
  let fail (e : error) : M (Binding * option error) := mret (mkBinding None [], Some e) in
  instanceDetails ← readStore (RetrieveInstanceDetails instanceID);
  match instanceDetails with
  | Err _ => fail ErrInstanceDoesNotExist
  | Ok instanceDetails =>
      if decide (BD_AppGUID bindDetails = "") then fail ErrAppGuidNotProvided
      else
        match getFingerprint (SI_ServiceFingerPrint instanceDetails) with
        | Err err => fail err
        | Ok fingerprint =>
            match FPVolume fingerprint with
            | None => panic
            | Some volume =>
                let csiVolumeId := VolumeId volume in
                let csiVolumeAttributes := VolumeContext volume in
                match decodeBindParameters (BD_RawParameters bindDetails) with
                | Err err => fail err
                | Ok params =>
                    match evaluateMode params with
                    | Err err => fail err
                    | Ok mode =>
                        conflict ← bindingConflicts bindingID bindDetails;
                        if conflict : bool then fail ErrBindingAlreadyExists
                        else
                          err ← onStore (CreateBindingDetails bindingID bindDetails);
                          match err with
                          | Some err => fail err
                          | None =>
                              let volumeId := instanceID +:+ "-volume" in
                              driverName ← readRegistry (DriverName (BD_ServiceID bindDetails));
                              match driverName with
                              | Err err => fail err
                              | Ok driverName =>
                                  match evaluateContainerPath params instanceID with
                                  | Panic => panic
                                  | Ret containerDir =>
                                      match evaluateId params with
                                      | Panic => panic
                                      | Ret bindingParams =>
                                          mret
                                            (mkBinding (Some EmptyStruct)
                                               [mkVolumeMount driverName containerDir mode "shared"
                                                  (mkSharedDevice volumeId
                                                     (<["binding-params" :=
                                                          match bindingParams with
                                                          | None => CfgNilMap
                                                          | Some m => CfgMap m
                                                          end]>
                                                      (<["attributes" := CfgMap csiVolumeAttributes]>
                                                       (<["id" := CfgString csiVolumeId]> ∅))))],
                                             None)
                                      end
                                  end
                              end
                          end
                    end
                end
            end
        end
  end.

Definition Bind (instanceID bindingID : string) (bindDetails : BindDetails)
  : M (Binding * option error) :=
  err ← probeController (BD_ServiceID bindDetails);
  match err with
  | Some err => mret (mkBinding None [], Some err)
  | None => lockDeferSave (Bind_locked instanceID bindingID bindDetails)
  end.

(** The part of [Unbind] that runs under the mutex.  A method with the one
    result [e error] is given the unit value beside it. *)
Definition Unbind_locked (instanceID bindingID : string) : M (unit * option error) :=
  instanceDetails ← readStore (RetrieveInstanceDetails instanceID);
  match instanceDetails with
  | Err _ => mret (tt, Some ErrInstanceDoesNotExist)
  | Ok _ =>
      bindingDetails ← readStore (RetrieveBindingDetails bindingID);
      match bindingDetails with
      | Err _ => mret (tt, Some ErrBindingDoesNotExist)
      | Ok _ =>
          err ← onStore (DeleteBindingDetails bindingID);
          match err with
          | Some err => mret (tt, Some err)
          | None => mret (tt, None)
          end
      end
  end.

Definition Unbind (instanceID bindingID : string) (details : UnbindDetails)
  : M (unit * option error) :=
  err ← probeController (UD_ServiceID details);
  match err with
  | Some err => mret (tt, Some err)
  | None => lockDeferSave (Unbind_locked instanceID bindingID)
  end.

End Broker.

(** ** Requests served one after another *)

Inductive operation : Type :=
  | OpProvision (instanceID : string) (details : ProvisionDetails)
  | OpDeprovision (instanceID : string) (details : DeprovisionDetails)
  | OpBind (instanceID bindingID : string) (details : BindDetails)
  | OpUnbind (instanceID bindingID : string) (details : UnbindDetails).

(** The service a request names. *)
Definition operationService (op : operation) : string :=
  match op with
  | OpProvision _ details => PD_ServiceID details
  | OpDeprovision _ details => DD_ServiceID details
  | OpBind _ _ details => BD_ServiceID details
  | OpUnbind _ _ details => UD_ServiceID details
  end.

(** One request, and the error it answers with. *)
Definition perform {S W} `{!Store S} `{!ServicesRegistry W} `{!Jsonpb}
    (op : operation) : M S W (option error) :=
  match op with
  | OpProvision instanceID details => r ← Provision instanceID details; mret r.2
  | OpDeprovision instanceID details => r ← Deprovision instanceID details; mret r.2
  | OpBind instanceID bindingID details => r ← Bind instanceID bindingID details; mret r.2
  | OpUnbind instanceID bindingID details => r ← Unbind instanceID bindingID details; mret r.2
  end.

(** The requests of one process lifetime; the broker lives on after a
    request that panicked. *)
Definition serve {S W} `{!Store S} `{!ServicesRegistry W} `{!Jsonpb}
    (ops : list operation) (b : Broker S W) : Broker S W :=
  foldl (fun b op => (perform op b).2) b ops.

(** ** Reading a history *)

Definition isProbe (ev : event) : bool :=
  match ev with
  | EvProbe _ _ => true
  | _ => false
  end.

Definition isControllerCall (ev : event) : bool :=
  match ev with
  | EvCreateVolume _ _ | EvDeleteVolume _ _ => true
  | _ => false
  end.

(** A plugin RPC: the identity probe, or a call of the controller. *)
Definition isPluginCall (ev : event) : bool := isProbe ev || isControllerCall ev.

(** What may happen while no probe has succeeded: failed probes, and nothing
    on a controller. *)
Definition beforeProbe (ev : event) : bool :=
  match ev with
  | EvProbe _ None => false
  | ev => negb (isControllerCall ev)
  end.

(** What may happen once a probe has succeeded: no probe. *)
Definition afterProbe (ev : event) : bool := negb (isProbe ev).

Definition probeOf (serviceID : string) (ev : event) : bool :=
  match ev with
  | EvProbe s None => bool_decide (s = serviceID)
  | _ => false
  end.

Definition controllerCallOn (serviceID : string) (ev : event) : bool :=
  match ev with
  | EvCreateVolume s _ | EvDeleteVolume s _ => bool_decide (s = serviceID)
  | _ => false
  end.

(** The probe of [serviceID] succeeded before the first call of that
    service's controller, if there is such a call. *)
Fixpoint probedBeforeUse (serviceID : string) (tr : list event) : bool :=
  match tr with
  | [] => true
  | ev :: rest =>
      if probeOf serviceID ev then true
      else negb (controllerCallOn serviceID ev) && probedBeforeUse serviceID rest
  end.

(** ** The record store *)

(** The type erasure of a fingerprint that was persisted and read back: a
    typed value comes back as the generic document of its encoding. *)
Definition erase (v : iface) : iface :=
  match json_Marshal v with
  | Ok doc => IfaceGeneric doc
  | Err _ => v
  end.

Definition eraseInstance (i : ServiceInstance) : ServiceInstance :=
  mkServiceInstance (SI_ServiceID i) (SI_PlanID i) (SI_OrganizationGUID i) (SI_SpaceGUID i)
    (erase (SI_ServiceFingerPrint i)).

(** Modelled from the spec: the Record Store, a library outside the
    repository; "durable key-value persistence for instance and binding
    records, with whole-dataset save/restore and read-your-writes
    semantics".  [saveError] is the failure the durable medium answers a
    [Save] with, if any. *)
Record MemStore : Type := mkMemStore {
  instances : gmap string ServiceInstance;
  bindings : gmap string BindDetails;
  durable : gmap string ServiceInstance * gmap string BindDetails;
  saveError : option error
}.

(** The part of an instance record that decides a conflict:
    "{serviceID, planID, organizationGUID, spaceGUID}". *)
Definition instanceIdentity (i : ServiceInstance) : string * string * string * string :=
  (SI_ServiceID i, SI_PlanID i, SI_OrganizationGUID i, SI_SpaceGUID i).

Definition lookupOr {A} (m : gmap string A) (id : string) (e : error) : result A :=
  match m !! id with
  | Some a => Ok a
  | None => Err e
  end.

(** Modelled from the spec: the operations of the Record Store on
    [MemStore]; "if an instance already exists for [instanceID] with
    different {serviceID, planID, organizationGUID, spaceGUID}" is the
    instance conflict, "a binding identifier with different stored details"
    the binding conflict. *)
#[global] Instance MemStore_Store : Store MemStore := {
  RetrieveInstanceDetails id s := lookupOr (instances s) id (errorString "instance not found");
  RetrieveBindingDetails id s := lookupOr (bindings s) id (errorString "binding not found");
  CreateInstanceDetails id details s :=
    (None, mkMemStore (<[id := details]> (instances s)) (bindings s) (durable s) (saveError s));
  CreateBindingDetails id details s :=
    (None, mkMemStore (instances s) (<[id := details]> (bindings s)) (durable s) (saveError s));
  DeleteInstanceDetails id s :=
    (None, mkMemStore (delete id (instances s)) (bindings s) (durable s) (saveError s));
  DeleteBindingDetails id s :=
    (None, mkMemStore (instances s) (delete id (bindings s)) (durable s) (saveError s));
  IsInstanceConflict id details s :=
    match instances s !! id with
    | Some existing => bool_decide (instanceIdentity existing ≠ instanceIdentity details)
    | None => false
    end;
  IsBindingConflict id details s :=
    match bindings s !! id with
    | Some existing => bool_decide (existing ≠ details)
    | None => false
    end;
  Restore s :=
    (None, mkMemStore (eraseInstance <$> (durable s).1) (durable s).2 (durable s) (saveError s));
  Save s :=
    match saveError s with
    | Some e => (Some e, s)
    | None => (None, mkMemStore (instances s) (bindings s) (instances s, bindings s) None)
    end
}.

(** ** The registry and its plugins *)

(** Modelled from the spec: the Registry, in a file of the repository that
    is not at hand; "given a logical service identifier, return (a) the
    identity-probe capability, (b) the controller capability, (c) the driver
    name, or fail with "unknown service"".  The plugins behind it answer
    from a script: [probeResults] are the answers of the coming probes, the
    ones after them succeed; [createResult] and [deleteResult] are the
    answers of the controller. *)
Record ScriptedRegistry : Type := mkScriptedRegistry {
  drivers : gmap string string;
  probeResults : list (option error);
  createResult : result (option Volume);
  deleteResult : option error
}.

Definition knownService (serviceID : string) (w : ScriptedRegistry) : option error :=
  match drivers w !! serviceID with
  | Some _ => None
  | None => Some (errorString "unknown service")
  end.

#[global] Instance ScriptedRegistry_Registry : ServicesRegistry ScriptedRegistry := {
  IdentityClient serviceID w := (knownService serviceID w, w);
  Probe serviceID w :=
    match probeResults w with
    | [] => (None, w)
    | r :: rest => (r, mkScriptedRegistry (drivers w) rest (createResult w) (deleteResult w))
    end;
  ControllerClient serviceID w := (knownService serviceID w, w);
  CreateVolume serviceID req w := (createResult w, w);
  DeleteVolume serviceID req w := (deleteResult w, w);
  DriverName serviceID w := lookupOr (drivers w) serviceID (errorString "unknown service")
}.

(** A decoder of the request members the broker looks at, [name] and
    [volume_capabilities], for running the broker on a written-out request. *)
Definition decodeMember (cur : CreateVolumeRequest) (kv : string * json)
  : result CreateVolumeRequest :=
  match kv with
  | ("name", JString s) =>
      Ok (mkCreateVolumeRequest s (CVR_VolumeCapabilities cur) (CVR_Parameters cur))
  | ("volume_capabilities", JArray items) =>
      Ok (mkCreateVolumeRequest (CVR_Name cur) (Capability <$> items) (CVR_Parameters cur))
  | _ => Err JsonSyntaxError
  end.

Fixpoint decodeMembers (ms : list (string * json)) (cur : CreateVolumeRequest)
  : result CreateVolumeRequest :=
  match ms with
  | [] => Ok cur
  | kv :: rest =>
      match decodeMember cur kv with
      | Ok cur' => decodeMembers rest cur'
      | Err e => Err e
      end
  end.

#[global] Instance MemberJsonpb : Jsonpb := {
  jsonpb_UnmarshalString raw :=
    match raw with
    | RawDoc (JObject ms) => decodeMembers ms (mkCreateVolumeRequest "" [] ∅)
    | _ => Err JsonSyntaxError
    end
}.

(** ** A broker to run

    Two configured services whose plugins answer every call, an empty
    store, and a request with a name and one capability. *)

Definition demoVolume : Volume := mkVolume "vol-1" (<["share" := "10.0.0.1:/export"]> ∅).

Definition demoRegistry : ScriptedRegistry :=
  mkScriptedRegistry (<["svc-a" := "drv-a"]> (<["svc-b" := "drv-b"]> ∅)) []
    (Ok (Some demoVolume)) None.

Definition demoStore : MemStore := mkMemStore ∅ ∅ (∅, ∅) None.

Definition demoBroker : Broker MemStore ScriptedRegistry := (New demoStore demoRegistry).1.

Definition demoRequest : RawMessage :=
  RawDoc (JObject [("name", JString "disk"); ("volume_capabilities", JArray [JObject []])]).

Definition demoDetails (serviceID planID : string) : ProvisionDetails :=
  mkProvisionDetails serviceID planID "org-1" "space-1" demoRequest.

(** The broker after the instance [i1] of [svc-a] was provisioned. *)
Definition provisionedBroker : Broker MemStore ScriptedRegistry :=
  serve [OpProvision "i1" (demoDetails "svc-a" "plan-1")] demoBroker.

(** A binding of [i1] with a mount point, the read-only flag and the two
    identities. *)
Definition customBinding : BindDetails :=
  mkBindDetails "app-1" "svc-a"
    (RawDoc (JObject [("mount", JString "/custom"); ("readonly", JBool true);
                      ("uid", JString "1000"); ("gid", JString "2000")])).

(** The binding the broker answers [customBinding] with. *)
Definition customMount : Binding :=
  mkBinding (Some EmptyStruct)
    [mkVolumeMount "drv-a" "/custom" "r" "shared"
       (mkSharedDevice "i1-volume"
          (<["binding-params" := CfgMap (<["gid" := "2000"]> (<["uid" := "1000"]> ∅))]>
           (<["attributes" := CfgMap (VolumeContext demoVolume)]>
            (<["id" := CfgString "vol-1"]> ∅))))].

(** A binding of [i1] whose [mount] is a number. *)
Definition numberMountBinding : BindDetails :=
  mkBindDetails "app-1" "svc-a" (RawDoc (JObject [("mount", JNumber "5")])).

(** The request [demoRequest] decoded. *)
Definition demoConfiguration : CreateVolumeRequest :=
  mkCreateVolumeRequest "disk" [Capability (JObject [])] ∅.

(** [provisionedBroker] with its store read back: the fingerprint of [i1]
    is a generic document. *)
Definition reloadedBroker : Broker MemStore ScriptedRegistry :=
  mkBroker (Restore (store provisionedBroker)).2 (servicesRegistry provisionedBroker)
    (controllerProbed provisionedBroker) (history provisionedBroker).

(** ** What a method leaves alone *)

(** A method that leaves the latch as it is and whose events all satisfy
    [P]. *)
Definition steady {S W A} (P : event -> bool) (m : M S W A) : Prop :=
  forall b,
    controllerProbed (m b).2 = controllerProbed b /\
    exists evs, history (m b).2 = history b ++ evs /\ forallb P evs = true.

(** The three values of a fingerprint slot that stand for [fp]: the
    pointer, the value, and the generic document of its encoding. *)
Definition represents (v : iface) (fp : ServiceFingerPrint) : Prop :=
  v = IfacePtrFingerPrint fp \/ v = IfaceFingerPrint fp \/
  v = IfaceGeneric (marshal_ServiceFingerPrint fp).

(** Two instance records that differ at most in the representation of the
    fingerprint. *)
Definition sameInstance (i1 i2 : ServiceInstance) : Prop :=
  instanceIdentity i1 = instanceIdentity i2 /\
  (SI_ServiceFingerPrint i1 = SI_ServiceFingerPrint i2 \/
   exists fp, represents (SI_ServiceFingerPrint i1) fp /\ represents (SI_ServiceFingerPrint i2) fp).

(** Two stores, and two brokers, that agree on everything but the
    representation of the stored fingerprints. *)
Definition sameStore (s1 s2 : MemStore) : Prop :=
  bindings s1 = bindings s2 /\
  saveError s1 = saveError s2 /\
  forall id, option_Forall2 sameInstance (instances s1 !! id) (instances s2 !! id).

Definition sameBroker {W} (b1 b2 : Broker MemStore W) : Prop :=
  servicesRegistry b1 = servicesRegistry b2 /\
  controllerProbed b1 = controllerProbed b2 /\
  history b1 = history b2 /\
  sameStore (store b1) (store b2).

(** The identity of the record a [Provision] builds. *)
Definition provisionIdentity (details : ProvisionDetails) : string * string * string * string :=
  (PD_ServiceID details, PD_PlanID details, PD_OrganizationGUID details, PD_SpaceGUID details).

(** The record a [Provision] stores. *)
Definition provisionedInstance (details : ProvisionDetails) (fingerprint : ServiceFingerPrint)
  : ServiceInstance :=
  mkServiceInstance (PD_ServiceID details) (PD_PlanID details) (PD_OrganizationGUID details)
    (PD_SpaceGUID details) (IfaceFingerPrint fingerprint).

(** A registry and a plugin that answer every call of [Provision] for the
    service of [details] and the request [configuration], now and after
    any such call: [healthy] holds of the states they go through. *)
Definition serves {W} `{!ServicesRegistry W} (healthy : W -> Prop) (details : ProvisionDetails)
    (configuration : CreateVolumeRequest) : Prop :=
  (forall w, healthy w ->
     exists w', IdentityClient (PD_ServiceID details) w = (None, w') /\ healthy w') /\
  (forall w, healthy w ->
     exists w', Probe (PD_ServiceID details) w = (None, w') /\ healthy w') /\
  (forall w, healthy w ->
     exists w', ControllerClient (PD_ServiceID details) w = (None, w') /\ healthy w') /\
  (forall w, healthy w ->
     exists volInfo w',
       CreateVolume (PD_ServiceID details) configuration w = (Ok volInfo, w') /\ healthy w').

(** The history of a process: failed probes and no controller call while
    the latch is unset; one successful probe and none after it once the
    latch is set. *)
Definition gateInvariant {S W} (b : Broker S W) : Prop :=
  if controllerProbed b then
    exists pre serviceID post,
      history b = pre ++ EvProbe serviceID None :: post /\
      forallb beforeProbe pre = true /\ forallb afterProbe post = true
  else forallb beforeProbe (history b) = true.

(** Two runs with the same outcome that leave the same brokers. *)
Definition sameRun {W A} (r1 r2 : outcome A * Broker MemStore W) : Prop :=
  r1.1 = r2.1 /\ sameBroker r1.2 r2.2.

(** The events of the critical section. *)
Definition isLocking (ev : event) : bool :=
  match ev with
  | EvLock | EvSave _ | EvUnlock => true
  | _ => false
  end.

(** A method that returned without taking the mutex: it did not succeed,
    the store is as it was, and no [Save] ran. *)
Definition returnsBeforeLock {S W A} (b : Broker S W)
    (res : outcome (A * option error) * Broker S W) : Prop :=
  (forall v, res.1 <> Ret (v, None)) /\
  store res.2 = store b /\
  exists evs, history res.2 = history b ++ evs /\ forallb (fun ev => negb (isLocking ev)) evs = true.

(** A method that took the mutex and ran [body] under it, from [b0] on:
    the store was still as the method found it, and [Save] ran on the store
    the body left, once and last before the mutex was released; its error
    is the method's unless the body had one. *)
Definition exitsThroughSave {S W A} `{!Store S} (body : M S W (A * option error))
    (b : Broker S W) (res : outcome (A * option error) * Broker S W) : Prop :=
  exists pre b0 r b1 mid,
    store b0 = store b /\
    history b0 = history b ++ pre ++ [EvLock] /\
    forallb (fun ev => negb (isLocking ev)) pre = true /\
    body b0 = (r, b1) /\
    history b1 = history b0 ++ mid /\
    forallb (fun ev => negb (isLocking ev)) mid = true /\
    store res.2 = (Save (store b1)).2 /\
    history res.2 = history b1 ++ [EvSave (Save (store b1)).1; EvUnlock] /\
    res.1 = match r with
            | Ret (v, Some e) => Ret (v, Some e)
            | Ret (v, None) => Ret (v, (Save (store b1)).1)
            | Panic => Panic
            end.

(** ** Further vocabulary of the properties *)

(** An event that is no call of a controller. *)
Definition offController (ev : event) : bool := negb (isControllerCall ev).

(** A registry and a plugin that answer every call of [Provision] as in
    [serves], the plugin's [CreateVolume] with a volume. *)
Definition servesVolumes {W} `{!ServicesRegistry W} (healthy : W -> Prop)
    (details : ProvisionDetails) (configuration : CreateVolumeRequest) : Prop :=
  (forall w, healthy w ->
     exists w', IdentityClient (PD_ServiceID details) w = (None, w') /\ healthy w') /\
  (forall w, healthy w ->
     exists w', Probe (PD_ServiceID details) w = (None, w') /\ healthy w') /\
  (forall w, healthy w ->
     exists w', ControllerClient (PD_ServiceID details) w = (None, w') /\ healthy w') /\
  (forall w, healthy w ->
     exists volume w',
       CreateVolume (PD_ServiceID details) configuration w = (Ok (Some volume), w') /\
       healthy w').

(** The binding [Bind] returns for the volume, the bind parameters and the
    driver name at hand. *)
Definition bindingFor (instanceID : string) (volume : Volume) (mode driverName containerDir : string)
    (bindingParams : option (gmap string string)) : Binding :=
  mkBinding (Some EmptyStruct)
    [mkVolumeMount driverName containerDir mode "shared"
       (mkSharedDevice (instanceID +:+ "-volume")
          (<["binding-params" := match bindingParams with
                                 | None => CfgNilMap
                                 | Some m => CfgMap m
                                 end]>
           (<["attributes" := CfgMap (VolumeContext volume)]>
            (<["id" := CfgString (VolumeId volume)]> ∅))))].

(** An element of a path that [path.Clean] keeps where it stands: not the
    empty one, not [.] and not [..]. *)
Definition plainElement (c : string) : bool :=
  negb (bool_decide (c = "")) && negb (bool_decide (c = ".")) && negb (bool_decide (c = "..")).

(** An element that [path.Clean] does not drop by itself: not the empty one
    and not [.]. *)
Definition keptElement (c : string) : bool :=
  negb (bool_decide (c = "")) && negb (bool_decide (c = ".")).

(** The string has a slash in it. *)
Fixpoint hasSlash (s : string) : bool :=
  match s with
  | EmptyString => false
  | String c r => bool_decide (c = "/"%char) || hasSlash r
  end.

(** ** The start of the process: [main.go] *)

Module main.

(** The flag variables of [main.go], after [flag.Parse], and its two package
    variables [dbUsername] and [dbPassword]. *)
Record Flags : Type := mkFlags {
  dataDir : string;
  atAddress : string;
  username : string;
  password : string;
  serviceSpec : string;
  dbDriver : string;
  dbHostname : string;
  dbPort : string;
  dbName : string;
  dbCACert : string;
  cfServiceName : string;
  dbUsername : string;
  dbPassword : string
}.

(** The environment of the process, as far as [main.go] reads it: the two
    plain variables, and [VCAP_SERVICES] as the bytes that [json.Unmarshal]
    is given. *)
Record Environ : Type := mkEnviron {
  DB_USERNAME : option string;
  DB_PASSWORD : option string;
  VCAP_SERVICES : option RawMessage
}.

(** How a step of the start-up ends: it goes on, the process exits with a
    status, [logger.Fatal] logs the action and panics with the error, or the
    step panics by itself (a failed type assertion, an index out of range). *)
Inductive ending (A : Type) : Type :=
  | Goes (a : A)
  | Exit (code : nat)
  | Fatal (action : string) (err : error)
  | Panics.
Arguments Goes {A} a.
Arguments Exit {A} code.
Arguments Fatal {A} action err.
Arguments Panics {A}.

#[global] Instance ending_ret : MRet ending := fun A a => Goes a.
#[global] Instance ending_bind : MBind ending := fun A B k m =>
  match m with
  | Goes a => k a
  | Exit code => Exit code
  | Fatal action err => Fatal action err
  | Panics => Panics
  end.

(** [checkParams]. *)
Definition checkParams (flags : Flags) : ending unit :=
  if decide (dataDir flags = "" /\ dbDriver flags = "") then Exit 1
  else if decide (serviceSpec flags = "") then Exit 1
  else Goes tt.

(** [parseEnvironment]: [os.LookupEnv] gives the empty string for a variable
    that is not set. *)
Definition parseEnvironment (env : Environ) (flags : Flags) : Flags :=
  mkFlags (dataDir flags) (atAddress flags) (username flags) (password flags)
    (serviceSpec flags) (dbDriver flags) (dbHostname flags) (dbPort flags) (dbName flags)
    (dbCACert flags) (cfServiceName flags)
    (default "" (DB_USERNAME env)) (default "" (DB_PASSWORD env)).

(** Decoding the members of an object into a [map[string][]interface{}]: an
    array gives its items, [null] the nil slice under the key, anything
    else a type error. *)
Fixpoint unmarshal_binding_members (ms : list (string * json)) (cur : gmap string (list json))
  : result (gmap string (list json)) :=
  match ms with
  | [] => Ok cur
  | (k, j) :: rest =>
      match j with
      | JArray items => unmarshal_binding_members rest (<[k := items]> cur)
      | JNull => unmarshal_binding_members rest (<[k := []]> cur)
      | _ => Err (JsonUnmarshalTypeError k)
      end
  end.

(** [json.Unmarshal([]byte(services), &stuff)]. *)
Definition json_Unmarshal_bindings (services : RawMessage) : result (gmap string (list json)) :=
  match services with
  | RawNil => Err JsonSyntaxError
  | RawInvalid => Err JsonSyntaxError
  | RawDoc JNull => Ok ∅
  | RawDoc (JObject ms) => unmarshal_binding_members ms ∅
  | RawDoc _ => Err (JsonUnmarshalTypeError "stuff")
  end.

(** The [map[string]interface{}] of an object: of two members with one
    name the map has the later. *)
Definition object_map (ms : list (string * json)) : gmap string json :=
  foldl (fun (m : gmap string json) (kv : string * json) => <[kv.1 := kv.2]> m) ∅ ms.

(** The assertion [v.(map[string]interface{})] on a decoded value or on a
    missing map entry. *)
Definition assert_map (v : option json) : ending (gmap string json) :=
  match v with
  | Some (JObject ms) => Goes (object_map ms)
  | _ => Panics
  end.

(** The assertion [v.(string)]. *)
Definition assert_string (v : option json) : ending string :=
  match v with
  | Some (JString s) => Goes s
  | _ => Panics
  end.

Section Start.
(** [fmt.Sprintf("%.0f", f)] on the [float64] of a number literal. *)
Variable Sprintf_0f : string -> string.

(** The port: the string if it is one, else the assertion
    [credentials["port"].(float64)] and its formatting. *)
Definition credentials_port (v : option json) : ending string :=
  match v with
  | Some (JString s) => Goes s
  | Some (JNumber lit) => Goes (Sprintf_0f lit)
  | _ => Panics
  end.

(** [parseVcapServices]. *)
Definition parseVcapServices (env : Environ) (flags : Flags) : ending Flags :=
  if decide (dbDriver flags = "") then
    Fatal "missing-db-driver-parameter"
      (errorString "dbDriver parameter is required for cf deployed broker")
  else
    match VCAP_SERVICES env with
    | None =>
        Fatal "missing-vcap-services-environment" (errorString "missing VCAP_SERVICES environment")
    | Some services =>
        match json_Unmarshal_bindings services with
        | Err err => Fatal "json-unmarshal-error" err
        | Ok stuff =>
            match stuff !! cfServiceName flags with
            | None =>
                Fatal "missing-service-binding"
                  (errorString "VCAP_SERVICES missing specified db service")
            | Some stuff2 =>
                stuff3 ← assert_map (stuff2 !! 0%nat);
                credentials ← assert_map (stuff3 !! "credentials");
                dbUsername ← assert_string (credentials !! "username");
                dbPassword ← assert_string (credentials !! "password");
                dbHostname ← assert_string (credentials !! "hostname");
                dbPort ← credentials_port (credentials !! "port");
                dbName ← assert_string (credentials !! "name");
                mret (mkFlags (dataDir flags) (atAddress flags) (username flags)
                        (password flags) (serviceSpec flags) (dbDriver flags)
                        dbHostname dbPort dbName (dbCACert flags) (cfServiceName flags)
                        dbUsername dbPassword)
            end
        end
    end.

(** The arguments [createServer] gives to [brokerstore.NewStore]. *)
Record StoreArguments : Type := mkStoreArguments {
  storeDriver : string;
  storeUsername : string;
  storePassword : string;
  storeHostname : string;
  storePort : string;
  storeName : string;
  storeCACert : string;
  storeFileName : string
}.

(** [createServer], up to its call of [brokerstore.NewStore];
    [filepath.Join] is [path.Join] where the separator is the slash. *)
Definition createServer (env : Environ) (flags : Flags) : ending StoreArguments :=
  let fileName := path_Join [dataDir flags; "csi-general-services.json"] in
  flags ← (if decide (cfServiceName flags <> "") then parseVcapServices env flags
           else mret flags);
  mret (mkStoreArguments (dbDriver flags) (dbUsername flags) (dbPassword flags)
          (dbHostname flags) (dbPort flags) (dbName flags) (dbCACert flags) fileName).

(** [main], from the parsed command line to the store. *)
Definition main (env : Environ) (flags : Flags) : ending StoreArguments :=
  let flags := parseEnvironment env flags in
  _ ← checkParams flags;
  createServer env flags.

End Start.
End main.

(** The flags agree outside the five database settings that a service
    binding gives. *)
Definition sameSettings (f g : main.Flags) : Prop :=
  main.dataDir f = main.dataDir g /\ main.atAddress f = main.atAddress g /\
  main.username f = main.username g /\ main.password f = main.password g /\
  main.serviceSpec f = main.serviceSpec g /\ main.dbDriver f = main.dbDriver g /\
  main.dbCACert f = main.dbCACert g /\ main.cfServiceName f = main.cfServiceName g.

(** Two environments with the same [DB_USERNAME] and [DB_PASSWORD]. *)
Definition sameVariables (env env2 : main.Environ) : Prop :=
  main.DB_USERNAME env = main.DB_USERNAME env2 /\ main.DB_PASSWORD env = main.DB_PASSWORD env2.

(** ** More brokers to run *)

(** A store that takes no new record: the two creations fail. *)
Record FullStore : Type := Full { content : MemStore }.

#[global] Instance FullStore_Store : Store FullStore := {
  RetrieveInstanceDetails id s := RetrieveInstanceDetails id (content s);
  RetrieveBindingDetails id s := RetrieveBindingDetails id (content s);
  CreateInstanceDetails id details s := (Some (errorString "store is full"), s);
  CreateBindingDetails id details s := (Some (errorString "store is full"), s);
  DeleteInstanceDetails id s :=
    ((DeleteInstanceDetails id (content s)).1, Full (DeleteInstanceDetails id (content s)).2);
  DeleteBindingDetails id s :=
    ((DeleteBindingDetails id (content s)).1, Full (DeleteBindingDetails id (content s)).2);
  IsInstanceConflict id details s := IsInstanceConflict id details (content s);
  IsBindingConflict id details s := IsBindingConflict id details (content s);
  Restore s := ((Restore (content s)).1, Full (Restore (content s)).2);
  Save s := ((Save (content s)).1, Full (Save (content s)).2)
}.

Definition fullBroker : Broker FullStore ScriptedRegistry :=
  mkBroker (Full demoStore) demoRegistry false [].

(** The plugins of [demoRegistry] with a controller that refuses to create
    a volume, and with one that answers without a volume. *)
Definition refusingRegistry : ScriptedRegistry :=
  mkScriptedRegistry (drivers demoRegistry) [] (Err (errorString "out of space")) None.

Definition refusingBroker : Broker MemStore ScriptedRegistry :=
  mkBroker demoStore refusingRegistry false [].

Definition nilVolumeRegistry : ScriptedRegistry :=
  mkScriptedRegistry (drivers demoRegistry) [] (Ok None) None.

(** The broker after the instance [i1] was provisioned by a plugin that
    answered without a volume. *)
Definition nilVolumeBroker : Broker MemStore ScriptedRegistry :=
  serve [OpProvision "i1" (demoDetails "svc-a" "plan-1")]
    (mkBroker demoStore nilVolumeRegistry false []).

(** [demoBroker] on a medium that fails every [Save]. *)
Definition unsavedBroker : Broker MemStore ScriptedRegistry :=
  mkBroker (mkMemStore ∅ ∅ (∅, ∅) (Some (errorString "disk full"))) demoRegistry false [].

(** The provisioned broker after the binding [b1] of [i1]. *)
Definition boundBroker : Broker MemStore ScriptedRegistry :=
  serve [OpBind "i1" "b1" customBinding] provisionedBroker.

(** A command line and an environment of a broker pushed to Cloud Foundry. *)
Definition pushedFlags : main.Flags :=
  main.mkFlags "" "0.0.0.0:8999" "admin" "admin" "spec.json" "mysql" "" "" "" "" "sql-db" "" "".

Definition pushedCredentials : json :=
  JObject [("username", JString "broker"); ("password", JString "secret");
           ("hostname", JString "10.0.0.5"); ("port", JNumber "3306");
           ("name", JString "brokerdb")].

Definition pushedEnviron : main.Environ :=
  main.mkEnviron (Some "ignored") None
    (Some (RawDoc (JObject [("sql-db", JArray [JObject [("credentials", pushedCredentials)]])]))).

Definition boundFlags : main.Flags :=
  main.mkFlags "" "0.0.0.0:8999" "admin" "admin" "spec.json" "mysql" "10.0.0.5" "3306" "brokerdb"
    "" "sql-db" "broker" "secret".

(** [%.0f] on the literal of a whole number. *)
Definition wholeNumber (lit : string) : string := lit.

(** [demoBroker] after the probe of [svc-a]. *)
Definition probedBroker : Broker MemStore ScriptedRegistry :=
  (probeController "svc-a" demoBroker).2.

(** A binding of [i1] for a service the registry does not know. *)
Definition strayBinding : BindDetails := mkBindDetails "app-1" "svc-x" RawNil.

(** An environment that lists the service with [null] for its bindings. *)
Definition unboundEnviron : main.Environ :=
  main.mkEnviron None None (Some (RawDoc (JObject [("sql-db", JNull)]))).

(** * Properties *)

(** ** The parameter evaluators *)

(** C7: mode evaluation gives "r" for [readonly] true, "rw" for [readonly]
    false and for a map without the key, and the invalid-parameters error
    for a [readonly] that is not a boolean. *)
Theorem evaluateMode_readonly (parameters : gmap string json) :
  (parameters !! "readonly" = Some (JBool true) -> evaluateMode parameters = Ok "r") /\
  (parameters !! "readonly" = Some (JBool false) -> evaluateMode parameters = Ok "rw") /\
  (parameters !! "readonly" = None -> evaluateMode parameters = Ok "rw") /\
  (forall v, parameters !! "readonly" = Some v -> (forall b, v <> JBool b) ->
             evaluateMode parameters = Err ErrRawParamsInvalid).
Proof.
  unfold evaluateMode. repeat split.
  - by intros ->.
  - by intros ->.
  - by intros ->.
  - intros v -> Hv. destruct v; try done. by destruct (Hv b).
Qed.

(** The three bindings of the spec's example: [{"readonly": true}],
    [{"readonly": "yes"}] and no [readonly] key. *)
Lemma evaluateMode_readonly_examples :
  evaluateMode (<["readonly" := JBool true]> ∅) = Ok "r" /\
  evaluateMode (<["readonly" := JBool false]> ∅) = Ok "rw" /\
  evaluateMode ∅ = Ok "rw" /\
  evaluateMode (<["readonly" := JString "yes"]> ∅) = Err ErrRawParamsInvalid.
Proof.
  split; [|split; [|split]].
  - exact (proj1 (evaluateMode_readonly (<["readonly" := JBool true]> ∅)) eq_refl).
  - exact (proj1 (proj2 (evaluateMode_readonly (<["readonly" := JBool false]> ∅))) eq_refl).
  - exact (proj1 (proj2 (proj2 (evaluateMode_readonly ∅))) eq_refl).
  - refine (proj2 (proj2 (proj2 (evaluateMode_readonly (<["readonly" := JString "yes"]> ∅))))
              (JString "yes") eq_refl _).
    intros b. discriminate.
Defined.

(** A [mount] that is a non-empty string is the container path as it is. *)
Lemma evaluateContainerPath_mount (parameters : gmap string json) (volId s : string) :
  parameters !! "mount" = Some (JString s) -> s <> "" ->
  evaluateContainerPath parameters volId = Ret s.
Proof.
  unfold evaluateContainerPath. intros -> Hs. by destruct s.
Qed.

(** Without a [mount], or with the empty string for it, the container
    path is the default directory joined with the instance identifier. *)
Lemma evaluateContainerPath_default (parameters : gmap string json) (volId : string) :
  parameters !! "mount" = None \/ parameters !! "mount" = Some (JString "") ->
  evaluateContainerPath parameters volId = Ret (path_Join [DefaultContainerPath; volId]).
Proof.
  unfold evaluateContainerPath. by intros [-> | ->].
Qed.

(** The join cleans the path: an instance identifier with [..] leaves the
    default directory. *)
Example evaluateContainerPath_cleaned :
  evaluateContainerPath ∅ "../other" = Ret "/var/vcap/other".
Proof. reflexivity. Qed.

(** C8: at the bind parameters [{"mount": 5}] the evaluation of the
    container path panics, where the default directory joined with the
    instance identifier, [/var/vcap/data/instance-1], is called for. *)
Theorem evaluateContainerPath_mount_number :
  evaluateContainerPath (<["mount" := JNumber "5"]> ∅) "instance-1" = Panic /\
  path_Join [DefaultContainerPath; "instance-1"] = "/var/vcap/data/instance-1".
Proof. split; reflexivity. Qed.

(** ** The probe-once gate *)

Section Gate.
Context {S W : Type} `{!Store S} `{!ServicesRegistry W} `{!Jsonpb}.
Implicit Types (P : event -> bool) (b : Broker S W).

#[local] Abbreviation M := (M S W).

Lemma run_bind {A B} (m : M A) (k : A -> M B) b :
  (m ≫= k) b = match m b with
               | (Ret a, b') => k a b'
               | (Panic, b') => (Panic, b')
               end.
Proof. reflexivity. Qed.

Lemma steady_here {A} P (m : M A) :
  (forall b, (m b).2 = b) -> steady P m.
Proof. intros Hm b. rewrite Hm. split; [done|]. exists []. by rewrite app_nil_r. Qed.

Lemma steady_ret {A} P (a : A) : steady P (mret a : M A).
Proof. by apply steady_here. Qed.

Lemma steady_panic {A} P : steady P (panic : M A).
Proof. by apply steady_here. Qed.

Lemma steady_readStore {A} P (f : S -> A) : steady P (readStore f : M A).
Proof. by apply steady_here. Qed.

Lemma steady_readRegistry {A} P (f : W -> A) : steady P (readRegistry f : M A).
Proof. by apply steady_here. Qed.

Lemma steady_bind {A B} P (m : M A) (k : A -> M B) :
  steady P m -> (forall a, steady P (k a)) -> steady P (m ≫= k).
Proof.
  intros Hm Hk b. rewrite run_bind. destruct (Hm b) as [Hl (evs & Hh & Hp)].
  destruct (m b) as [[a|] b1]; simpl in *.
  - destruct (Hk a b1) as [Hl' (evs' & Hh' & Hp')]. split; [congruence|].
    exists (evs ++ evs'). rewrite Hh', Hh, forallb_app, Hp, Hp'. by rewrite app_assoc.
  - split; [done|]. by exists evs.
Qed.

Lemma steady_emit P (ev : event) : P ev = true -> steady P (emit ev : M unit).
Proof. intros Hev b. split; [done|]. exists [ev]. simpl. by rewrite Hev. Qed.

Lemma steady_onStore {A} P (f : S -> A * S) : steady P (onStore f : M A).
Proof.
  intros b. unfold onStore. destruct (f (store b)). split; [done|]. exists []. by rewrite app_nil_r.
Qed.

Lemma steady_onRegistry {A} P (f : W -> A * W) : steady P (onRegistry f : M A).
Proof.
  intros b. unfold onRegistry. destruct (f (servicesRegistry b)).
  split; [done|]. exists []. by rewrite app_nil_r.
Qed.

Lemma steady_lockDeferSave {A} P (body : M (A * option error)) :
  P EvLock = true -> (forall out, P (EvSave out) = true) -> P EvUnlock = true ->
  steady P body -> steady P (lockDeferSave body).
Proof.
  intros HL HS HU Hb b. unfold lockDeferSave. simpl.
  match goal with |- context [body ?b0] => destruct (Hb b0) as [Hl (evs & Hh & Hp)];
    destruct (body b0) as [r b1] end.
  simpl in *. destruct (Save (store b1)) as [out s2]. simpl. split; [done|].
  exists ([EvLock] ++ evs ++ [EvSave out; EvUnlock]).
  rewrite Hh, !forallb_app, Hp. simpl. rewrite HL, HS, HU. split; [|done].
  by rewrite <- !app_assoc.
Qed.

Ltac steady_step :=
  first
    [ apply steady_ret | apply steady_panic | apply steady_readStore | apply steady_readRegistry
    | apply steady_onStore | apply steady_onRegistry
    | apply steady_emit; reflexivity
    | apply steady_lockDeferSave; [reflexivity | intros ?; reflexivity | reflexivity |]
    | apply steady_bind; [|intros ?]
    | match goal with
      | |- steady _ (match ?x with _ => _ end) => destruct x
      | |- steady _ (if ?x then _ else _) => destruct x
      end ].

Ltac solve_steady :=
  unfold Provision_locked, Deprovision_locked, Bind_locked, Unbind_locked,
    instanceConflicts, bindingConflicts; cbv zeta; repeat steady_step.

(** The methods under the mutex emit nothing. *)
Lemma steady_Provision_locked P i d c v : steady P (Provision_locked i d c v : M _).
Proof. solve_steady. Qed.

Lemma steady_Deprovision_locked P i : steady P (Deprovision_locked i : M _).
Proof. solve_steady. Qed.

Lemma steady_Bind_locked P i bi d : steady P (Bind_locked i bi d : M _).
Proof. solve_steady. Qed.

Lemma steady_Unbind_locked P i bi : steady P (Unbind_locked i bi : M _).
Proof. solve_steady. Qed.

(** [probeController] with the latch set does nothing. *)
Lemma probeController_probed serviceID b :
  controllerProbed b = true -> probeController serviceID b = (Ret None, b).
Proof. intros Hl. unfold probeController. rewrite run_bind. simpl. by rewrite Hl. Qed.

(** [probeController] with the latch unset, by what the registry and the
    plugin answer. *)
Lemma probeController_unprobed serviceID b :
  controllerProbed b = false ->
  probeController serviceID b =
    match IdentityClient serviceID (servicesRegistry b) with
    | (Some e, w1) => (Ret (Some e), mkBroker (store b) w1 false (history b))
    | (None, w1) =>
        match Probe serviceID w1 with
        | (Some e, w2) =>
            (Ret (Some e), mkBroker (store b) w2 false (history b ++ [EvProbe serviceID (Some e)]))
        | (None, w2) =>
            (Ret None, mkBroker (store b) w2 true (history b ++ [EvProbe serviceID None]))
        end
    end.
Proof.
  destruct b as [s w l h]. simpl. intros ->. unfold probeController.
  rewrite run_bind. simpl. rewrite run_bind. unfold onRegistry at 1. simpl.
  destruct (IdentityClient serviceID w) as [[e|] w1]; [done|].
  rewrite run_bind. unfold onRegistry. simpl.
  by destruct (Probe serviceID w1) as [[e|] w2].
Qed.

(** Every request starts at the gate: it ends there on an error, and goes
    on otherwise without another probe and without a hand on the latch. *)
Lemma perform_gate (op : operation) :
  exists rest : M (option error),
    steady afterProbe rest /\
    forall b, perform op b =
      match probeController (operationService op) b with
      | (Ret (Some e), b1) => (Ret (Some e), b1)
      | (Ret None, b1) => rest b1
      | (Panic, b1) => (Panic, b1)
      end.
Proof.
  destruct op as [i d|i d|i bi d|i bi d]; unfold perform; simpl.
  - eexists (r ← _; mret r.2). split; cycle 1.
    + intros b. unfold Provision. rewrite !run_bind.
      destruct (probeController _ b) as [[[e|]|] b1]; [reflexivity| |reflexivity].
      rewrite run_bind. reflexivity.
    + solve_steady; apply steady_Provision_locked.
  - eexists (r ← _; mret r.2). split; cycle 1.
    + intros b. unfold Deprovision. cbv zeta. rewrite !run_bind.
      destruct (probeController _ b) as [[[e|]|] b1]; [reflexivity| |reflexivity].
      rewrite run_bind. reflexivity.
    + solve_steady; apply steady_Deprovision_locked.
  - eexists (r ← _; mret r.2). split; cycle 1.
    + intros b. unfold Bind. rewrite !run_bind.
      destruct (probeController _ b) as [[[e|]|] b1]; [reflexivity| |reflexivity].
      rewrite run_bind. reflexivity.
    + solve_steady; apply steady_Bind_locked.
  - eexists (r ← _; mret r.2). split; cycle 1.
    + intros b. unfold Unbind. rewrite !run_bind.
      destruct (probeController _ b) as [[[e|]|] b1]; [reflexivity| |reflexivity].
      rewrite run_bind. reflexivity.
    + solve_steady; apply steady_Unbind_locked.
Qed.

(** With the latch set a request issues no probe, whatever its service. *)
Lemma perform_probed (op : operation) b :
  controllerProbed b = true ->
  controllerProbed (perform op b).2 = true /\
  exists evs, history (perform op b).2 = history b ++ evs /\ forallb afterProbe evs = true.
Proof.
  intros Hl. destruct (perform_gate op) as (rest & Hrest & ->).
  rewrite probeController_probed by done. destruct (Hrest b) as [Hl' Hh]. by rewrite Hl'.
Qed.

(** With the latch unset and no client for the service, the request fails
    before any probe. *)
Lemma perform_no_client (op : operation) b e w1 :
  controllerProbed b = false ->
  IdentityClient (operationService op) (servicesRegistry b) = (Some e, w1) ->
  perform op b = (Ret (Some e), mkBroker (store b) w1 false (history b)).
Proof.
  intros Hl Hc. destruct (perform_gate op) as (rest & Hrest & ->).
  by rewrite probeController_unprobed, Hc.
Qed.

(** With the latch unset, a probe that fails fails the request and leaves
    the latch unset. *)
Lemma perform_probe_failed (op : operation) b e w1 w2 :
  controllerProbed b = false ->
  IdentityClient (operationService op) (servicesRegistry b) = (None, w1) ->
  Probe (operationService op) w1 = (Some e, w2) ->
  perform op b =
    (Ret (Some e),
     mkBroker (store b) w2 false (history b ++ [EvProbe (operationService op) (Some e)])).
Proof.
  intros Hl Hc Hp. destruct (perform_gate op) as (rest & Hrest & ->).
  by rewrite probeController_unprobed, Hc, Hp.
Qed.

(** With the latch unset, a probe that succeeds sets the latch, and is the
    only probe of the request. *)
Lemma perform_probe_succeeded (op : operation) b w1 w2 :
  controllerProbed b = false ->
  IdentityClient (operationService op) (servicesRegistry b) = (None, w1) ->
  Probe (operationService op) w1 = (None, w2) ->
  controllerProbed (perform op b).2 = true /\
  exists evs,
    history (perform op b).2 = history b ++ EvProbe (operationService op) None :: evs /\
    forallb afterProbe evs = true.
Proof.
  intros Hl Hc Hp. destruct (perform_gate op) as (rest & Hrest & ->).
  rewrite probeController_unprobed, Hc, Hp by done.
  match goal with |- context [rest ?b1] => destruct (Hrest b1) as [Hl' (evs & Hh & He)] end.
  simpl in *. split; [done|]. exists evs. by rewrite Hh, <- app_assoc.
Qed.

Lemma gateInvariant_perform (op : operation) b :
  gateInvariant b -> gateInvariant (perform op b).2.
Proof.
  unfold gateInvariant. destruct (controllerProbed b) eqn:Hl.
  - intros (pre & svc & post & Hh & Hpre & Hpost).
    destruct (perform_probed op b Hl) as [-> (evs & -> & Hevs)].
    exists pre, svc, (post ++ evs). rewrite Hh, forallb_app, Hpost, Hevs.
    by rewrite <- app_assoc.
  - intros Hh.
    destruct (IdentityClient (operationService op) (servicesRegistry b)) as [[e|] w1] eqn:Hc.
    { by rewrite (perform_no_client op b e w1). }
    destruct (Probe (operationService op) w1) as [[e|] w2] eqn:Hp.
    { rewrite (perform_probe_failed op b e w1 w2) by done. simpl.
      by rewrite forallb_app, Hh. }
    destruct (perform_probe_succeeded op b w1 w2) as [-> (evs & -> & Hevs)]; try done.
    by exists (history b), (operationService op), evs.
Qed.

Lemma gateInvariant_serve (ops : list operation) b :
  gateInvariant b -> gateInvariant (serve ops b).
Proof.
  revert b. induction ops as [|op ops IH]; intros b Hb; [done|].
  simpl. apply IH. by apply gateInvariant_perform.
Qed.

(** C1, as the code has it: the latch is one for the broker, not one for
    each service.  Over every sequence of requests of a process, probes
    are issued only while the latch is unset; a probe that fails fails its
    request and leaves the latch unset, so that the next request probes
    again; the first probe that succeeds, of whatever service, sets the
    latch, and from then on no request issues a probe, for any service;
    no controller is called before that probe. *)
Theorem probe_gate_is_process_wide :
  (forall (s : S) (w : W) (ops : list operation),
     let b := serve ops (New s w).1 in
     if controllerProbed b then
       exists pre serviceID post,
         history b = pre ++ EvProbe serviceID None :: post /\
         forallb beforeProbe pre = true /\ forallb afterProbe post = true
     else forallb beforeProbe (history b) = true) /\
  (forall (op : operation) b,
     controllerProbed b = true ->
     controllerProbed (perform op b).2 = true /\
     exists evs, history (perform op b).2 = history b ++ evs /\ forallb afterProbe evs = true) /\
  (forall (op : operation) b e w1 w2,
     controllerProbed b = false ->
     IdentityClient (operationService op) (servicesRegistry b) = (None, w1) ->
     Probe (operationService op) w1 = (Some e, w2) ->
     perform op b =
       (Ret (Some e),
        mkBroker (store b) w2 false (history b ++ [EvProbe (operationService op) (Some e)]))) /\
  (forall (op : operation) b w1 w2,
     controllerProbed b = false ->
     IdentityClient (operationService op) (servicesRegistry b) = (None, w1) ->
     Probe (operationService op) w1 = (None, w2) ->
     controllerProbed (perform op b).2 = true /\
     exists evs,
       history (perform op b).2 = history b ++ EvProbe (operationService op) None :: evs /\
       forallb afterProbe evs = true).
Proof.
  split; [|split; [|split]].
  - intros s w ops. apply (gateInvariant_serve ops). unfold New, gateInvariant.
    by destruct (Restore s).
  - apply perform_probed.
  - apply perform_probe_failed.
  - apply perform_probe_succeeded.
Qed.

End Gate.

(** C1 at a process whose first probe fails: the request fails with the
    probe's error and the latch stays unset. *)
Lemma probe_gate_failed_probe_example :
  let b := mkBroker demoStore
             (mkScriptedRegistry (drivers demoRegistry) [Some (errorString "unavailable")]
                (createResult demoRegistry) None) false [] in
  perform (OpProvision "i1" (demoDetails "svc-a" "plan-1")) b =
    (Ret (Some (errorString "unavailable")),
     mkBroker demoStore demoRegistry false [EvProbe "svc-a" (Some (errorString "unavailable"))]).
Proof.
  exact (proj1 (proj2 (proj2 (@probe_gate_is_process_wide MemStore ScriptedRegistry _ _ MemberJsonpb)))
           (OpProvision "i1" (demoDetails "svc-a" "plan-1"))
           (mkBroker demoStore
              (mkScriptedRegistry (drivers demoRegistry) [Some (errorString "unavailable")]
                 (createResult demoRegistry) None) false [])
           (errorString "unavailable") _ _ eq_refl eq_refl eq_refl).
Defined.

(** C1, as stated, fails: after the instance [i1] of [svc-a] was
    provisioned, provisioning [i2] of [svc-b] calls the controller of
    [svc-b] though no probe of [svc-b] was ever issued. *)
Lemma probe_not_per_service :
  let b := serve [OpProvision "i1" (demoDetails "svc-a" "plan-1");
                  OpProvision "i2" (demoDetails "svc-b" "plan-1")] demoBroker in
  history b =
    [EvProbe "svc-a" None;
     EvCreateVolume "svc-a" (mkCreateVolumeRequest "disk" [Capability (JObject [])] ∅);
     EvLock; EvSave None; EvUnlock;
     EvCreateVolume "svc-b" (mkCreateVolumeRequest "disk" [Capability (JObject [])] ∅);
     EvLock; EvSave None; EvUnlock] /\
  probedBeforeUse "svc-b" (history b) = false.
Proof. vm_compute. split; reflexivity. Qed.

(** One step of a method: the bind is run and the primitive under it
    unfolded. *)
Ltac mstep :=
  rewrite run_bind;
  unfold onRegistry, onStore, readStore, readRegistry, emit; simpl.

(** A leaf of a locked method that cannot be the result at hand. *)
Ltac saved :=
  simpl; match goal with |- context [Save ?s] => destruct (Save s) end; done.

(** ** The critical section *)

Section Lifecycle.
Context {S W : Type} `{!Store S} `{!ServicesRegistry W} `{!Jsonpb}.
Implicit Types (P : event -> bool) (b : Broker S W).

#[local] Abbreviation M := (M S W).

(** The gate touches neither the store nor the mutex, and issues at most
    the one probe. *)
Lemma probeController_frame serviceID b :
  exists r b1,
    probeController serviceID b = (Ret r, b1) /\
    store b1 = store b /\
    ((history b1 = history b /\ (r = None -> controllerProbed b = true)) \/
     (exists res, history b1 = history b ++ [EvProbe serviceID res] /\
                  controllerProbed b = false /\ (r = None -> res = None))) /\
    (r = None -> controllerProbed b1 = true) /\
    (r <> None -> controllerProbed b1 = false).
Proof.
  destruct (controllerProbed b) eqn:Hl.
  - rewrite probeController_probed by done. exists None, b. naive_solver.
  - rewrite probeController_unprobed by done.
    destruct (IdentityClient serviceID (servicesRegistry b)) as [[e|] w1].
    { eexists _, _. split; [done|]. simpl. naive_solver. }
    destruct (Probe serviceID w1) as [[e|] w2].
    + eexists _, _. split; [done|]. simpl. split; [done|]. split; [|done].
      right. by exists (Some e).
    + eexists _, _. split; [done|]. simpl. split; [done|]. split; [|done].
      right. by exists None.
Qed.

Lemma lockDeferSave_exits {A} (body : M (A * option error)) b b0 pre :
  store b0 = store b ->
  history b0 = history b ++ pre ->
  forallb (fun ev => negb (isLocking ev)) pre = true ->
  steady (fun ev => negb (isLocking ev)) body ->
  exitsThroughSave body b (lockDeferSave body b0).
Proof.
  intros Hs Hh Hpre Hbody. unfold lockDeferSave, exitsThroughSave. simpl.
  match goal with |- context [body ?b'] => set (bL := b') end.
  destruct (Hbody bL) as [_ (mid & Hmid & HmidP)].
  destruct (body bL) as [r b1] eqn:Hrun. simpl in *.
  destruct (Save (store b1)) as [out s2] eqn:Hsave. simpl.
  exists pre, bL, r, b1, mid. rewrite Hsave. simpl.
  repeat split; try done.
  - subst bL. simpl. by rewrite Hh, <- app_assoc.
  - by destruct r as [[v [e|]]|].
Qed.

Lemma probeController_history serviceID b :
  exists r b1 evs,
    probeController serviceID b = (Ret r, b1) /\
    store b1 = store b /\
    history b1 = history b ++ evs /\
    forallb isProbe evs = true.
Proof.
  destruct (probeController_frame serviceID b) as (r & b1 & Hrun & Hs & [[Hh _]|(res & Hh & _)] & _).
  - exists r, b1, []. by rewrite app_nil_r.
  - by exists r, b1, [EvProbe serviceID res].
Qed.

Lemma probes_not_locking (evs : list event) :
  forallb isProbe evs = true -> forallb (fun ev => negb (isLocking ev)) evs = true.
Proof.
  induction evs as [|ev evs IH]; simpl; [done|].
  intros [Hev Hevs]%andb_prop. rewrite IH by done. by destruct ev.
Qed.

Ltac before_lock Hs Hh Hevs :=
  left; split; [by intros ?|]; split; simpl; [exact Hs|];
  first [ eexists; split; [exact Hh | by apply probes_not_locking]
        | eexists; split;
          [ rewrite Hh, <- app_assoc; reflexivity
          | rewrite forallb_app, (probes_not_locking _ Hevs); reflexivity ] ].

Lemma Provision_exit instanceID details b :
  returnsBeforeLock b (Provision instanceID details b) \/
  exists configuration volInfo,
    exitsThroughSave (Provision_locked instanceID details configuration volInfo) b
      (Provision instanceID details b).
Proof.
  unfold Provision. rewrite run_bind.
  destruct (probeController_history (PD_ServiceID details) b)
    as (r & b1 & evs & -> & Hs & Hh & Hevs).
  destruct r as [e|]; [before_lock Hs Hh Hevs|].
  destruct (jsonpb_UnmarshalString _) as [configuration|e]; [|before_lock Hs Hh Hevs].
  destruct (decide (CVR_Name configuration = "")); [before_lock Hs Hh Hevs|].
  destruct (decide (_ = 0)); [before_lock Hs Hh Hevs|].
  mstep. destruct (ControllerClient _ _) as [[e|] w2]; simpl; [before_lock Hs Hh Hevs|].
  mstep. mstep. destruct (CreateVolume _ _ _) as [[volInfo|e] w3]; simpl;
    [|before_lock Hs Hh Hevs].
  right. exists configuration, volInfo.
  eapply lockDeferSave_exits; [exact Hs| | |apply steady_Provision_locked].
  - simpl. rewrite Hh, <- app_assoc. reflexivity.
  - rewrite forallb_app, (probes_not_locking _ Hevs). reflexivity.
Qed.

Lemma Deprovision_exit instanceID details b :
  returnsBeforeLock b (Deprovision instanceID details b) \/
  exitsThroughSave (Deprovision_locked instanceID) b (Deprovision instanceID details b).
Proof.
  unfold Deprovision. cbv zeta. rewrite run_bind.
  destruct (probeController_history (DD_ServiceID details) b)
    as (r & b1 & evs & -> & Hs & Hh & Hevs).
  destruct r as [e|]; [before_lock Hs Hh Hevs|].
  destruct (decide (instanceID = "")); [before_lock Hs Hh Hevs|].
  destruct (decide (DD_PlanID details = "")); [before_lock Hs Hh Hevs|].
  destruct (decide (DD_ServiceID details = "")); [before_lock Hs Hh Hevs|].
  mstep. destruct (RetrieveInstanceDetails _ _) as [instanceDetails|e]; [|before_lock Hs Hh Hevs].
  destruct (getFingerprint _) as [fingerprint|e]; [|before_lock Hs Hh Hevs].
  destruct (FPVolume fingerprint) as [volume|]; [|before_lock Hs Hh Hevs].
  mstep. destruct (ControllerClient _ _) as [[e|] w2]; simpl; [before_lock Hs Hh Hevs|].
  mstep. mstep. destruct (DeleteVolume _ _ _) as [[e|] w3]; simpl; [before_lock Hs Hh Hevs|].
  right. eapply lockDeferSave_exits; [exact Hs| | |apply steady_Deprovision_locked].
  - simpl. rewrite Hh, <- app_assoc. reflexivity.
  - rewrite forallb_app, (probes_not_locking _ Hevs). reflexivity.
Qed.

Lemma Bind_exit instanceID bindingID bindDetails b :
  returnsBeforeLock b (Bind instanceID bindingID bindDetails b) \/
  exitsThroughSave (Bind_locked instanceID bindingID bindDetails) b
    (Bind instanceID bindingID bindDetails b).
Proof.
  unfold Bind. rewrite run_bind.
  destruct (probeController_history (BD_ServiceID bindDetails) b)
    as (r & b1 & evs & -> & Hs & Hh & Hevs).
  destruct r as [e|]; [before_lock Hs Hh Hevs|].
  right. eapply lockDeferSave_exits; [exact Hs|exact Hh| |apply steady_Bind_locked].
  by apply probes_not_locking.
Qed.

Lemma Unbind_exit instanceID bindingID details b :
  returnsBeforeLock b (Unbind instanceID bindingID details b) \/
  exitsThroughSave (Unbind_locked instanceID bindingID) b
    (Unbind instanceID bindingID details b).
Proof.
  unfold Unbind. rewrite run_bind.
  destruct (probeController_history (UD_ServiceID details) b)
    as (r & b1 & evs & -> & Hs & Hh & Hevs).
  destruct r as [e|]; [before_lock Hs Hh Hevs|].
  right. eapply lockDeferSave_exits; [exact Hs|exact Hh| |apply steady_Unbind_locked].
  by apply probes_not_locking.
Qed.

(** C3: each of the four methods either returns before it takes the
    mutex, with an error or a panic and the store untouched, or runs its
    locked part and leaves through [Save]: [Save] runs on every way out of
    the locked part, a panic included; its error is the method's when the
    locked part had none, and the locked part's own error is kept
    otherwise. *)
Theorem save_runs_on_every_exit :
  (forall instanceID details b,
     returnsBeforeLock b (Provision instanceID details b) \/
     exists configuration volInfo,
       exitsThroughSave (Provision_locked instanceID details configuration volInfo) b
         (Provision instanceID details b)) /\
  (forall instanceID details b,
     returnsBeforeLock b (Deprovision instanceID details b) \/
     exitsThroughSave (Deprovision_locked instanceID) b (Deprovision instanceID details b)) /\
  (forall instanceID bindingID bindDetails b,
     returnsBeforeLock b (Bind instanceID bindingID bindDetails b) \/
     exitsThroughSave (Bind_locked instanceID bindingID bindDetails) b
       (Bind instanceID bindingID bindDetails b)) /\
  (forall instanceID bindingID details b,
     returnsBeforeLock b (Unbind instanceID bindingID details b) \/
     exitsThroughSave (Unbind_locked instanceID bindingID) b
       (Unbind instanceID bindingID details b)).
Proof.
  repeat split.
  - apply Provision_exit.
  - apply Deprovision_exit.
  - apply Bind_exit.
  - apply Unbind_exit.
Qed.

End Lifecycle.

(** On a store whose [Save] fails, a [Provision] that went well answers with
    [Save]'s error, the record already in the store; a [Provision] in
    conflict keeps its own error. *)
Example Provision_save_fails :
  let b := mkBroker (mkMemStore ∅ ∅ (∅, ∅) (Some (errorString "disk full")))
             demoRegistry false [] in
  let first := Provision "i1" (demoDetails "svc-a" "plan-1") b in
  let second := Provision "i1" (demoDetails "svc-a" "plan-2") first.2 in
  first.1 = Ret (mkProvisionedServiceSpec false, Some (errorString "disk full")) /\
  SI_PlanID <$> instances (store first.2) !! "i1" = Some "plan-1" /\
  second.1 = Ret (mkProvisionedServiceSpec false, Some ErrInstanceAlreadyExists) /\
  history second.2 =
    [EvProbe "svc-a" None; EvCreateVolume "svc-a" demoConfiguration;
     EvLock; EvSave (Some (errorString "disk full")); EvUnlock;
     EvCreateVolume "svc-a" demoConfiguration;
     EvLock; EvSave (Some (errorString "disk full")); EvUnlock].
Proof. vm_compute. repeat split. Qed.

(** ** Deprovision and Bind *)

Section Requests.
Context {S W : Type} `{!Store S} `{!ServicesRegistry W} `{!Jsonpb}.
Implicit Types (b : Broker S W).

(** C4, as the code has it: deprovisioning an instance without a record
    calls no controller and takes no lock; it does what the probe gate
    does and nothing else, and answers with the gate's error or, past the
    gate, with "instance does not exist".  With the latch set that is no
    plugin RPC at all; with the latch unset the gate's probe is issued. *)
Theorem Deprovision_absent_instance (instanceID : string) (details : DeprovisionDetails) b e :
  instanceID <> "" -> DD_PlanID details <> "" -> DD_ServiceID details <> "" ->
  RetrieveInstanceDetails instanceID (store b) = Err e ->
  (controllerProbed b = true ->
   Deprovision instanceID details b =
     (Ret (mkDeprovisionServiceSpec false "", Some ErrInstanceDoesNotExist), b)) /\
  (exists r b1,
     probeController (DD_ServiceID details) b = (Ret r, b1) /\
     Deprovision instanceID details b =
       (Ret (mkDeprovisionServiceSpec false "", Some (default ErrInstanceDoesNotExist r)), b1)) /\
  (exists evs,
     history (Deprovision instanceID details b).2 = history b ++ evs /\
     forallb isProbe evs = true /\ List.length evs <= 1).
Proof.
  intros Hi Hp Hs Hr.
  assert (exists r b1,
     probeController (DD_ServiceID details) b = (Ret r, b1) /\
     Deprovision instanceID details b =
       (Ret (mkDeprovisionServiceSpec false "", Some (default ErrInstanceDoesNotExist r)), b1))
    as Hgate.
  { unfold Deprovision. cbv zeta. rewrite run_bind.
    destruct (probeController_frame (DD_ServiceID details) b) as (r & b1 & Hrun & Hst & _).
    exists r, b1. rewrite Hrun. split; [done|]. destruct r as [e'|]; [done|].
    rewrite !decide_False by done. mstep. by rewrite Hst, Hr. }
  split; [|split; [exact Hgate|]].
  - intros Hl. destruct Hgate as (r & b1 & Hrun & ->).
    rewrite probeController_probed in Hrun by done. by simplify_eq.
  - destruct Hgate as (r & b1 & Hrun & ->). simpl.
    destruct (probeController_frame (DD_ServiceID details) b)
      as (r' & b1' & Hrun' & _ & [[Hh _]|(res & Hh & _)] & _);
      rewrite Hrun in Hrun'; simplify_eq.
    + exists []. rewrite app_nil_r. simpl. split; [done|]. split; [done|lia].
    + exists [EvProbe (DD_ServiceID details) res]. simpl. split; [done|]. split; [done|lia].
Qed.

(** C6: the binding a successful [Bind] returns has credentials that are
    not nil, the empty struct, and one volume mount: the container path and
    the mode evaluated from the bind parameters, the driver name of the
    service, the device type "shared", the volume handle
    "<instanceID>-volume", and a mount configuration of the plugin's volume
    id, its context attributes and the uid and gid binding parameters. *)
Theorem Bind_result (instanceID bindingID : string) (bindDetails : BindDetails) b ret b' :
  Bind instanceID bindingID bindDetails b = (Ret (ret, None), b') ->
  exists instanceDetails fingerprint volume params mode driverName containerDir bindingParams,
    RetrieveInstanceDetails instanceID (store b) = Ok instanceDetails /\
    getFingerprint (SI_ServiceFingerPrint instanceDetails) = Ok fingerprint /\
    FPVolume fingerprint = Some volume /\
    decodeBindParameters (BD_RawParameters bindDetails) = Ok params /\
    evaluateMode params = Ok mode /\
    DriverName (BD_ServiceID bindDetails) (servicesRegistry b') = Ok driverName /\
    evaluateContainerPath params instanceID = Ret containerDir /\
    evaluateId params = Ret bindingParams /\
    Credentials ret = Some EmptyStruct /\
    VolumeMounts ret =
      [mkVolumeMount driverName containerDir mode "shared"
         (mkSharedDevice (instanceID +:+ "-volume")
            (<["binding-params" := match bindingParams with
                                   | None => CfgNilMap
                                   | Some m => CfgMap m
                                   end]>
             (<["attributes" := CfgMap (VolumeContext volume)]>
              (<["id" := CfgString (VolumeId volume)]> ∅))))].
Proof.
  unfold Bind. rewrite run_bind.
  destruct (probeController_frame (BD_ServiceID bindDetails) b) as (r & b1 & -> & Hst & _).
  destruct r as [e|]; [done|].
  unfold lockDeferSave, Bind_locked, bindingConflicts. cbv zeta. simpl.
  mstep. rewrite Hst.
  destruct (RetrieveInstanceDetails instanceID (store b)) as [instanceDetails|e] eqn:Hr;
    [|saved].
  destruct (decide (BD_AppGUID bindDetails = "")); [saved|].
  destruct (getFingerprint _) as [fingerprint|e] eqn:Hfp; [|saved].
  destruct (FPVolume fingerprint) as [volume|] eqn:Hvol; [|saved].
  destruct (decodeBindParameters _) as [params|e] eqn:Hparams; [|saved].
  destruct (evaluateMode params) as [mode|e] eqn:Hmode; [|saved].
  mstep. destruct (IsBindingConflict _ _ _); [saved|].
  mstep. destruct (CreateBindingDetails _ _ _) as [[e|] s1]; simpl; [saved|].
  mstep. destruct (DriverName _ _) as [driverName|e] eqn:Hdrv; [|saved].
  destruct (evaluateContainerPath params instanceID) as [containerDir|] eqn:Hpath;
    [|saved].
  destruct (evaluateId params) as [bindingParams|] eqn:Hid; [|saved].
  simpl. destruct (Save s1) as [out s2]. intros [= <- -> <-]. simpl.
  by exists instanceDetails, fingerprint, volume, params, mode, driverName, containerDir,
    bindingParams.
Qed.

(** C10: the evaluation of the bind parameters is partial.  A [mount]
    that is not a string makes [evaluateContainerPath] panic, a [uid] or a
    [gid] that is not a string, the other one present, makes [evaluateId]
    panic, and a [Bind] that got as far as building its result panics with
    them, where [evaluateMode] answers a wrong type with an error. *)
Theorem bind_parameters_panic :
  (forall (parameters : gmap string json) (volId : string) (v : json),
     parameters !! "mount" = Some v -> (forall s, v <> JString s) ->
     evaluateContainerPath parameters volId = Panic) /\
  (forall (parameters : gmap string json) (uid gid : json),
     parameters !! "uid" = Some uid -> parameters !! "gid" = Some gid ->
     (forall s, uid <> JString s) \/ (forall s, gid <> JString s) ->
     evaluateId parameters = Panic) /\
  (forall (instanceID bindingID : string) (bindDetails : BindDetails) b b1
          instanceDetails fingerprint volume params mode driverName,
     probeController (BD_ServiceID bindDetails) b = (Ret None, b1) ->
     RetrieveInstanceDetails instanceID (store b) = Ok instanceDetails ->
     BD_AppGUID bindDetails <> "" ->
     getFingerprint (SI_ServiceFingerPrint instanceDetails) = Ok fingerprint ->
     FPVolume fingerprint = Some volume ->
     decodeBindParameters (BD_RawParameters bindDetails) = Ok params ->
     evaluateMode params = Ok mode ->
     IsBindingConflict bindingID bindDetails (store b) = false ->
     (CreateBindingDetails bindingID bindDetails (store b)).1 = None ->
     DriverName (BD_ServiceID bindDetails) (servicesRegistry b1) = Ok driverName ->
     evaluateContainerPath params instanceID = Panic \/ evaluateId params = Panic ->
     (Bind instanceID bindingID bindDetails b).1 = Panic).
Proof.
  split; [|split].
  - intros parameters volId v Hv Hns. unfold evaluateContainerPath. rewrite Hv.
    destruct v; try done. by destruct (Hns s).
  - intros parameters uid gid Hu Hg Hns. unfold evaluateId. rewrite Hu, Hg.
    destruct uid as [| | |u| |]; try done.
    destruct gid as [| | |g| |]; try done.
    destruct Hns as [Hns|Hns]; [by destruct (Hns u)|by destruct (Hns g)].
  - intros instanceID bindingID bindDetails b b1 instanceDetails fingerprint volume params
      mode driverName Hgate Hr Happ Hfp Hvol Hparams Hmode Hconf Hcreate Hdrv Hpanic.
    unfold Bind. rewrite run_bind, Hgate.
    destruct (probeController_frame (BD_ServiceID bindDetails) b) as (r & b1' & Hrun & Hst & _).
    rewrite Hgate in Hrun. simplify_eq.
    unfold lockDeferSave, Bind_locked, bindingConflicts. cbv zeta. simpl.
    mstep. rewrite ?Hst, Hr, decide_False, Hfp, Hvol, Hparams, Hmode by done.
    mstep. rewrite ?Hst, Hconf. mstep. rewrite ?Hst.
    destruct (CreateBindingDetails _ _ _) as [o s1]. simpl in Hcreate. subst o.
    mstep. rewrite Hdrv.
    destruct Hpanic as [->| ->].
    + unfold panic. simpl. by destruct (Save s1).
    + destruct (evaluateContainerPath params instanceID); unfold panic; simpl;
        by destruct (Save s1).
Qed.

End Requests.

(** C4 at a broker whose latch is set: no record of [i9], no plugin
    call, "instance does not exist". *)
Lemma Deprovision_absent_instance_example :
  Deprovision "i9" (mkDeprovisionDetails "plan-1" "svc-a") provisionedBroker =
    (Ret (mkDeprovisionServiceSpec false "", Some ErrInstanceDoesNotExist), provisionedBroker).
Proof.
  refine (proj1 (Deprovision_absent_instance "i9" (mkDeprovisionDetails "plan-1" "svc-a")
                   provisionedBroker (errorString "instance not found") _ _ _ _) _).
  - discriminate.
  - discriminate.
  - discriminate.
  - vm_compute. reflexivity.
  - vm_compute. reflexivity.
Defined.

(** C4, as stated, fails at a broker whose latch is unset: the call
    answers "instance does not exist" after the identity probe of the
    service was issued, a plugin RPC. *)
Lemma Deprovision_absent_instance_probes :
  let res := Deprovision "i9" (mkDeprovisionDetails "plan-1" "svc-a") demoBroker in
  res.1 = Ret (mkDeprovisionServiceSpec false "", Some ErrInstanceDoesNotExist) /\
  history res.2 = [EvProbe "svc-a" None] /\
  existsb isPluginCall (history res.2) = true.
Proof. vm_compute. repeat split. Qed.

(** C6 at the binding [customBinding] of the provisioned instance. *)
Lemma Bind_result_example :
  Bind "i1" "b1" customBinding provisionedBroker =
    (Ret (customMount, None), (Bind "i1" "b1" customBinding provisionedBroker).2) /\
  exists instanceDetails fingerprint volume params mode driverName containerDir bindingParams,
    RetrieveInstanceDetails "i1" (store provisionedBroker) = Ok instanceDetails /\
    getFingerprint (SI_ServiceFingerPrint instanceDetails) = Ok fingerprint /\
    FPVolume fingerprint = Some volume /\
    decodeBindParameters (BD_RawParameters customBinding) = Ok params /\
    evaluateMode params = Ok mode /\
    DriverName (BD_ServiceID customBinding)
      (servicesRegistry (Bind "i1" "b1" customBinding provisionedBroker).2) = Ok driverName /\
    evaluateContainerPath params "i1" = Ret containerDir /\
    evaluateId params = Ret bindingParams /\
    Credentials customMount = Some EmptyStruct /\
    VolumeMounts customMount =
      [mkVolumeMount driverName containerDir mode "shared"
         (mkSharedDevice ("i1" +:+ "-volume")
            (<["binding-params" := match bindingParams with
                                   | None => CfgNilMap
                                   | Some m => CfgMap m
                                   end]>
             (<["attributes" := CfgMap (VolumeContext volume)]>
              (<["id" := CfgString (VolumeId volume)]> ∅))))].
Proof.
  assert (Bind "i1" "b1" customBinding provisionedBroker =
            (Ret (customMount, None), (Bind "i1" "b1" customBinding provisionedBroker).2))
    as Hrun by (vm_compute; reflexivity).
  split; [exact Hrun|].
  exact (Bind_result "i1" "b1" customBinding provisionedBroker customMount _ Hrun).
Defined.

(** C10 at the binding [numberMountBinding] of the provisioned instance:
    [Bind] panics. *)
Lemma bind_parameters_panic_example :
  (Bind "i1" "b1" numberMountBinding provisionedBroker).1 = Panic.
Proof.
  refine (proj2 (proj2 (@bind_parameters_panic MemStore ScriptedRegistry _ _))
            "i1" "b1" numberMountBinding provisionedBroker provisionedBroker
            (mkServiceInstance "svc-a" "plan-1" "org-1" "space-1"
               (IfaceFingerPrint (mkServiceFingerPrint "disk" (Some demoVolume))))
            (mkServiceFingerPrint "disk" (Some demoVolume)) demoVolume
            (<["mount" := JNumber "5"]> ∅) "rw" "drv-a" _ _ _ _ _ _ _ _ _ _ _).
  - vm_compute. reflexivity.
  - vm_compute. reflexivity.
  - discriminate.
  - vm_compute. reflexivity.
  - vm_compute. reflexivity.
  - vm_compute. reflexivity.
  - vm_compute. reflexivity.
  - vm_compute. reflexivity.
  - vm_compute. reflexivity.
  - vm_compute. reflexivity.
  - left. vm_compute. reflexivity.
Defined.

(** ** The instance records *)

Section Records.
Context {W : Type} `{!ServicesRegistry W} `{!Jsonpb}.
Implicit Types (b : Broker MemStore W).

Lemma Save_instances (s : MemStore) : instances (Save s).2 = instances s.
Proof. simpl. by destruct (saveError s). Qed.

Lemma Provision_locked_conflict instanceID details configuration volInfo b0 existing :
  instances (store b0) !! instanceID = Some existing ->
  instanceIdentity existing <> provisionIdentity details ->
  Provision_locked instanceID details configuration volInfo b0 =
    (Ret (mkProvisionedServiceSpec false, Some ErrInstanceAlreadyExists), b0).
Proof.
  intros Hex Hid. unfold Provision_locked, instanceConflicts. cbv zeta. mstep.
  rewrite Hex. by rewrite bool_decide_true.
Qed.

Lemma Provision_locked_stored instanceID details configuration volInfo b0 :
  (forall existing, instances (store b0) !! instanceID = Some existing ->
                    instanceIdentity existing = provisionIdentity details) ->
  Provision_locked instanceID details configuration volInfo b0 =
    (Ret (mkProvisionedServiceSpec false, None),
     mkBroker
       (mkMemStore
          (<[instanceID :=
               mkServiceInstance (PD_ServiceID details) (PD_PlanID details)
                 (PD_OrganizationGUID details) (PD_SpaceGUID details)
                 (IfaceFingerPrint (mkServiceFingerPrint (CVR_Name configuration) volInfo))]>
             (instances (store b0)))
          (bindings (store b0)) (durable (store b0)) (saveError (store b0)))
       (servicesRegistry b0) (controllerProbed b0) (history b0)).
Proof.
  intros Hid. unfold Provision_locked, instanceConflicts. cbv zeta. mstep.
  destruct (instances (store b0) !! instanceID) as [existing|] eqn:Hex.
  - rewrite bool_decide_false; [by mstep|]. intros Hne. by apply Hne, Hid.
  - by mstep.
Qed.

(** C2: provisioning an instance identifier that has a record, with
    another service, plan, organization or space, leaves every instance
    record as it was and never succeeds; when the probe, the decoding and
    the plugin's [CreateVolume] let the call through to the store, its
    error is "instance already exists". *)
Theorem Provision_conflict (instanceID : string) (details : ProvisionDetails) b existing :
  instances (store b) !! instanceID = Some existing ->
  instanceIdentity existing <> provisionIdentity details ->
  instances (store (Provision instanceID details b).2) = instances (store b) /\
  (forall v, (Provision instanceID details b).1 <> Ret (v, None)) /\
  (forall b1 configuration w2 w3 volInfo,
     probeController (PD_ServiceID details) b = (Ret None, b1) ->
     jsonpb_UnmarshalString (PD_RawParameters details) = Ok configuration ->
     CVR_Name configuration <> "" ->
     CVR_VolumeCapabilities configuration <> [] ->
     ControllerClient (PD_ServiceID details) (servicesRegistry b1) = (None, w2) ->
     CreateVolume (PD_ServiceID details) configuration w2 = (Ok volInfo, w3) ->
     (Provision instanceID details b).1 =
       Ret (mkProvisionedServiceSpec false, Some ErrInstanceAlreadyExists)).
Proof.
  intros Hex Hid. split; [|split].
  - destruct (Provision_exit instanceID details b)
      as [(_ & Hst & _)|(configuration & volInfo & pre & b0 & r & b1 & mid & Hst & _ & _
                         & Hbody & _ & _ & Hsave & _)].
    + by rewrite Hst.
    + rewrite (Provision_locked_conflict _ _ _ _ _ existing) in Hbody by (by rewrite ?Hst).
      injection Hbody as <- <-. by rewrite Hsave, Save_instances, Hst.
  - destruct (Provision_exit instanceID details b)
      as [(Hfail & _)|(configuration & volInfo & pre & b0 & r & b1 & mid & Hst & _ & _
                       & Hbody & _ & _ & _ & _ & Hres)]; [done|].
    rewrite (Provision_locked_conflict _ _ _ _ _ existing) in Hbody by (by rewrite ?Hst).
    injection Hbody as <- <-. by rewrite Hres.
  - intros b1 configuration w2 w3 volInfo Hgate Hjson Hname Hcaps Hcc Hcv.
    destruct (probeController_history (PD_ServiceID details) b)
      as (r' & b1' & evs' & Hrun & Hst & _).
    rewrite Hgate in Hrun. injection Hrun as <- <-.
    unfold Provision. rewrite run_bind, Hgate, Hjson.
    rewrite decide_False by done.
    rewrite decide_False by (by destruct (CVR_VolumeCapabilities configuration)).
    mstep. rewrite Hcc. mstep. mstep. rewrite Hcv. unfold lockDeferSave. simpl.
    rewrite (Provision_locked_conflict _ _ _ _ _ existing) by (by simpl; rewrite ?Hst).
    simpl. by destruct (saveError (store b1)).
Qed.

Lemma Provision_succeeds (healthy : W -> Prop) instanceID details configuration b :
  jsonpb_UnmarshalString (PD_RawParameters details) = Ok configuration ->
  CVR_Name configuration <> "" ->
  CVR_VolumeCapabilities configuration <> [] ->
  serves healthy details configuration ->
  healthy (servicesRegistry b) ->
  saveError (store b) = None ->
  (forall existing, instances (store b) !! instanceID = Some existing ->
                    instanceIdentity existing = provisionIdentity details) ->
  exists fingerprint b',
    Provision instanceID details b = (Ret (mkProvisionedServiceSpec false, None), b') /\
    instances (store b') =
      <[instanceID := provisionedInstance details fingerprint]> (instances (store b)) /\
    saveError (store b') = None /\
    healthy (servicesRegistry b').
Proof.
  intros Hjson Hname Hcaps (Hic & Hprobe & Hcc & Hcv) Hw Hsave Hid.
  assert (exists b1, probeController (PD_ServiceID details) b = (Ret None, b1) /\
                     store b1 = store b /\ healthy (servicesRegistry b1))
    as (b1 & Hgate & Hst & Hw1).
  { destruct (controllerProbed b) eqn:Hl.
    - exists b. by rewrite probeController_probed.
    - rewrite probeController_unprobed by done.
      destruct (Hic _ Hw) as (w1 & -> & Hw1). destruct (Hprobe _ Hw1) as (w2 & -> & Hw2).
      by eexists. }
  unfold Provision. rewrite run_bind, Hgate, Hjson.
  rewrite decide_False by done.
  rewrite decide_False by (by destruct (CVR_VolumeCapabilities configuration)).
  mstep. destruct (Hcc _ Hw1) as (w2 & -> & Hw2). mstep. mstep.
  destruct (Hcv _ Hw2) as (volInfo & w3 & -> & Hw3). unfold lockDeferSave. simpl.
  rewrite Provision_locked_stored by (by simpl; rewrite ?Hst).
  simpl. rewrite Hst, Hsave. simpl.
  eexists (mkServiceFingerPrint (CVR_Name configuration) volInfo), _.
  split; [reflexivity|]. simpl. by rewrite ?Hst.
Qed.

(** C9: provisioning an instance identifier twice with the same details,
    against a registry and a plugin that answer and a store that saves,
    succeeds both times; the second call is no conflict, it rewrites the
    one record of the identifier and adds none. *)
Theorem Provision_idempotent (healthy : W -> Prop) (instanceID : string)
    (details : ProvisionDetails) (configuration : CreateVolumeRequest) b :
  jsonpb_UnmarshalString (PD_RawParameters details) = Ok configuration ->
  CVR_Name configuration <> "" ->
  CVR_VolumeCapabilities configuration <> [] ->
  serves healthy details configuration ->
  healthy (servicesRegistry b) ->
  saveError (store b) = None ->
  instances (store b) !! instanceID = None ->
  let first := Provision instanceID details b in
  let second := Provision instanceID details first.2 in
  first.1 = Ret (mkProvisionedServiceSpec false, None) /\
  second.1 = Ret (mkProvisionedServiceSpec false, None) /\
  (exists fingerprint,
     instances (store second.2) =
       <[instanceID := provisionedInstance details fingerprint]> (instances (store b))) /\
  size (instances (store first.2)) = Datatypes.S (size (instances (store b))) /\
  size (instances (store second.2)) = size (instances (store first.2)).
Proof.
  intros Hjson Hname Hcaps Hserves Hw Hsave Hfresh first second.
  destruct (Provision_succeeds healthy instanceID details configuration b)
    as (fp1 & b1 & Hrun1 & Hinst1 & Hsave1 & Hw1); try done.
  { intros existing. by rewrite Hfresh. }
  destruct (Provision_succeeds healthy instanceID details configuration b1)
    as (fp2 & b2 & Hrun2 & Hinst2 & Hsave2 & Hw2); try done.
  { intros existing. rewrite Hinst1, lookup_insert_eq. by intros [= <-]. }
  subst first second. rewrite Hrun1. simpl. rewrite Hrun2. simpl.
  rewrite Hinst2, Hinst1, insert_insert_eq.
  split; [done|]. split; [done|]. split; [by exists fp2|].
  by rewrite !map_size_insert_None.
Qed.

End Records.

(** C2 at the provisioned instance [i1], asked for again with another
    plan. *)
Lemma Provision_conflict_example :
  instances (store (Provision "i1" (demoDetails "svc-a" "plan-2") provisionedBroker).2) =
    instances (store provisionedBroker) /\
  (Provision "i1" (demoDetails "svc-a" "plan-2") provisionedBroker).1 =
    Ret (mkProvisionedServiceSpec false, Some ErrInstanceAlreadyExists).
Proof.
  assert (instances (store provisionedBroker) !! "i1" =
            Some (provisionedInstance (demoDetails "svc-a" "plan-1")
                    (mkServiceFingerPrint "disk" (Some demoVolume)))) as Hex
    by (vm_compute; reflexivity).
  assert (instanceIdentity (provisionedInstance (demoDetails "svc-a" "plan-1")
                              (mkServiceFingerPrint "disk" (Some demoVolume)))
          <> provisionIdentity (demoDetails "svc-a" "plan-2")) as Hid by discriminate.
  destruct (Provision_conflict "i1" (demoDetails "svc-a" "plan-2") provisionedBroker _ Hex Hid)
    as (Hsame & _ & Hconflict).
  split; [exact Hsame|].
  apply (Hconflict provisionedBroker demoConfiguration demoRegistry demoRegistry
           (Some demoVolume)).
  - vm_compute. reflexivity.
  - vm_compute. reflexivity.
  - discriminate.
  - discriminate.
  - vm_compute. reflexivity.
  - vm_compute. reflexivity.
Defined.

(** C2, as stated, fails where the call does not get as far as the
    store: the instance [i1] has a record of [svc-a] and [plan-1]; asked
    for again with the service [svc-x], which the registry does not know,
    [Provision] returns the registry's error; asked for again with another
    plan from a plugin that refuses to create the volume, it returns the
    plugin's error.  Neither is "instance already exists". *)
Lemma Provision_conflict_not_reached :
  instances (store provisionedBroker) !! "i1" =
    Some (provisionedInstance (demoDetails "svc-a" "plan-1")
            (mkServiceFingerPrint "disk" (Some demoVolume))) /\
  (Provision "i1" (demoDetails "svc-x" "plan-1") provisionedBroker).1 =
    Ret (mkProvisionedServiceSpec false, Some (errorString "unknown service")) /\
  (Provision "i1" (demoDetails "svc-a" "plan-2")
     (mkBroker (store provisionedBroker)
        (mkScriptedRegistry (drivers demoRegistry) [] (Err (errorString "out of space")) None)
        true (history provisionedBroker))).1 =
    Ret (mkProvisionedServiceSpec false, Some (errorString "out of space")).
Proof. vm_compute. repeat split. Qed.

(** C9 at the empty broker and the instance [i1]. *)
Lemma Provision_idempotent_example :
  let first := Provision "i1" (demoDetails "svc-a" "plan-1") demoBroker in
  let second := Provision "i1" (demoDetails "svc-a" "plan-1") first.2 in
  first.1 = Ret (mkProvisionedServiceSpec false, None) /\
  second.1 = Ret (mkProvisionedServiceSpec false, None) /\
  (exists fingerprint,
     instances (store second.2) =
       <["i1" := provisionedInstance (demoDetails "svc-a" "plan-1") fingerprint]>
         (instances (store demoBroker))) /\
  size (instances (store first.2)) = Datatypes.S (size (instances (store demoBroker))) /\
  size (instances (store second.2)) = size (instances (store first.2)).
Proof.
  apply (Provision_idempotent (fun w => w = demoRegistry) "i1" (demoDetails "svc-a" "plan-1")
           demoConfiguration demoBroker).
  - vm_compute. reflexivity.
  - discriminate.
  - discriminate.
  - repeat split; intros w ->.
    + exists demoRegistry. split; [vm_compute; reflexivity|reflexivity].
    + exists demoRegistry. split; [vm_compute; reflexivity|reflexivity].
    + exists demoRegistry. split; [vm_compute; reflexivity|reflexivity].
    + exists (Some demoVolume), demoRegistry. split; [vm_compute; reflexivity|reflexivity].
  - vm_compute. reflexivity.
  - vm_compute. reflexivity.
  - vm_compute. reflexivity.
Defined.

(** ** The two representations of a fingerprint *)

Lemma foldl_insert_list_to_map (l : list (string * string)) (cur : gmap string string) :
  NoDup l.*1 ->
  foldl (fun (m : gmap string string) (kv : string * string) => <[kv.1 := kv.2]> m) cur l
  = list_to_map l ∪ cur.
Proof.
  revert cur. induction l as [|[k v] l IH]; intros cur Hnd; simpl.
  - by rewrite (left_id_L ∅ (∪)).
  - inversion Hnd as [|? ? Hk Hnd']; subst.
    rewrite IH by done.
    rewrite <- insert_union_l.
    by rewrite insert_union_r by (by apply not_elem_of_list_to_map_1).
Qed.

Lemma unmarshal_context_members_strings (l : list (string * string)) (cur : gmap string string) :
  unmarshal_context_members ((fun kv : string * string => (kv.1, JString kv.2)) <$> l) cur
  = Ok (foldl (fun (m : gmap string string) (kv : string * string) => <[kv.1 := kv.2]> m) cur l).
Proof.
  revert cur. induction l as [|[k v] l IH]; intros cur; simpl; [done|]. apply IH.
Qed.

Lemma unmarshal_marshal_context (m : gmap string string) :
  unmarshal_context ∅ (marshal_context m) = Ok m.
Proof.
  unfold marshal_context, unmarshal_context.
  rewrite unmarshal_context_members_strings, foldl_insert_list_to_map
    by apply NoDup_fst_map_to_list.
  by rewrite list_to_map_to_list, (right_id_L ∅ (∪)).
Qed.

#[local] Arguments unmarshal_context : simpl never.
#[local] Arguments marshal_context : simpl never.
#[local] Arguments unmarshal_Volume : simpl never.
#[local] Arguments marshal_Volume : simpl never.
#[local] Arguments key_matches : simpl never.

Lemma unmarshal_marshal_Volume (v : Volume) :
  unmarshal_Volume None (marshal_Volume v) = Ok (Some v).
Proof.
  destruct v as [id ctx]. unfold marshal_Volume, unmarshal_Volume. simpl.
  destruct (decide (id = "")) as [->|Hid], (decide (ctx = ∅)) as [->|Hctx]; simpl; try done.
  - change (key_matches "volume_id" "volume_context") with false.
    change (key_matches "volume_context" "volume_context") with true. simpl.
    by rewrite unmarshal_marshal_context.
  - change (key_matches "volume_id" "volume_id") with true. simpl.
    change (key_matches "volume_id" "volume_context") with false.
    change (key_matches "volume_context" "volume_context") with true. simpl.
    by rewrite unmarshal_marshal_context.
Qed.

Lemma unmarshal_marshal_ServiceFingerPrint (fp : ServiceFingerPrint) :
  json_Unmarshal_FingerPrint (marshal_ServiceFingerPrint fp) (mkServiceFingerPrint "" None) = Ok fp.
Proof.
  destruct fp as [n [v|]]; unfold marshal_ServiceFingerPrint, json_Unmarshal_FingerPrint; simpl.
  - change (key_matches "Name" "Name") with true. simpl.
    change (key_matches "Name" "Volume") with false.
    change (key_matches "Volume" "Volume") with true. simpl.
    by rewrite unmarshal_marshal_Volume.
  - done.
Qed.

Lemma getFingerprint_represents (v : iface) (fp : ServiceFingerPrint) :
  represents v fp -> getFingerprint v = Ok fp.
Proof.
  intros [->|[->| ->]]; unfold getFingerprint, json_Marshal; [done| |];
    by rewrite unmarshal_marshal_ServiceFingerPrint.
Qed.

Lemma sameInstance_getFingerprint (i1 i2 : ServiceInstance) :
  sameInstance i1 i2 ->
  getFingerprint (SI_ServiceFingerPrint i1) = getFingerprint (SI_ServiceFingerPrint i2).
Proof.
  intros [_ [->|(fp & H1 & H2)]]; [done|].
  by rewrite (getFingerprint_represents _ fp H1), (getFingerprint_represents _ fp H2).
Qed.

Section Representations.
Context {W : Type} `{!ServicesRegistry W} `{!Jsonpb}.
Implicit Types (b : Broker MemStore W).

Lemma sameStore_Save (s1 s2 : MemStore) :
  sameStore s1 s2 -> (Save s1).1 = (Save s2).1 /\ sameStore (Save s1).2 (Save s2).2.
Proof.
  intros Hs. pose proof Hs as (Hb & He & Hi). simpl. rewrite <- He.
  destruct (saveError s1); simpl; [done|].
  split; [done|]. by split.
Qed.

Lemma sameStore_delete (id : string) (s1 s2 : MemStore) :
  sameStore s1 s2 ->
  sameStore (DeleteInstanceDetails id s1).2 (DeleteInstanceDetails id s2).2.
Proof.
  intros (Hb & He & Hi). simpl. split; [done|]. split; [done|]. intros k. simpl.
  destruct (decide (id = k)) as [->|Hne].
  - rewrite !lookup_delete_eq. constructor.
  - rewrite !lookup_delete_ne by done. apply Hi.
Qed.

Lemma sameStore_bind (id : string) (d : BindDetails) (s1 s2 : MemStore) :
  sameStore s1 s2 ->
  sameStore (CreateBindingDetails id d s1).2 (CreateBindingDetails id d s2).2.
Proof. intros (Hb & He & Hi). simpl. split; [by rewrite Hb|]. by split. Qed.

Lemma sameBroker_intro (s1 s2 : MemStore) (w : W) (l : bool) (h : list event) :
  sameStore s1 s2 -> sameBroker (mkBroker s1 w l h) (mkBroker s2 w l h).
Proof. intros Hs. unfold sameBroker. simpl. auto. Qed.

Lemma sameBroker_gate (serviceID : string) b1 b2 :
  sameBroker b1 b2 ->
  (probeController serviceID b1).1 = (probeController serviceID b2).1 /\
  sameBroker (probeController serviceID b1).2 (probeController serviceID b2).2.
Proof.
  destruct b1 as [s1 w l h], b2 as [s2 w' l' h']. intros (Hw & Hl & Hh & Hs). simpl in *.
  subst w' l' h'. destruct l.
  - rewrite !probeController_probed by done. split; [done|]. by apply sameBroker_intro.
  - rewrite !probeController_unprobed by done. simpl.
    destruct (IdentityClient serviceID w) as [[e|] w1];
      [split; [done|]; by apply sameBroker_intro|].
    destruct (Probe serviceID w1) as [[e|] w2]; (split; [done|]; by apply sameBroker_intro).
Qed.

Ltac same_leaf :=
  unfold sameRun, panic; simpl;
  split; [reflexivity | first [assumption | by apply sameBroker_intro]].

#[local] Arguments Save : simpl never.

Lemma sameRun_lockDeferSave {A} (body : M MemStore W (A * option error)) b1 b2 :
  sameBroker b1 b2 ->
  (forall c1 c2, sameBroker c1 c2 -> sameRun (body c1) (body c2)) ->
  sameRun (lockDeferSave body b1) (lockDeferSave body b2).
Proof.
  intros (Hw & Hl & Hh & Hs) Hbody. unfold lockDeferSave. simpl.
  match goal with |- context [body ?c1] =>
    match goal with |- context [sameRun _ (let '(_, _) := body ?c2 in _)] =>
      destruct (Hbody c1 c2) as [Hr Hb] end end.
  { rewrite Hw, Hl, Hh. by apply sameBroker_intro. }
  destruct (body _) as [r c1], (body _) as [r2 c2]. simpl in Hr, Hb. subst r2.
  destruct Hb as (Hw' & Hl' & Hh' & Hs'). destruct (sameStore_Save _ _ Hs') as [Hout Hsaved].
  destruct (Save (store c1)) as [out t1], (Save (store c2)) as [out2 t2]. simpl in *.
  subst out2. rewrite Hw', Hl', Hh'. split; [done|]. by apply sameBroker_intro.
Qed.

Ltac mstep2 :=
  rewrite ?run_bind;
  unfold onRegistry, onStore, readStore, readRegistry, emit; simpl.

Lemma Deprovision_same (instanceID : string) (details : DeprovisionDetails) b1 b2 :
  sameBroker b1 b2 ->
  sameRun (Deprovision instanceID details b1) (Deprovision instanceID details b2).
Proof.
  intros Hsame. unfold Deprovision. cbv zeta. rewrite !run_bind.
  destruct (sameBroker_gate (DD_ServiceID details) b1 b2 Hsame) as [Hr Hb].
  destruct (probeController _ b1) as [r c1], (probeController _ b2) as [r2 c2].
  simpl in Hr, Hb. subst r2. destruct r as [[e|]|]; [same_leaf| |same_leaf].
  destruct c1 as [s1 w l h], c2 as [s2 w' l' h']. destruct Hb as (Hw & Hl & Hh & Hs).
  simpl in *. subst w' l' h'.
  destruct (decide (instanceID = "")); [same_leaf|].
  destruct (decide (DD_PlanID details = "")); [same_leaf|].
  destruct (decide (DD_ServiceID details = "")); [same_leaf|].
  mstep2. unfold lookupOr.
  pose proof Hs as (_ & _ & Hi). specialize (Hi instanceID).
  destruct Hi as [i1 i2 Hi|]; [|same_leaf].
  rewrite (sameInstance_getFingerprint i1 i2 Hi).
  destruct (getFingerprint _) as [fingerprint|e]; [|same_leaf].
  destruct (FPVolume fingerprint) as [volume|]; [|same_leaf].
  mstep2. destruct (ControllerClient _ w) as [[e|] w2]; [same_leaf|].
  mstep2. mstep2. destruct (DeleteVolume _ _ w2) as [[e|] w3]; [same_leaf|].
  apply sameRun_lockDeferSave; [by apply sameBroker_intro|].
  intros [t1 v k g] [t2 v' k' g'] (Hv & Hk & Hg & Ht). simpl in *. subst v' k' g'.
  unfold Deprovision_locked. mstep2.
  split; [done|]. apply sameBroker_intro. apply (sameStore_delete instanceID t1 t2 Ht).
Qed.

Lemma Bind_same (instanceID bindingID : string) (bindDetails : BindDetails) b1 b2 :
  sameBroker b1 b2 ->
  sameRun (Bind instanceID bindingID bindDetails b1) (Bind instanceID bindingID bindDetails b2).
Proof.
  intros Hsame. unfold Bind. rewrite !run_bind.
  destruct (sameBroker_gate (BD_ServiceID bindDetails) b1 b2 Hsame) as [Hr Hb].
  destruct (probeController _ b1) as [r c1], (probeController _ b2) as [r2 c2].
  simpl in Hr, Hb. subst r2. destruct r as [[e|]|]; [same_leaf| |same_leaf].
  apply sameRun_lockDeferSave; [done|]. clear.
  intros [s1 w l h] [s2 w' l' h'] (Hw & Hl & Hh & Hs). simpl in *. subst w' l' h'.
  unfold Bind_locked, bindingConflicts. cbv zeta. mstep2. unfold lookupOr.
  pose proof Hs as (Hbd & _ & Hi). specialize (Hi instanceID).
  destruct Hi as [i1 i2 Hi|]; [|same_leaf].
  destruct (decide (BD_AppGUID bindDetails = "")); [same_leaf|].
  rewrite (sameInstance_getFingerprint i1 i2 Hi).
  destruct (getFingerprint _) as [fingerprint|e]; [|same_leaf].
  destruct (FPVolume fingerprint) as [volume|]; [|same_leaf].
  destruct (decodeBindParameters _) as [params|e]; [|same_leaf].
  destruct (evaluateMode params) as [mode|e]; [|same_leaf].
  mstep2. rewrite <- Hbd.
  assert (exists conflict, conflict = match bindings s1 !! bindingID with
                                     | Some existing => bool_decide (existing <> bindDetails)
                                     | None => false
                                     end) as (conflict & Hc) by by eexists.
  rewrite <- Hc. clear Hc. destruct conflict; [same_leaf|].
  mstep2. mstep2.
  pose proof (sameStore_bind bindingID bindDetails s1 s2 Hs) as Hs'. simpl in Hs'.
  destruct (DriverName _ w) as [driverName|e]; [|same_leaf].
  destruct (evaluateContainerPath params instanceID) as [containerDir|]; [|same_leaf].
  destruct (evaluateId params) as [bindingParams|]; same_leaf.
Qed.

Lemma sameInstance_erase (i : ServiceInstance) : sameInstance i (eraseInstance i).
Proof.
  split; [done|]. destruct i as [? ? ? ? [fp|fp|doc]]; simpl.
  - right. exists fp. unfold represents. auto.
  - right. exists fp. unfold represents. auto.
  - by left.
Qed.

(** A store that was saved and is read back is the store it was, up to the
    representation of the fingerprints. *)
Lemma sameStore_Restore (s : MemStore) :
  durable s = (instances s, bindings s) -> sameStore s (Restore s).2.
Proof.
  intros Hd. unfold sameStore.
  cbn [Restore MemStore_Store instances bindings saveError snd]. rewrite Hd.
  cbn [fst snd]. split; [done|]. split; [done|].
  intros id. rewrite lookup_fmap. destruct (instances s !! id); constructor.
  apply sameInstance_erase.
Qed.

(** C5: [getFingerprint] gives back the fingerprint from each of its
    representations, the pointer as it is, the value and the generic
    document of its encoding through the re-encoding and decoding; and
    [Deprovision] and [Bind] return the same and leave the same broker,
    whichever representation the store holds. *)
Theorem getFingerprint_representations :
  (forall fp, getFingerprint (IfacePtrFingerPrint fp) = Ok fp) /\
  (forall fp, getFingerprint (IfaceFingerPrint fp) = Ok fp) /\
  (forall fp, getFingerprint (IfaceGeneric (marshal_ServiceFingerPrint fp)) = Ok fp) /\
  (forall b1 b2 instanceID details,
     sameBroker b1 b2 ->
     (Deprovision instanceID details b1).1 = (Deprovision instanceID details b2).1 /\
     sameBroker (Deprovision instanceID details b1).2 (Deprovision instanceID details b2).2) /\
  (forall b1 b2 instanceID bindingID bindDetails,
     sameBroker b1 b2 ->
     (Bind instanceID bindingID bindDetails b1).1 = (Bind instanceID bindingID bindDetails b2).1 /\
     sameBroker (Bind instanceID bindingID bindDetails b1).2
       (Bind instanceID bindingID bindDetails b2).2).
Proof.
  split; [|split; [|split; [|split]]].
  - intros fp. apply getFingerprint_represents. unfold represents. auto.
  - intros fp. apply getFingerprint_represents. unfold represents. auto.
  - intros fp. apply getFingerprint_represents. unfold represents. auto.
  - intros b1 b2 instanceID details Hsame. by apply Deprovision_same.
  - intros b1 b2 instanceID bindingID bindDetails Hsame. by apply Bind_same.
Qed.

End Representations.

(** C5 at the provisioned broker and the same broker with its store read
    back: the record of [i1] holds the typed value in the one and the
    generic document in the other, and [Deprovision] and [Bind] return the
    same from both. *)
Lemma getFingerprint_representations_example :
  SI_ServiceFingerPrint <$> instances (store provisionedBroker) !! "i1" =
    Some (IfaceFingerPrint (mkServiceFingerPrint "disk" (Some demoVolume))) /\
  SI_ServiceFingerPrint <$> instances (store reloadedBroker) !! "i1" =
    Some (IfaceGeneric (marshal_ServiceFingerPrint (mkServiceFingerPrint "disk" (Some demoVolume)))) /\
  (Deprovision "i1" (mkDeprovisionDetails "plan-1" "svc-a") provisionedBroker).1 =
    (Deprovision "i1" (mkDeprovisionDetails "plan-1" "svc-a") reloadedBroker).1 /\
  (Bind "i1" "b1" customBinding provisionedBroker).1 =
    (Bind "i1" "b1" customBinding reloadedBroker).1.
Proof.
  assert (sameBroker provisionedBroker reloadedBroker) as Hsame.
  { unfold reloadedBroker. split; [reflexivity|]. split; [reflexivity|]. split; [reflexivity|].
    apply sameStore_Restore. vm_compute. reflexivity. }
  split; [vm_compute; reflexivity|]. split; [vm_compute; reflexivity|]. split.
  - exact (proj1 (proj1 (proj2 (proj2 (proj2
             (@getFingerprint_representations ScriptedRegistry _))))
             provisionedBroker reloadedBroker "i1" (mkDeprovisionDetails "plan-1" "svc-a") Hsame)).
  - exact (proj1 (proj2 (proj2 (proj2 (proj2
             (@getFingerprint_representations ScriptedRegistry _))))
             provisionedBroker reloadedBroker "i1" "b1" customBinding Hsame)).
Defined.

(** * Further properties of the code *)

(** ** The ways out of the four methods *)

Section Outcomes.
Context {S W : Type} `{!Store S} `{!ServicesRegistry W} `{!Jsonpb}.
Implicit Types (b : Broker S W).

(** X1: While the latch is unset, a request for a service whose identity
    client the registry cannot give ends in the gate: [Provision],
    [Deprovision], [Bind] and [Unbind] each return the registry's error
    with the zero value of their result, and the store, the latch and the
    history are as before: no probe, no lock, no [Save]. *)
Theorem unknown_service_stops_at_gate (serviceID : string) b e w1 :
  controllerProbed b = false ->
  IdentityClient serviceID (servicesRegistry b) = (Some e, w1) ->
  let b' := mkBroker (store b) w1 false (history b) in
  (forall instanceID details,
     PD_ServiceID details = serviceID ->
     Provision instanceID details b = (Ret (mkProvisionedServiceSpec false, Some e), b')) /\
  (forall instanceID details,
     DD_ServiceID details = serviceID ->
     Deprovision instanceID details b = (Ret (mkDeprovisionServiceSpec false "", Some e), b')) /\
  (forall instanceID bindingID details,
     BD_ServiceID details = serviceID ->
     Bind instanceID bindingID details b = (Ret (mkBinding None [], Some e), b')) /\
  (forall instanceID bindingID details,
     UD_ServiceID details = serviceID ->
     Unbind instanceID bindingID details b = (Ret (tt, Some e), b')).
Proof.
  intros Hl Hc b'. repeat split.
  - intros instanceID details <-. unfold Provision.
    by rewrite run_bind, probeController_unprobed, Hc.
  - intros instanceID details <-. unfold Deprovision. cbv zeta.
    by rewrite run_bind, probeController_unprobed, Hc.
  - intros instanceID bindingID details <-. unfold Bind.
    by rewrite run_bind, probeController_unprobed, Hc.
  - intros instanceID bindingID details <-. unfold Unbind.
    by rewrite run_bind, probeController_unprobed, Hc.
Qed.

(** X2: Past the gate, [Provision] answers raw parameters that do not
    decode with [ErrRawParamsInvalid], whatever the decoder's error; a
    request without a name with the error [config requires a "name"]; and
    a request with a name and no volume capability with [config requires
    "volume_capabilities"].  In each case the broker is left as the gate
    left it: no controller call, no lock, no [Save]. *)
Theorem Provision_invalid_parameters (instanceID : string) (details : ProvisionDetails) b b1 :
  probeController (PD_ServiceID details) b = (Ret None, b1) ->
  (forall e,
     jsonpb_UnmarshalString (PD_RawParameters details) = Err e ->
     Provision instanceID details b =
       (Ret (mkProvisionedServiceSpec false, Some ErrRawParamsInvalid), b1)) /\
  (forall configuration,
     jsonpb_UnmarshalString (PD_RawParameters details) = Ok configuration ->
     CVR_Name configuration = "" ->
     Provision instanceID details b =
       (Ret (mkProvisionedServiceSpec false,
             Some (errorString ("config requires a " +:+ dquote +:+ "name" +:+ dquote))), b1)) /\
  (forall configuration,
     jsonpb_UnmarshalString (PD_RawParameters details) = Ok configuration ->
     CVR_Name configuration <> "" ->
     CVR_VolumeCapabilities configuration = [] ->
     Provision instanceID details b =
       (Ret (mkProvisionedServiceSpec false,
             Some (errorString
                     ("config requires " +:+ dquote +:+ "volume_capabilities" +:+ dquote))), b1)).
Proof.
  intros Hgate. repeat split.
  - intros e He. unfold Provision. by rewrite run_bind, Hgate, He.
  - intros configuration Hc Hn. unfold Provision. rewrite run_bind, Hgate, Hc.
    by rewrite decide_True.
  - intros configuration Hc Hn Hv. unfold Provision. rewrite run_bind, Hgate, Hc.
    rewrite decide_False by done. rewrite decide_True; [done|]. by rewrite Hv.
Qed.

(** X3: [Provision] hands on the error of the registry's controller
    client, and the error of the plugin's [CreateVolume], as they are; the
    store is untouched and no lock is taken; in the second case the one
    [CreateVolume] call is all that was added to the history. *)
Theorem Provision_plugin_failure (instanceID : string) (details : ProvisionDetails)
    (configuration : CreateVolumeRequest) b b1 :
  probeController (PD_ServiceID details) b = (Ret None, b1) ->
  jsonpb_UnmarshalString (PD_RawParameters details) = Ok configuration ->
  CVR_Name configuration <> "" ->
  CVR_VolumeCapabilities configuration <> [] ->
  (forall e w2,
     ControllerClient (PD_ServiceID details) (servicesRegistry b1) = (Some e, w2) ->
     Provision instanceID details b =
       (Ret (mkProvisionedServiceSpec false, Some e),
        mkBroker (store b) w2 (controllerProbed b1) (history b1))) /\
  (forall e w2 w3,
     ControllerClient (PD_ServiceID details) (servicesRegistry b1) = (None, w2) ->
     CreateVolume (PD_ServiceID details) configuration w2 = (Err e, w3) ->
     Provision instanceID details b =
       (Ret (mkProvisionedServiceSpec false, Some e),
        mkBroker (store b) w3 (controllerProbed b1)
          (history b1 ++ [EvCreateVolume (PD_ServiceID details) configuration]))).
Proof.
  intros Hgate Hc Hn Hv.
  destruct (probeController_frame (PD_ServiceID details) b) as (r & b1' & Hrun & Hst & _).
  rewrite Hgate in Hrun. injection Hrun as <- <-.
  assert (CVR_VolumeCapabilities configuration <> [] ->
          List.length (CVR_VolumeCapabilities configuration) <> 0) as Hlen
    by (by destruct (CVR_VolumeCapabilities configuration)).
  split.
  - intros e w2 Hcc. unfold Provision. rewrite run_bind, Hgate, Hc.
    rewrite !decide_False by auto. mstep. by rewrite Hcc, Hst.
  - intros e w2 w3 Hcc Hcv. unfold Provision. rewrite run_bind, Hgate, Hc.
    rewrite !decide_False by auto. mstep. rewrite Hcc. mstep. mstep. by rewrite Hcv, Hst.
Qed.

(** X4: When the store refuses the new record, [Provision] answers
    [failed to store instance details <instanceID>] in place of the store's
    error; the plugin has created the volume by then, and [Save] runs on
    what the store left. *)
Theorem Provision_store_failure (instanceID : string) (details : ProvisionDetails)
    (configuration : CreateVolumeRequest) b b1 w2 w3 volInfo e s1 :
  probeController (PD_ServiceID details) b = (Ret None, b1) ->
  jsonpb_UnmarshalString (PD_RawParameters details) = Ok configuration ->
  CVR_Name configuration <> "" ->
  CVR_VolumeCapabilities configuration <> [] ->
  ControllerClient (PD_ServiceID details) (servicesRegistry b1) = (None, w2) ->
  CreateVolume (PD_ServiceID details) configuration w2 = (Ok volInfo, w3) ->
  let instanceDetails :=
    mkServiceInstance (PD_ServiceID details) (PD_PlanID details) (PD_OrganizationGUID details)
      (PD_SpaceGUID details)
      (IfaceFingerPrint (mkServiceFingerPrint (CVR_Name configuration) volInfo)) in
  IsInstanceConflict instanceID instanceDetails (store b) = false ->
  CreateInstanceDetails instanceID instanceDetails (store b) = (Some e, s1) ->
  Provision instanceID details b =
    (Ret (mkProvisionedServiceSpec false,
          Some (errorString ("failed to store instance details " +:+ instanceID))),
     mkBroker (Save s1).2 w3 (controllerProbed b1)
       (history b1 ++ [EvCreateVolume (PD_ServiceID details) configuration; EvLock;
                       EvSave (Save s1).1; EvUnlock])).
Proof.
  intros Hgate Hc Hn Hv Hcc Hcv instanceDetails Hconf Hcreate.
  destruct (probeController_frame (PD_ServiceID details) b) as (r & b1' & Hrun & Hst & _).
  rewrite Hgate in Hrun. injection Hrun as <- <-.
  assert (List.length (CVR_VolumeCapabilities configuration) <> 0) as Hlen
    by (by destruct (CVR_VolumeCapabilities configuration)).
  unfold Provision. rewrite run_bind, Hgate, Hc. rewrite !decide_False by auto.
  mstep. rewrite Hcc. mstep. mstep. rewrite Hcv.
  unfold lockDeferSave, Provision_locked, instanceConflicts. cbv zeta. simpl.
  mstep. rewrite ?Hst. fold instanceDetails. rewrite Hconf. mstep. rewrite ?Hst.
  fold instanceDetails. rewrite Hcreate. simpl.
  destruct (Save s1) as [out s2]. simpl. by rewrite <- !app_assoc, ?Hst.
Qed.

(** X7: Past the gate, [Deprovision] checks its arguments in the order
    instance identifier, plan, service, and names the first that is empty
    in its error; the store is not read and the plugin not called. *)
Theorem Deprovision_invalid_arguments (instanceID : string) (details : DeprovisionDetails) b b1 :
  probeController (DD_ServiceID details) b = (Ret None, b1) ->
  (instanceID = "" ->
   Deprovision instanceID details b =
     (Ret (mkDeprovisionServiceSpec false "",
           Some (errorString "volume deletion requires instance ID")), b1)) /\
  (instanceID <> "" -> DD_PlanID details = "" ->
   Deprovision instanceID details b =
     (Ret (mkDeprovisionServiceSpec false "",
           Some (errorString ("volume deletion requires " +:+ dquote +:+ "plan_id" +:+ dquote))),
      b1)) /\
  (instanceID <> "" -> DD_PlanID details <> "" -> DD_ServiceID details = "" ->
   Deprovision instanceID details b =
     (Ret (mkDeprovisionServiceSpec false "",
           Some (errorString
                   ("volume deletion requires " +:+ dquote +:+ "service_id" +:+ dquote))),
      b1)).
Proof.
  intros Hgate. repeat split.
  - intros Hi. unfold Deprovision. cbv zeta. rewrite run_bind, Hgate. by rewrite decide_True.
  - intros Hi Hp. unfold Deprovision. cbv zeta. rewrite run_bind, Hgate.
    rewrite decide_False by done. by rewrite decide_True.
  - intros Hi Hp Hs. unfold Deprovision. cbv zeta. rewrite run_bind, Hgate.
    rewrite !decide_False by done. by rewrite decide_True.
Qed.

(** X8: [Deprovision] of a stored instance asks the plugin to delete the
    volume of the stored fingerprint, with no secrets, before it touches
    the record: when the plugin fails, its error is returned and the record
    stays, with no lock taken; when it succeeds, the record is deleted under
    the lock, [Save] runs, and the answer is the operation data
    [deprovision] with [Save]'s error. *)
Theorem Deprovision_plugin_then_store (instanceID : string) (details : DeprovisionDetails)
    b b1 instanceDetails fingerprint volume w2 :
  probeController (DD_ServiceID details) b = (Ret None, b1) ->
  instanceID <> "" -> DD_PlanID details <> "" -> DD_ServiceID details <> "" ->
  RetrieveInstanceDetails instanceID (store b) = Ok instanceDetails ->
  getFingerprint (SI_ServiceFingerPrint instanceDetails) = Ok fingerprint ->
  FPVolume fingerprint = Some volume ->
  ControllerClient (DD_ServiceID details) (servicesRegistry b1) = (None, w2) ->
  let request := mkDeleteVolumeRequest (VolumeId volume) ∅ in
  (forall e w3,
     DeleteVolume (DD_ServiceID details) request w2 = (Some e, w3) ->
     Deprovision instanceID details b =
       (Ret (mkDeprovisionServiceSpec false "", Some e),
        mkBroker (store b) w3 (controllerProbed b1)
          (history b1 ++ [EvDeleteVolume (DD_ServiceID details) request]))) /\
  (forall w3 s1,
     DeleteVolume (DD_ServiceID details) request w2 = (None, w3) ->
     DeleteInstanceDetails instanceID (store b) = (None, s1) ->
     Deprovision instanceID details b =
       (Ret (mkDeprovisionServiceSpec false "deprovision", (Save s1).1),
        mkBroker (Save s1).2 w3 (controllerProbed b1)
          (history b1 ++ [EvDeleteVolume (DD_ServiceID details) request; EvLock;
                          EvSave (Save s1).1; EvUnlock]))).
Proof.
  intros Hgate Hi Hp Hs Hr Hfp Hvol Hcc request.
  destruct (probeController_frame (DD_ServiceID details) b) as (r & b1' & Hrun & Hst & _).
  rewrite Hgate in Hrun. injection Hrun as <- <-.
  split.
  - intros e w3 Hdv. unfold Deprovision. cbv zeta. rewrite run_bind, Hgate.
    rewrite !decide_False by done. mstep. rewrite Hst, Hr, Hfp, Hvol.
    mstep. rewrite Hcc. mstep. mstep. fold request. by rewrite Hdv, ?Hst.
  - intros w3 s1 Hdv Hdel. unfold Deprovision. cbv zeta. rewrite run_bind, Hgate.
    rewrite !decide_False by done. mstep. rewrite Hst, Hr, Hfp, Hvol.
    mstep. rewrite Hcc. mstep. mstep. fold request. rewrite Hdv.
    unfold lockDeferSave, Deprovision_locked. simpl. mstep. rewrite ?Hst, Hdel. simpl.
    destruct (Save s1) as [out s2]. simpl. by rewrite <- !app_assoc, ?Hst.
Qed.

(** X9: An instance whose fingerprint has no volume (the plugin answered
    [CreateVolume] without one) cannot be used: [Deprovision] panics on its
    volume identifier before any plugin call, and [Bind] panics under the
    lock, after which [Save] still runs. *)
Theorem nil_volume_panics (instanceID : string) b instanceDetails fingerprint :
  RetrieveInstanceDetails instanceID (store b) = Ok instanceDetails ->
  getFingerprint (SI_ServiceFingerPrint instanceDetails) = Ok fingerprint ->
  FPVolume fingerprint = None ->
  (forall details b1,
     probeController (DD_ServiceID details) b = (Ret None, b1) ->
     instanceID <> "" -> DD_PlanID details <> "" -> DD_ServiceID details <> "" ->
     Deprovision instanceID details b = (Panic, b1)) /\
  (forall bindingID bindDetails b1,
     probeController (BD_ServiceID bindDetails) b = (Ret None, b1) ->
     BD_AppGUID bindDetails <> "" ->
     Bind instanceID bindingID bindDetails b =
       (Panic,
        mkBroker (Save (store b)).2 (servicesRegistry b1) (controllerProbed b1)
          (history b1 ++ [EvLock; EvSave (Save (store b)).1; EvUnlock]))).
Proof.
  intros Hr Hfp Hvol. split.
  - intros details b1 Hgate Hi Hp Hs.
    destruct (probeController_frame (DD_ServiceID details) b) as (r & b1' & Hrun & Hst & _).
    rewrite Hgate in Hrun. injection Hrun as <- <-.
    unfold Deprovision. cbv zeta. rewrite run_bind, Hgate.
    rewrite !decide_False by done. mstep. by rewrite Hst, Hr, Hfp, Hvol.
  - intros bindingID bindDetails b1 Hgate Happ.
    destruct (probeController_frame (BD_ServiceID bindDetails) b) as (r & b1' & Hrun & Hst & _).
    rewrite Hgate in Hrun. injection Hrun as <- <-.
    unfold Bind. rewrite run_bind, Hgate.
    unfold lockDeferSave, Bind_locked. cbv zeta. simpl. mstep.
    rewrite Hst, Hr, decide_False, Hfp, Hvol by done. unfold panic. simpl.
    destruct (Save (store b)) as [out s2]. simpl. by rewrite <- ?app_assoc, ?Hst.
Qed.

(** X12: Past the gate, [Bind] refuses under the lock, with [Save] run on
    the unchanged store: an instance the store does not have with
    [ErrInstanceDoesNotExist], whatever the store's error; an empty
    application identifier with [ErrAppGuidNotProvided]; and a binding in
    conflict with a stored one with [ErrBindingAlreadyExists]. *)
Theorem Bind_refused (instanceID bindingID : string) (bindDetails : BindDetails) b b1 :
  probeController (BD_ServiceID bindDetails) b = (Ret None, b1) ->
  let saved :=
    mkBroker (Save (store b)).2 (servicesRegistry b1) (controllerProbed b1)
      (history b1 ++ [EvLock; EvSave (Save (store b)).1; EvUnlock]) in
  (forall e,
     RetrieveInstanceDetails instanceID (store b) = Err e ->
     Bind instanceID bindingID bindDetails b =
       (Ret (mkBinding None [], Some ErrInstanceDoesNotExist), saved)) /\
  (forall instanceDetails,
     RetrieveInstanceDetails instanceID (store b) = Ok instanceDetails ->
     BD_AppGUID bindDetails = "" ->
     Bind instanceID bindingID bindDetails b =
       (Ret (mkBinding None [], Some ErrAppGuidNotProvided), saved)) /\
  (forall instanceDetails fingerprint volume params mode,
     RetrieveInstanceDetails instanceID (store b) = Ok instanceDetails ->
     BD_AppGUID bindDetails <> "" ->
     getFingerprint (SI_ServiceFingerPrint instanceDetails) = Ok fingerprint ->
     FPVolume fingerprint = Some volume ->
     decodeBindParameters (BD_RawParameters bindDetails) = Ok params ->
     evaluateMode params = Ok mode ->
     IsBindingConflict bindingID bindDetails (store b) = true ->
     Bind instanceID bindingID bindDetails b =
       (Ret (mkBinding None [], Some ErrBindingAlreadyExists), saved)).
Proof.
  intros Hgate saved.
  destruct (probeController_frame (BD_ServiceID bindDetails) b) as (r & b1' & Hrun & Hst & _).
  rewrite Hgate in Hrun. injection Hrun as <- <-. subst saved.
  repeat split.
  - intros e Hr. unfold Bind. rewrite run_bind, Hgate.
    unfold lockDeferSave, Bind_locked. cbv zeta. simpl. mstep. rewrite ?Hst, Hr. simpl.
    rewrite ?Hst. destruct (Save (store b)) as [out s2]. simpl. by rewrite <- ?app_assoc.
  - intros instanceDetails Hr Happ. unfold Bind. rewrite run_bind, Hgate.
    unfold lockDeferSave, Bind_locked. cbv zeta. simpl. mstep. rewrite ?Hst, Hr, decide_True by done.
    simpl. rewrite ?Hst. destruct (Save (store b)) as [out s2]. simpl. by rewrite <- ?app_assoc.
  - intros instanceDetails fingerprint volume params mode Hr Happ Hfp Hvol Hpar Hmode Hconf.
    unfold Bind. rewrite run_bind, Hgate.
    unfold lockDeferSave, Bind_locked, bindingConflicts. cbv zeta. simpl. mstep.
    rewrite ?Hst, Hr, decide_False, Hfp, Hvol, Hpar, Hmode by done. mstep.
    rewrite ?Hst, Hconf. simpl.
    rewrite ?Hst. destruct (Save (store b)) as [out s2]. simpl. by rewrite <- ?app_assoc.
Qed.

(** X13: [Bind] stores the binding record before it asks the registry
    for the driver name: when that lookup fails, the error is returned, and
    the store that [Save] writes holds the binding. *)
Theorem Bind_stores_before_driver_lookup (instanceID bindingID : string)
    (bindDetails : BindDetails) b b1 instanceDetails fingerprint volume params mode s1 e :
  probeController (BD_ServiceID bindDetails) b = (Ret None, b1) ->
  RetrieveInstanceDetails instanceID (store b) = Ok instanceDetails ->
  BD_AppGUID bindDetails <> "" ->
  getFingerprint (SI_ServiceFingerPrint instanceDetails) = Ok fingerprint ->
  FPVolume fingerprint = Some volume ->
  decodeBindParameters (BD_RawParameters bindDetails) = Ok params ->
  evaluateMode params = Ok mode ->
  IsBindingConflict bindingID bindDetails (store b) = false ->
  CreateBindingDetails bindingID bindDetails (store b) = (None, s1) ->
  DriverName (BD_ServiceID bindDetails) (servicesRegistry b1) = Err e ->
  Bind instanceID bindingID bindDetails b =
    (Ret (mkBinding None [], Some e),
     mkBroker (Save s1).2 (servicesRegistry b1) (controllerProbed b1)
       (history b1 ++ [EvLock; EvSave (Save s1).1; EvUnlock])).
Proof.
  intros Hgate Hr Happ Hfp Hvol Hpar Hmode Hconf Hcreate Hdrv.
  destruct (probeController_frame (BD_ServiceID bindDetails) b) as (r & b1' & Hrun & Hst & _).
  rewrite Hgate in Hrun. injection Hrun as <- <-.
  unfold Bind. rewrite run_bind, Hgate.
  unfold lockDeferSave, Bind_locked, bindingConflicts. cbv zeta. simpl. mstep.
  rewrite ?Hst, Hr, decide_False, Hfp, Hvol, Hpar, Hmode by done. mstep.
  rewrite ?Hst, Hconf. mstep. rewrite ?Hst, Hcreate. mstep. rewrite Hdrv. simpl.
  destruct (Save s1) as [out s2]. simpl. by rewrite <- ?app_assoc.
Qed.

(** X15: Past the gate, [Unbind] answers under the lock:
    [ErrInstanceDoesNotExist] when the store has no such instance,
    [ErrBindingDoesNotExist] when it has the instance and no such binding,
    whatever the store's errors; else the error of the deletion, or
    [Save]'s when the deletion had none.  [Save] runs in each case. *)
Theorem Unbind_outcomes (instanceID bindingID : string) (details : UnbindDetails) b b1 :
  probeController (UD_ServiceID details) b = (Ret None, b1) ->
  let saved (s : S) :=
    mkBroker (Save s).2 (servicesRegistry b1) (controllerProbed b1)
      (history b1 ++ [EvLock; EvSave (Save s).1; EvUnlock]) in
  (forall e,
     RetrieveInstanceDetails instanceID (store b) = Err e ->
     Unbind instanceID bindingID details b =
       (Ret (tt, Some ErrInstanceDoesNotExist), saved (store b))) /\
  (forall instanceDetails e,
     RetrieveInstanceDetails instanceID (store b) = Ok instanceDetails ->
     RetrieveBindingDetails bindingID (store b) = Err e ->
     Unbind instanceID bindingID details b =
       (Ret (tt, Some ErrBindingDoesNotExist), saved (store b))) /\
  (forall instanceDetails bindingDetails err s1,
     RetrieveInstanceDetails instanceID (store b) = Ok instanceDetails ->
     RetrieveBindingDetails bindingID (store b) = Ok bindingDetails ->
     DeleteBindingDetails bindingID (store b) = (err, s1) ->
     Unbind instanceID bindingID details b =
       (Ret (tt, match err with Some e => Some e | None => (Save s1).1 end), saved s1)).
Proof.
  intros Hgate saved.
  destruct (probeController_frame (UD_ServiceID details) b) as (r & b1' & Hrun & Hst & _).
  rewrite Hgate in Hrun. injection Hrun as <- <-. subst saved.
  repeat split.
  - intros e Hr. unfold Unbind. rewrite run_bind, Hgate.
    unfold lockDeferSave, Unbind_locked. simpl. mstep. rewrite ?Hst, Hr. simpl.
    rewrite ?Hst. destruct (Save (store b)) as [out s2]. simpl. by rewrite <- ?app_assoc.
  - intros instanceDetails e Hr Hb. unfold Unbind. rewrite run_bind, Hgate.
    unfold lockDeferSave, Unbind_locked. simpl. mstep. rewrite ?Hst, Hr. mstep.
    rewrite ?Hst, Hb. simpl.
    rewrite ?Hst. destruct (Save (store b)) as [out s2]. simpl. by rewrite <- ?app_assoc.
  - intros instanceDetails bindingDetails err s1 Hr Hb Hdel. unfold Unbind.
    rewrite run_bind, Hgate.
    unfold lockDeferSave, Unbind_locked. simpl. mstep. rewrite ?Hst, Hr. mstep.
    rewrite ?Hst, Hb. mstep. rewrite ?Hst, Hdel. 
    destruct err as [e|]; simpl; destruct (Save s1) as [out s2]; simpl;
      by rewrite <- ?app_assoc.
Qed.

Lemma probes_offController (evs : list event) :
  forallb isProbe evs = true -> forallb offController evs = true.
Proof.
  induction evs as [|ev evs IH]; simpl; [done|].
  intros [Hev Hevs]%andb_prop. rewrite IH by done. by destruct ev.
Qed.

Lemma locked_offController {A} (body : M S W (A * option error)) b0 :
  steady offController body ->
  exists evs,
    history (lockDeferSave body b0).2 = history b0 ++ evs /\ forallb offController evs = true.
Proof.
  intros Hbody.
  by destruct (steady_lockDeferSave offController body eq_refl (fun _ => eq_refl) eq_refl
                 Hbody b0) as [_ Hh].
Qed.

(** X17: What each method asks of a controller, on every run: [Provision]
    at most one [CreateVolume], for its own service and with the decoded
    request, and never a [DeleteVolume]; [Deprovision] at most one
    [DeleteVolume], for its own service, and never a [CreateVolume]; [Bind]
    and [Unbind] nothing. *)
Theorem controller_calls_by_method :
  (forall instanceID details b,
     exists pre post,
       forallb offController pre = true /\ forallb offController post = true /\
       (history (Provision instanceID details b).2 = history b ++ pre ++ post \/
        exists configuration,
          jsonpb_UnmarshalString (PD_RawParameters details) = Ok configuration /\
          history (Provision instanceID details b).2 =
            history b ++ pre ++ [EvCreateVolume (PD_ServiceID details) configuration] ++ post)) /\
  (forall instanceID details b,
     exists pre post,
       forallb offController pre = true /\ forallb offController post = true /\
       (history (Deprovision instanceID details b).2 = history b ++ pre ++ post \/
        exists request,
          history (Deprovision instanceID details b).2 =
            history b ++ pre ++ [EvDeleteVolume (DD_ServiceID details) request] ++ post)) /\
  (forall instanceID bindingID bindDetails b,
     exists evs,
       history (Bind instanceID bindingID bindDetails b).2 = history b ++ evs /\
       forallb offController evs = true) /\
  (forall instanceID bindingID details b,
     exists evs,
       history (Unbind instanceID bindingID details b).2 = history b ++ evs /\
       forallb offController evs = true).
Proof.
  split; [|split; [|split]].
  - intros instanceID details b. unfold Provision. rewrite run_bind.
    destruct (probeController_history (PD_ServiceID details) b)
      as (r & b1 & evs & -> & _ & Hh & Hevs%probes_offController).
    assert (forall h : list event,
              h = history b1 ->
              exists pre post,
                forallb offController pre = true /\ forallb offController post = true /\
                (h = history b ++ pre ++ post \/
                 exists configuration,
                   jsonpb_UnmarshalString (PD_RawParameters details) = Ok configuration /\
                   h =
                     history b ++ pre ++
                       [EvCreateVolume (PD_ServiceID details) configuration] ++ post))
      as Hearly.
    { intros h ->. exists evs, []. split; [done|]. split; [done|]. left.
      by rewrite app_nil_r. }
    destruct r as [e|]; [by apply Hearly|].
    destruct (jsonpb_UnmarshalString _) as [configuration|e] eqn:Hc;
      [|by apply Hearly].
    destruct (decide (CVR_Name configuration = "")); [by apply Hearly|].
    destruct (decide (_ = 0)); [by apply Hearly|].
    mstep. destruct (ControllerClient _ _) as [[e|] w2]; simpl; [by apply Hearly|].
    mstep. mstep. destruct (CreateVolume _ _ _) as [[volInfo|e] w3]; simpl.
    + match goal with |- context [lockDeferSave ?body ?b0] =>
        destruct (locked_offController body b0) as (post & Hpost & HpostP) end.
      { apply steady_Provision_locked. }
      exists evs, post. split; [done|]. split; [done|]. right. exists configuration.
      split; [done|]. rewrite Hpost. simpl. by rewrite Hh, <- !app_assoc.
    + exists evs, []. split; [done|]. split; [done|]. right. exists configuration.
      split; [done|]. by rewrite Hh, <- !app_assoc.
  - intros instanceID details b. unfold Deprovision. cbv zeta. rewrite run_bind.
    destruct (probeController_history (DD_ServiceID details) b)
      as (r & b1 & evs & -> & _ & Hh & Hevs%probes_offController).
    assert (forall h : list event,
              h = history b1 ->
              exists pre post,
                forallb offController pre = true /\ forallb offController post = true /\
                (h = history b ++ pre ++ post \/
                 exists request,
                   h =
                     history b ++ pre ++
                       [EvDeleteVolume (DD_ServiceID details) request] ++ post))
      as Hearly.
    { intros h ->. exists evs, []. split; [done|]. split; [done|]. left.
      by rewrite app_nil_r. }
    destruct r as [e|]; [by apply Hearly|].
    destruct (decide (instanceID = "")); [by apply Hearly|].
    destruct (decide (DD_PlanID details = "")); [by apply Hearly|].
    destruct (decide (DD_ServiceID details = "")); [by apply Hearly|].
    mstep. destruct (RetrieveInstanceDetails _ _) as [instanceDetails|e];
      [|by apply Hearly].
    destruct (getFingerprint _) as [fingerprint|e]; [|by apply Hearly].
    destruct (FPVolume fingerprint) as [volume|]; [|by apply Hearly].
    mstep. destruct (ControllerClient _ _) as [[e|] w2]; simpl; [by apply Hearly|].
    mstep. mstep. destruct (DeleteVolume _ _ _) as [[e|] w3]; simpl.
    + exists evs, []. split; [done|]. split; [done|]. right. eexists.
      by rewrite Hh, <- !app_assoc.
    + match goal with |- context [lockDeferSave ?body ?b0] =>
        destruct (locked_offController body b0) as (post & Hpost & HpostP) end.
      { apply steady_Deprovision_locked. }
      exists evs, post. split; [done|]. split; [done|]. right. eexists.
      rewrite Hpost. simpl. by rewrite Hh, <- !app_assoc.
  - intros instanceID bindingID bindDetails b. unfold Bind. rewrite run_bind.
    destruct (probeController_history (BD_ServiceID bindDetails) b)
      as (r & b1 & evs & -> & _ & Hh & Hevs%probes_offController).
    destruct r as [e|]; [by exists evs|].
    destruct (locked_offController (Bind_locked instanceID bindingID bindDetails) b1)
      as (post & Hpost & HpostP); [apply steady_Bind_locked|].
    exists (evs ++ post). rewrite Hpost, Hh, forallb_app, Hevs, HpostP.
    by rewrite app_assoc.
  - intros instanceID bindingID details b. unfold Unbind. rewrite run_bind.
    destruct (probeController_history (UD_ServiceID details) b)
      as (r & b1 & evs & -> & _ & Hh & Hevs%probes_offController).
    destruct r as [e|]; [by exists evs|].
    destruct (locked_offController (Unbind_locked instanceID bindingID) b1)
      as (post & Hpost & HpostP); [apply steady_Unbind_locked|].
    exists (evs ++ post). rewrite Hpost, Hh, forallb_app, Hevs, HpostP.
    by rewrite app_assoc.
Qed.

(** A request that returns no error has passed the gate: the latch is
    set. *)
Lemma perform_success_probed (op : operation) b :
  (perform op b).1 = Ret None -> controllerProbed (perform op b).2 = true.
Proof.
  intros Hok. destruct (controllerProbed b) eqn:Hl.
  - by apply perform_probed.
  - destruct (IdentityClient (operationService op) (servicesRegistry b)) as [[e|] w1] eqn:Hc.
    { by rewrite (perform_no_client op b e w1) in Hok. }
    destruct (Probe (operationService op) w1) as [[e|] w2] eqn:Hp.
    { by rewrite (perform_probe_failed op b e w1 w2) in Hok. }
    by apply (perform_probe_succeeded op b w1 w2).
Qed.

End Outcomes.
(** X1 at the empty broker and a service the registry does not know. *)
Lemma unknown_service_stops_at_gate_example :
  Provision "i1" (demoDetails "svc-x" "plan-1") demoBroker =
    (Ret (mkProvisionedServiceSpec false, Some (errorString "unknown service")),
     mkBroker (store demoBroker) demoRegistry false (history demoBroker)).
Proof.
  refine (proj1 (unknown_service_stops_at_gate "svc-x" demoBroker (errorString "unknown service")
                   demoRegistry _ _) "i1" (demoDetails "svc-x" "plan-1") _).
  - vm_compute. reflexivity.
  - vm_compute. reflexivity.
  - reflexivity.
Defined.

(** X2 at raw parameters that are no JSON text. *)
Lemma Provision_invalid_parameters_example :
  Provision "i1" (mkProvisionDetails "svc-a" "plan-1" "org-1" "space-1" RawInvalid) demoBroker =
    (Ret (mkProvisionedServiceSpec false, Some ErrRawParamsInvalid), probedBroker).
Proof.
  refine (proj1 (Provision_invalid_parameters "i1"
                   (mkProvisionDetails "svc-a" "plan-1" "org-1" "space-1" RawInvalid)
                   demoBroker probedBroker _) JsonSyntaxError _).
  - vm_compute. reflexivity.
  - vm_compute. reflexivity.
Defined.

(** X3 at a plugin that refuses to create the volume. *)
Lemma Provision_plugin_failure_example :
  Provision "i1" (demoDetails "svc-a" "plan-1") refusingBroker =
    (Ret (mkProvisionedServiceSpec false, Some (errorString "out of space")),
     mkBroker demoStore refusingRegistry true
       [EvProbe "svc-a" None; EvCreateVolume "svc-a" demoConfiguration]).
Proof.
  refine (proj2 (Provision_plugin_failure "i1" (demoDetails "svc-a" "plan-1") demoConfiguration
                   refusingBroker (probeController "svc-a" refusingBroker).2 _ _ _ _)
            (errorString "out of space") refusingRegistry refusingRegistry _ _).
  - vm_compute. reflexivity.
  - vm_compute. reflexivity.
  - discriminate.
  - discriminate.
  - vm_compute. reflexivity.
  - vm_compute. reflexivity.
Defined.

(** X4 at a store that takes no new record. *)
Lemma Provision_store_failure_example :
  Provision "i1" (demoDetails "svc-a" "plan-1") fullBroker =
    (Ret (mkProvisionedServiceSpec false,
          Some (errorString ("failed to store instance details " +:+ "i1"))),
     mkBroker (Full (mkMemStore ∅ ∅ (∅, ∅) None)) demoRegistry true
       [EvProbe "svc-a" None; EvCreateVolume "svc-a" demoConfiguration; EvLock; EvSave None;
        EvUnlock]).
Proof.
  refine (Provision_store_failure "i1" (demoDetails "svc-a" "plan-1") demoConfiguration
            fullBroker (probeController "svc-a" fullBroker).2 demoRegistry demoRegistry
            (Some demoVolume) (errorString "store is full") (Full demoStore) _ _ _ _ _ _ _ _).
  - vm_compute. reflexivity.
  - vm_compute. reflexivity.
  - discriminate.
  - discriminate.
  - vm_compute. reflexivity.
  - vm_compute. reflexivity.
  - vm_compute. reflexivity.
  - vm_compute. reflexivity.
Defined.

(** X7 at the empty instance identifier. *)
Lemma Deprovision_invalid_arguments_example :
  Deprovision "" (mkDeprovisionDetails "plan-1" "svc-a") demoBroker =
    (Ret (mkDeprovisionServiceSpec false "",
          Some (errorString "volume deletion requires instance ID")), probedBroker).
Proof.
  refine (proj1 (Deprovision_invalid_arguments "" (mkDeprovisionDetails "plan-1" "svc-a")
                   demoBroker probedBroker _) eq_refl).
  vm_compute. reflexivity.
Defined.

(** X8 at the provisioned instance [i1]: its record is deleted and saved. *)
Lemma Deprovision_plugin_then_store_example :
  Deprovision "i1" (mkDeprovisionDetails "plan-1" "svc-a") provisionedBroker =
    (Ret (mkDeprovisionServiceSpec false "deprovision", None),
     mkBroker (mkMemStore ∅ ∅ (∅, ∅) None) demoRegistry true
       (history provisionedBroker ++
        [EvDeleteVolume "svc-a" (mkDeleteVolumeRequest "vol-1" ∅); EvLock; EvSave None;
         EvUnlock])).
Proof.
  refine (proj2 (Deprovision_plugin_then_store "i1" (mkDeprovisionDetails "plan-1" "svc-a")
                   provisionedBroker provisionedBroker
                   (provisionedInstance (demoDetails "svc-a" "plan-1")
                      (mkServiceFingerPrint "disk" (Some demoVolume)))
                   (mkServiceFingerPrint "disk" (Some demoVolume)) demoVolume demoRegistry
                   _ _ _ _ _ _ _ _)
            demoRegistry (mkMemStore ∅ ∅ (instances (store provisionedBroker), ∅) None) _ _).
  - vm_compute. reflexivity.
  - discriminate.
  - discriminate.
  - discriminate.
  - vm_compute. reflexivity.
  - vm_compute. reflexivity.
  - reflexivity.
  - vm_compute. reflexivity.
  - vm_compute. reflexivity.
  - vm_compute. reflexivity.
Defined.

(** X9 at the instance [i1] provisioned without a volume. *)
Lemma nil_volume_panics_example :
  Deprovision "i1" (mkDeprovisionDetails "plan-1" "svc-a") nilVolumeBroker =
    (Panic, nilVolumeBroker).
Proof.
  refine (proj1 (nil_volume_panics "i1" nilVolumeBroker
                   (provisionedInstance (demoDetails "svc-a" "plan-1")
                      (mkServiceFingerPrint "disk" None))
                   (mkServiceFingerPrint "disk" None) _ _ _)
            (mkDeprovisionDetails "plan-1" "svc-a") nilVolumeBroker _ _ _ _).
  - vm_compute. reflexivity.
  - vm_compute. reflexivity.
  - reflexivity.
  - vm_compute. reflexivity.
  - discriminate.
  - discriminate.
  - discriminate.
Defined.

(** X12 at an instance the store does not have. *)
Lemma Bind_refused_example :
  Bind "i2" "b1" customBinding provisionedBroker =
    (Ret (mkBinding None [], Some ErrInstanceDoesNotExist),
     mkBroker (store provisionedBroker) demoRegistry true
       (history provisionedBroker ++ [EvLock; EvSave None; EvUnlock])).
Proof.
  refine (proj1 (Bind_refused "i2" "b1" customBinding provisionedBroker provisionedBroker _)
            (errorString "instance not found") _).
  - vm_compute. reflexivity.
  - vm_compute. reflexivity.
Defined.

(** X13 at a binding of [i1] for a service the registry does not know. *)
Lemma Bind_stores_before_driver_lookup_example :
  (Bind "i1" "b1" strayBinding provisionedBroker).1 =
    Ret (mkBinding None [], Some (errorString "unknown service")) /\
  bindings (store (Bind "i1" "b1" strayBinding provisionedBroker).2) !! "b1" = Some strayBinding.
Proof.
  assert (Bind "i1" "b1" strayBinding provisionedBroker =
            (Ret (mkBinding None [], Some (errorString "unknown service")),
             mkBroker
               (Save (mkMemStore (instances (store provisionedBroker))
                        (<["b1" := strayBinding]> ∅) (durable (store provisionedBroker))
                        None)).2
               (servicesRegistry provisionedBroker) (controllerProbed provisionedBroker)
               (history provisionedBroker ++
                [EvLock;
                 EvSave (Save (mkMemStore (instances (store provisionedBroker))
                                 (<["b1" := strayBinding]> ∅)
                                 (durable (store provisionedBroker)) None)).1;
                 EvUnlock]))) as Hrun.
  { refine (Bind_stores_before_driver_lookup "i1" "b1" strayBinding provisionedBroker
              provisionedBroker
              (provisionedInstance (demoDetails "svc-a" "plan-1")
                 (mkServiceFingerPrint "disk" (Some demoVolume)))
              (mkServiceFingerPrint "disk" (Some demoVolume)) demoVolume ∅ "rw" _
              (errorString "unknown service") _ _ _ _ _ _ _ _ _ _).
    - vm_compute. reflexivity.
    - vm_compute. reflexivity.
    - discriminate.
    - vm_compute. reflexivity.
    - reflexivity.
    - vm_compute. reflexivity.
    - vm_compute. reflexivity.
    - vm_compute. reflexivity.
    - vm_compute. reflexivity.
    - vm_compute. reflexivity. }
  rewrite Hrun. split; [reflexivity|]. vm_compute. reflexivity.
Defined.

(** X15 at the provisioned instance [i1] and a binding it does not have. *)
Lemma Unbind_outcomes_example :
  Unbind "i1" "b9" (mkUnbindDetails "svc-a") provisionedBroker =
    (Ret (tt, Some ErrBindingDoesNotExist),
     mkBroker (store provisionedBroker) demoRegistry true
       (history provisionedBroker ++ [EvLock; EvSave None; EvUnlock])).
Proof.
  refine (proj1 (proj2 (Unbind_outcomes "i1" "b9" (mkUnbindDetails "svc-a") provisionedBroker
                          provisionedBroker _))
            (provisionedInstance (demoDetails "svc-a" "plan-1")
               (mkServiceFingerPrint "disk" (Some demoVolume)))
            (errorString "binding not found") _ _).
  - vm_compute. reflexivity.
  - vm_compute. reflexivity.
  - vm_compute. reflexivity.
Defined.

(** ** Lifecycles over the record store *)

(** A run of binds and primitives, as far as it computes. *)
Ltac mrun :=
  repeat first
    [ rewrite run_bind
    | progress unfold readStore, onStore, readRegistry, onRegistry, emit, lookupOr
    | progress simpl ].

Section Lifecycles.
Context {W : Type} `{!ServicesRegistry W} `{!Jsonpb}.
Implicit Types (b : Broker MemStore W).

(** X5: A [Provision] that returns no error has stored, under the
    instance identifier, the record of the request's service, plan,
    organization and space with a fingerprint that [getFingerprint] reads
    back; the other instance records and all binding records are as before,
    the durable copy is the store's content, and the latch is set. *)
Theorem Provision_success_record (instanceID : string) (details : ProvisionDetails) b v b' :
  Provision instanceID details b = (Ret (v, None), b') ->
  exists name volInfo,
    instances (store b') =
      <[instanceID := provisionedInstance details (mkServiceFingerPrint name volInfo)]>
        (instances (store b)) /\
    (forall instanceDetails,
       RetrieveInstanceDetails instanceID (store b') = Ok instanceDetails ->
       getFingerprint (SI_ServiceFingerPrint instanceDetails) =
         Ok (mkServiceFingerPrint name volInfo)) /\
    bindings (store b') = bindings (store b) /\
    durable (store b') = (instances (store b'), bindings (store b')) /\
    controllerProbed b' = true.
Proof.
  intros Hrun.
  assert (controllerProbed b' = true) as Hl.
  { pose proof (perform_success_probed (OpProvision instanceID details) b) as Hp.
    unfold perform in Hp. rewrite run_bind, Hrun in Hp. by apply Hp. }
  destruct (Provision_exit instanceID details b)
    as [(Hfail & _)|(configuration & volInfo & pre & b0 & r & b1 & mid & Hst & _ & _
                     & Hbody & _ & _ & Hsave & _ & Hres)].
  { rewrite Hrun in Hfail. by destruct (Hfail v). }
  rewrite Hrun in Hsave, Hres. simpl in Hsave, Hres.
  destruct (instances (store b0) !! instanceID) as [existing|] eqn:Hex.
  - destruct (decide (instanceIdentity existing = provisionIdentity details)) as [Hid|Hid].
    + rewrite Provision_locked_stored in Hbody
        by (intros existing'; rewrite Hex; by intros [= <-]).
      injection Hbody as <- <-. simpl in *.
      destruct (saveError (store b0)) as [e|] eqn:He; [done|]. simpl in Hsave.
      exists (CVR_Name configuration), volInfo. rewrite Hsave. simpl. rewrite Hst.
      split; [done|]. split; [|done].
      unfold lookupOr. rewrite lookup_insert_eq. intros i [= <-].
      apply getFingerprint_represents. right. left. reflexivity.
    + rewrite (Provision_locked_conflict _ _ _ _ _ existing) in Hbody by done.
      by injection Hbody as <- <-.
  - rewrite Provision_locked_stored in Hbody by (intros existing'; by rewrite Hex).
    injection Hbody as <- <-. simpl in *.
    destruct (saveError (store b0)) as [e|] eqn:He; [done|]. simpl in Hsave.
    exists (CVR_Name configuration), volInfo. rewrite Hsave. simpl. rewrite Hst.
    split; [done|]. split; [|done].
    unfold lookupOr. rewrite lookup_insert_eq. intros i [= <-].
    apply getFingerprint_represents. right. left. reflexivity.
Qed.

Lemma Provision_stores_volume (healthy : W -> Prop) instanceID details configuration b :
  jsonpb_UnmarshalString (PD_RawParameters details) = Ok configuration ->
  CVR_Name configuration <> "" ->
  CVR_VolumeCapabilities configuration <> [] ->
  servesVolumes healthy details configuration ->
  healthy (servicesRegistry b) ->
  instances (store b) !! instanceID = None ->
  exists volume b',
    Provision instanceID details b =
      (Ret (mkProvisionedServiceSpec false, saveError (store b)), b') /\
    instances (store b') =
      <[instanceID :=
          provisionedInstance details
            (mkServiceFingerPrint (CVR_Name configuration) (Some volume))]>
        (instances (store b)) /\
    bindings (store b') = bindings (store b) /\
    saveError (store b') = saveError (store b) /\
    (durable (store b') =
       match saveError (store b) with
       | Some _ => durable (store b)
       | None => (instances (store b'), bindings (store b'))
       end) /\
    controllerProbed b' = true /\
    healthy (servicesRegistry b').
Proof.
  intros Hjson Hname Hcaps (Hic & Hprobe & Hcc & Hcv) Hw Hfresh.
  assert (exists b1, probeController (PD_ServiceID details) b = (Ret None, b1) /\
                     store b1 = store b /\ controllerProbed b1 = true /\
                     healthy (servicesRegistry b1))
    as (b1 & Hgate & Hst & Hl1 & Hw1).
  { destruct (controllerProbed b) eqn:Hl.
    - exists b. by rewrite probeController_probed.
    - rewrite probeController_unprobed by done.
      destruct (Hic _ Hw) as (w1 & -> & Hw1). destruct (Hprobe _ Hw1) as (w2 & -> & Hw2).
      by eexists. }
  unfold Provision. rewrite run_bind, Hgate, Hjson.
  rewrite decide_False by done.
  rewrite decide_False by (by destruct (CVR_VolumeCapabilities configuration)).
  mstep. destruct (Hcc _ Hw1) as (w2 & -> & Hw2). mstep. mstep.
  destruct (Hcv _ Hw2) as (volume & w3 & -> & Hw3). unfold lockDeferSave. simpl.
  rewrite Provision_locked_stored by (by simpl; rewrite ?Hst, Hfresh).
  simpl. rewrite ?Hst. exists volume.
  destruct (saveError (store b)) as [e|] eqn:He; simpl; eexists; (split; [reflexivity|]);
    simpl; by rewrite ?He.
Qed.

(** X10: Provisioning an instance that the store does not have and then
    deprovisioning it, on a medium that saves.  When the plugin answers the
    [CreateVolume] of the first call with [volume], that volume is the one
    in the stored fingerprint, and the second call asks the plugin for the
    [DeleteVolume] of the identifier of that very volume, with no secrets;
    when the plugin answers that request, both calls succeed and the
    instance records are again what they were.  The first call adds the
    [CreateVolume] and the locked [Save] to the history, the second the
    [DeleteVolume] and the locked [Save], and no probe. *)
Theorem Provision_then_Deprovision (instanceID : string) (details : ProvisionDetails)
    (configuration : CreateVolumeRequest) b b1 w2 w3 w4 w5 (volume : Volume) :
  probeController (PD_ServiceID details) b = (Ret None, b1) ->
  jsonpb_UnmarshalString (PD_RawParameters details) = Ok configuration ->
  CVR_Name configuration <> "" ->
  CVR_VolumeCapabilities configuration <> [] ->
  ControllerClient (PD_ServiceID details) (servicesRegistry b1) = (None, w2) ->
  CreateVolume (PD_ServiceID details) configuration w2 = (Ok (Some volume), w3) ->
  ControllerClient (PD_ServiceID details) w3 = (None, w4) ->
  DeleteVolume (PD_ServiceID details) (mkDeleteVolumeRequest (VolumeId volume) ∅) w4 =
    (None, w5) ->
  saveError (store b) = None ->
  instances (store b) !! instanceID = None ->
  instanceID <> "" -> PD_PlanID details <> "" -> PD_ServiceID details <> "" ->
  let first := Provision instanceID details b in
  let second :=
    Deprovision instanceID (mkDeprovisionDetails (PD_PlanID details) (PD_ServiceID details))
      first.2 in
  first.1 = Ret (mkProvisionedServiceSpec false, None) /\
  instances (store first.2) =
    <[instanceID :=
        provisionedInstance details
          (mkServiceFingerPrint (CVR_Name configuration) (Some volume))]>
      (instances (store b)) /\
  history first.2 =
    history b1 ++
      [EvCreateVolume (PD_ServiceID details) configuration; EvLock; EvSave None; EvUnlock] /\
  second.1 = Ret (mkDeprovisionServiceSpec false "deprovision", None) /\
  instances (store second.2) = instances (store b) /\
  servicesRegistry second.2 = w5 /\
  history second.2 =
    history first.2 ++
      [EvDeleteVolume (PD_ServiceID details) (mkDeleteVolumeRequest (VolumeId volume) ∅);
       EvLock; EvSave None; EvUnlock].
Proof.
  intros Hgate Hjson Hname Hcaps Hcc Hcv Hcc2 Hdv Hsave Hfresh Hi Hp Hs first second.
  destruct (probeController_frame (PD_ServiceID details) b)
    as (r & b1' & Hrun & Hst & _ & Hl & _).
  rewrite Hgate in Hrun. injection Hrun as <- <-. specialize (Hl eq_refl).
  assert (first =
            (Ret (mkProvisionedServiceSpec false, None),
             mkBroker
               (mkMemStore
                  (<[instanceID :=
                       provisionedInstance details
                         (mkServiceFingerPrint (CVR_Name configuration) (Some volume))]>
                     (instances (store b)))
                  (bindings (store b))
                  (<[instanceID :=
                       provisionedInstance details
                         (mkServiceFingerPrint (CVR_Name configuration) (Some volume))]>
                     (instances (store b)), bindings (store b)) None)
               w3 true
               (history b1 ++
                [EvCreateVolume (PD_ServiceID details) configuration; EvLock; EvSave None;
                 EvUnlock]))) as Hfirst.
  { subst first. unfold Provision. rewrite run_bind, Hgate, Hjson.
    rewrite decide_False by done.
    rewrite decide_False by (by destruct (CVR_VolumeCapabilities configuration)).
    mstep. rewrite Hcc. mstep. mstep. rewrite Hcv. unfold lockDeferSave. simpl.
    rewrite Provision_locked_stored by (by simpl; rewrite ?Hst, Hfresh).
    simpl. rewrite ?Hst, Hsave, Hl. simpl. by rewrite <- !app_assoc. }
  subst second. rewrite Hfirst. simpl. split; [done|]. split; [done|]. split; [done|].
  unfold Deprovision. cbv zeta. rewrite run_bind, probeController_probed by done.
  rewrite !decide_False by done. mstep. unfold lookupOr. rewrite lookup_insert_eq.
  rewrite (getFingerprint_represents _ (mkServiceFingerPrint (CVR_Name configuration)
                                          (Some volume)))
    by (right; left; reflexivity).
  simpl. mstep. rewrite Hcc2. mstep. mstep. rewrite Hdv.
  unfold lockDeferSave, Deprovision_locked. simpl. rewrite ?run_bind. unfold onStore. simpl.
  rewrite delete_insert_eq, delete_id by done.
  split; [done|]. split; [done|]. split; [done|]. by rewrite <- !app_assoc.
Qed.

(** X6: When the medium fails the [Save], a [Provision] that went through
    returns the [Save]'s error, and the record is in the store's memory all
    the same, while the durable copy is as before: the volume exists, the
    caller sees a failure, and a restart forgets the instance. *)
Theorem Provision_unsaved (healthy : W -> Prop) (instanceID : string)
    (details : ProvisionDetails) (configuration : CreateVolumeRequest) b e :
  jsonpb_UnmarshalString (PD_RawParameters details) = Ok configuration ->
  CVR_Name configuration <> "" ->
  CVR_VolumeCapabilities configuration <> [] ->
  servesVolumes healthy details configuration ->
  healthy (servicesRegistry b) ->
  instances (store b) !! instanceID = None ->
  saveError (store b) = Some e ->
  let res := Provision instanceID details b in
  res.1 = Ret (mkProvisionedServiceSpec false, Some e) /\
  is_Some (instances (store res.2) !! instanceID) /\
  durable (store res.2) = durable (store b).
Proof.
  intros Hjson Hname Hcaps Hserves Hw Hfresh Hsave res.
  destruct (Provision_stores_volume healthy instanceID details configuration b)
    as (volume & b1 & Hrun & Hinst & _ & _ & Hdur & _); try done.
  subst res. rewrite Hrun. simpl. rewrite Hsave in Hdur. rewrite Hsave, Hinst, lookup_insert_eq.
  by split; [|split].
Qed.

Lemma Bind_passed (instanceID bindingID : string) (bindDetails : BindDetails) b b0
    instanceDetails fingerprint volume params mode driverName containerDir bindingParams :
  probeController (BD_ServiceID bindDetails) b = (Ret None, b0) ->
  instances (store b) !! instanceID = Some instanceDetails ->
  BD_AppGUID bindDetails <> "" ->
  getFingerprint (SI_ServiceFingerPrint instanceDetails) = Ok fingerprint ->
  FPVolume fingerprint = Some volume ->
  decodeBindParameters (BD_RawParameters bindDetails) = Ok params ->
  evaluateMode params = Ok mode ->
  (forall existing, bindings (store b) !! bindingID = Some existing -> existing = bindDetails) ->
  DriverName (BD_ServiceID bindDetails) (servicesRegistry b0) = Ok driverName ->
  evaluateContainerPath params instanceID = Ret containerDir ->
  evaluateId params = Ret bindingParams ->
  saveError (store b) = None ->
  Bind instanceID bindingID bindDetails b =
    (Ret (bindingFor instanceID volume mode driverName containerDir bindingParams, None),
     mkBroker
       (mkMemStore (instances (store b)) (<[bindingID := bindDetails]> (bindings (store b)))
          (instances (store b), <[bindingID := bindDetails]> (bindings (store b))) None)
       (servicesRegistry b0) (controllerProbed b0)
       (history b0 ++ [EvLock; EvSave None; EvUnlock])).
Proof.
  intros Hgate Hr Happ Hfp Hvol Hpar Hmode Hconf Hdrv Hdir Hids Hsave.
  destruct (probeController_frame (BD_ServiceID bindDetails) b) as (r & b1' & Hrun & Hst & _).
  rewrite Hgate in Hrun. injection Hrun as <- <-.
  unfold Bind. rewrite run_bind, Hgate.
  unfold lockDeferSave, Bind_locked, bindingConflicts. cbv zeta. simpl. mstep.
  unfold lookupOr. rewrite ?Hst, Hr, decide_False, Hfp, Hvol, Hpar, Hmode by done. mstep.
  rewrite ?Hst.
  assert (match bindings (store b) !! bindingID with
          | Some existing => bool_decide (existing <> bindDetails)
          | None => false
          end = false) as ->.
  { destruct (bindings (store b) !! bindingID) as [existing|] eqn:Hb; [|done].
    rewrite bool_decide_false; [done|]. intros Hne. by apply Hne, Hconf. }
  mstep. mstep. rewrite Hdrv, Hdir, Hids. simpl. rewrite ?Hst, Hsave. simpl.
  by rewrite <- ?app_assoc.
Qed.

(** X14: A [Bind] that returned a binding without error has stored the
    bind details under the binding identifier and left the instance records
    alone; the same [Bind] asked again returns the same binding, without
    error, and leaves the store as it is. *)
Theorem Bind_idempotent (instanceID bindingID : string) (bindDetails : BindDetails) b ret b1 :
  Bind instanceID bindingID bindDetails b = (Ret (ret, None), b1) ->
  bindings (store b1) = <[bindingID := bindDetails]> (bindings (store b)) /\
  instances (store b1) = instances (store b) /\
  Bind instanceID bindingID bindDetails b1 =
    (Ret (ret, None),
     mkBroker (store b1) (servicesRegistry b1) (controllerProbed b1)
       (history b1 ++ [EvLock; EvSave None; EvUnlock])).
Proof.
  intros Hrun.
  assert (controllerProbed b1 = true) as Hl.
  { pose proof (perform_success_probed (OpBind instanceID bindingID bindDetails) b) as Hp.
    unfold perform in Hp. rewrite run_bind, Hrun in Hp. by apply Hp. }
  revert Hrun. unfold Bind at 1. rewrite run_bind.
  destruct (probeController_frame (BD_ServiceID bindDetails) b) as (r & b0 & Hgate & Hst & _).
  rewrite Hgate. destruct r as [e|]; [done|].
  unfold lockDeferSave, Bind_locked, bindingConflicts. cbv zeta. simpl.
  mstep. unfold lookupOr. rewrite ?Hst.
  destruct (instances (store b) !! instanceID) as [instanceDetails|] eqn:Hr;
    [|simpl; by destruct (saveError _)].
  destruct (decide (BD_AppGUID bindDetails = "")); [simpl; by destruct (saveError _)|].
  destruct (getFingerprint _) as [fingerprint|e] eqn:Hfp; [|simpl; by destruct (saveError _)].
  destruct (FPVolume fingerprint) as [volume|] eqn:Hvol;
    [|unfold panic; simpl; by destruct (saveError _)].
  destruct (decodeBindParameters _) as [params|e] eqn:Hpar; [|simpl; by destruct (saveError _)].
  destruct (evaluateMode params) as [mode|e] eqn:Hmode; [|simpl; by destruct (saveError _)].
  mstep. rewrite ?Hst.
  assert (exists conflict,
            conflict = match bindings (store b) !! bindingID with
                       | Some existing => bool_decide (existing <> bindDetails)
                       | None => false
                       end /\
            (conflict = false ->
             forall existing, bindings (store b) !! bindingID = Some existing ->
                              existing = bindDetails)) as (conflict & Hc & Hconf).
  { eexists. split; [reflexivity|]. intros Hc existing Hb. rewrite Hb in Hc.
    apply bool_decide_eq_false in Hc. by destruct (decide (existing = bindDetails)). }
  rewrite <- Hc. clear Hc. destruct conflict; [simpl; by destruct (saveError _)|].
  specialize (Hconf eq_refl).
  mstep. mstep.
  destruct (DriverName _ _) as [driverName|e] eqn:Hdrv; [|simpl; by destruct (saveError _)].
  destruct (evaluateContainerPath params instanceID) as [containerDir|] eqn:Hdir;
    [|unfold panic; simpl; by destruct (saveError _)].
  destruct (evaluateId params) as [bindingParams|] eqn:Hids;
    [|unfold panic; simpl; by destruct (saveError _)].
  simpl. rewrite ?Hst. destruct (saveError (store b)) as [e|] eqn:Hsave; [done|].
  simpl. intros [= <- <-]. simpl in *. split; [done|]. split; [done|].
  match goal with |- Bind _ _ _ ?B = _ =>
    rewrite (Bind_passed instanceID bindingID bindDetails B B instanceDetails fingerprint
               volume params mode driverName containerDir bindingParams) end;
    simpl; try done.
  - by rewrite insert_insert_eq, <- !app_assoc.
  - by rewrite probeController_probed.
  - intros existing. rewrite lookup_insert_eq. by intros [= <-].
Qed.

(** X16: [Unbind] of a stored binding of a stored instance succeeds and
    deletes the binding record alone; the same [Unbind] asked again answers
    [ErrBindingDoesNotExist] and changes no record. *)
Theorem Unbind_twice (instanceID bindingID : string) (details : UnbindDetails) b
    instanceDetails bindingDetails :
  controllerProbed b = true ->
  instances (store b) !! instanceID = Some instanceDetails ->
  bindings (store b) !! bindingID = Some bindingDetails ->
  saveError (store b) = None ->
  let first := Unbind instanceID bindingID details b in
  let second := Unbind instanceID bindingID details first.2 in
  first.1 = Ret (tt, None) /\
  bindings (store first.2) = delete bindingID (bindings (store b)) /\
  instances (store first.2) = instances (store b) /\
  second.1 = Ret (tt, Some ErrBindingDoesNotExist) /\
  bindings (store second.2) = bindings (store first.2).
Proof.
  intros Hl Hi Hb Hsave first second.
  assert (first =
            (Ret (tt, None),
             mkBroker
               (mkMemStore (instances (store b)) (delete bindingID (bindings (store b)))
                  (instances (store b), delete bindingID (bindings (store b))) None)
               (servicesRegistry b) true (history b ++ [EvLock; EvSave None; EvUnlock])))
    as Hfirst.
  { subst first. unfold Unbind. rewrite run_bind, probeController_probed by done.
    unfold lockDeferSave, Unbind_locked. mrun. rewrite Hi. mrun. rewrite Hb. mrun.
    rewrite Hsave, Hl. simpl. by rewrite <- !app_assoc. }
  subst second. rewrite Hfirst. simpl. split; [done|]. split; [done|]. split; [done|].
  unfold Unbind. rewrite run_bind, probeController_probed by done.
  unfold lockDeferSave, Unbind_locked. mrun. rewrite Hi. mrun. by rewrite lookup_delete_eq.
Qed.

End Lifecycles.

(** X5 at the provisioned broker. *)
Lemma Provision_success_record_example :
  exists name volInfo,
    instances (store provisionedBroker) =
      <["i1" := provisionedInstance (demoDetails "svc-a" "plan-1")
                  (mkServiceFingerPrint name volInfo)]> (instances (store demoBroker)) /\
    (forall instanceDetails,
       RetrieveInstanceDetails "i1" (store provisionedBroker) = Ok instanceDetails ->
       getFingerprint (SI_ServiceFingerPrint instanceDetails) =
         Ok (mkServiceFingerPrint name volInfo)) /\
    bindings (store provisionedBroker) = bindings (store demoBroker) /\
    durable (store provisionedBroker) =
      (instances (store provisionedBroker), bindings (store provisionedBroker)) /\
    controllerProbed provisionedBroker = true.
Proof.
  refine (Provision_success_record "i1" (demoDetails "svc-a" "plan-1") demoBroker
            (mkProvisionedServiceSpec false) provisionedBroker _).
  vm_compute. reflexivity.
Defined.

(** X10 at the empty broker and the instance [i1]. *)
Lemma Provision_then_Deprovision_example :
  let first := Provision "i1" (demoDetails "svc-a" "plan-1") demoBroker in
  let second := Deprovision "i1" (mkDeprovisionDetails "plan-1" "svc-a") first.2 in
  first.1 = Ret (mkProvisionedServiceSpec false, None) /\
  instances (store first.2) =
    <["i1" := provisionedInstance (demoDetails "svc-a" "plan-1")
                (mkServiceFingerPrint "disk" (Some demoVolume))]>
      (instances (store demoBroker)) /\
  history first.2 =
    history probedBroker ++
      [EvCreateVolume "svc-a" demoConfiguration; EvLock; EvSave None; EvUnlock] /\
  second.1 = Ret (mkDeprovisionServiceSpec false "deprovision", None) /\
  instances (store second.2) = instances (store demoBroker) /\
  servicesRegistry second.2 = demoRegistry /\
  history second.2 =
    history first.2 ++
      [EvDeleteVolume "svc-a" (mkDeleteVolumeRequest (VolumeId demoVolume) ∅);
       EvLock; EvSave None; EvUnlock].
Proof.
  refine (Provision_then_Deprovision "i1" (demoDetails "svc-a" "plan-1") demoConfiguration
            demoBroker probedBroker demoRegistry demoRegistry demoRegistry demoRegistry
            demoVolume _ _ _ _ _ _ _ _ _ _ _ _ _).
  - vm_compute. reflexivity.
  - vm_compute. reflexivity.
  - discriminate.
  - discriminate.
  - vm_compute. reflexivity.
  - vm_compute. reflexivity.
  - vm_compute. reflexivity.
  - vm_compute. reflexivity.
  - vm_compute. reflexivity.
  - vm_compute. reflexivity.
  - discriminate.
  - discriminate.
  - discriminate.
Defined.

(** X6 at a medium that fails every [Save]. *)
Lemma Provision_unsaved_example :
  let res := Provision "i1" (demoDetails "svc-a" "plan-1") unsavedBroker in
  res.1 = Ret (mkProvisionedServiceSpec false, Some (errorString "disk full")) /\
  is_Some (instances (store res.2) !! "i1") /\
  durable (store res.2) = durable (store unsavedBroker).
Proof.
  apply (Provision_unsaved (fun w => w = demoRegistry) "i1" (demoDetails "svc-a" "plan-1")
           demoConfiguration unsavedBroker (errorString "disk full")).
  - vm_compute. reflexivity.
  - discriminate.
  - discriminate.
  - repeat split; intros w ->.
    + exists demoRegistry. split; [vm_compute; reflexivity|reflexivity].
    + exists demoRegistry. split; [vm_compute; reflexivity|reflexivity].
    + exists demoRegistry. split; [vm_compute; reflexivity|reflexivity].
    + exists demoVolume, demoRegistry. split; [vm_compute; reflexivity|reflexivity].
  - vm_compute. reflexivity.
  - vm_compute. reflexivity.
  - vm_compute. reflexivity.
Defined.

(** X14 at the binding [b1] of the provisioned instance. *)
Lemma Bind_idempotent_example :
  bindings (store boundBroker) = <["b1" := customBinding]> (bindings (store provisionedBroker)) /\
  instances (store boundBroker) = instances (store provisionedBroker) /\
  Bind "i1" "b1" customBinding boundBroker =
    (Ret (customMount, None),
     mkBroker (store boundBroker) (servicesRegistry boundBroker) (controllerProbed boundBroker)
       (history boundBroker ++ [EvLock; EvSave None; EvUnlock])).
Proof.
  refine (Bind_idempotent "i1" "b1" customBinding provisionedBroker customMount boundBroker _).
  vm_compute. reflexivity.
Defined.

(** X16 at the binding [b1] of the provisioned instance. *)
Lemma Unbind_twice_example :
  let first := Unbind "i1" "b1" (mkUnbindDetails "svc-a") boundBroker in
  let second := Unbind "i1" "b1" (mkUnbindDetails "svc-a") first.2 in
  first.1 = Ret (tt, None) /\
  bindings (store first.2) = delete "b1" (bindings (store boundBroker)) /\
  instances (store first.2) = instances (store boundBroker) /\
  second.1 = Ret (tt, Some ErrBindingDoesNotExist) /\
  bindings (store second.2) = bindings (store first.2).
Proof.
  refine (Unbind_twice "i1" "b1" (mkUnbindDetails "svc-a") boundBroker
            (provisionedInstance (demoDetails "svc-a" "plan-1")
               (mkServiceFingerPrint "disk" (Some demoVolume))) customBinding _ _ _ _).
  - vm_compute. reflexivity.
  - vm_compute. reflexivity.
  - vm_compute. reflexivity.
  - vm_compute. reflexivity.
Defined.

(** ** Restart, and what a deprovision leaves behind *)

Section Restart.
Context {W : Type} `{!ServicesRegistry W} `{!Jsonpb}.
Implicit Types (b : Broker MemStore W).

(** X20: A broker made by [New] over a store that was saved starts with
    the latch unset, and reads every record back: the bindings as they
    were, each instance under its identifier with the same identity and the
    same fingerprint out of [getFingerprint]; [New] returns no error. *)
Theorem New_reads_back (s : MemStore) (w : W) :
  durable s = (instances s, bindings s) ->
  (New s w).2 = None /\
  controllerProbed (New s w).1 = false /\
  servicesRegistry (New s w).1 = w /\
  bindings (store (New s w).1) = bindings s /\
  forall id,
    match RetrieveInstanceDetails id s with
    | Ok instanceDetails =>
        exists restored,
          RetrieveInstanceDetails id (store (New s w).1) = Ok restored /\
          instanceIdentity restored = instanceIdentity instanceDetails /\
          getFingerprint (SI_ServiceFingerPrint restored) =
            getFingerprint (SI_ServiceFingerPrint instanceDetails)
    | Err e => RetrieveInstanceDetails id (store (New s w).1) = Err e
    end.
Proof.
  intros Hd. destruct (sameStore_Restore s Hd) as (Hb & _ & Hi).
  unfold New. destruct (Restore s) as [err s'] eqn:Hr.
  assert (err = None) as -> by (by injection Hr as <- _).
  simpl in *. repeat split; try done.
  intros id. specialize (Hi id). unfold lookupOr.
  destruct (instances s !! id) as [i|]; inversion Hi as [? restored Hsame|]; subst; [|done].
  exists restored. split; [done|]. split; [symmetry; apply Hsame|].
  symmetry. by apply sameInstance_getFingerprint.
Qed.


End Restart.

(** X20 at the store of the provisioned broker. *)
Lemma New_reads_back_example :
  (New (store provisionedBroker) demoRegistry).2 = None /\
  controllerProbed (New (store provisionedBroker) demoRegistry).1 = false.
Proof.
  assert (durable (store provisionedBroker) =
            (instances (store provisionedBroker), bindings (store provisionedBroker))) as Hd
    by (vm_compute; reflexivity).
  split.
  - exact (proj1 (New_reads_back (store provisionedBroker) demoRegistry Hd)).
  - exact (proj1 (proj2 (New_reads_back (store provisionedBroker) demoRegistry Hd))).
Defined.


(** ** The parameter evaluators, further *)

(** X18: [evaluateId] gives the two identities or none: the nil map
    exactly when [uid] or [gid] is missing (a missing one hides a malformed
    other), and a map exactly when both are strings, which then holds these
    two strings under [uid] and [gid] and nothing else. *)
Theorem evaluateId_whole_or_nil (parameters : gmap string json) :
  (evaluateId parameters = Ret None <->
   parameters !! "uid" = None \/ parameters !! "gid" = None) /\
  (forall m,
     evaluateId parameters = Ret (Some m) <->
     exists uid gid,
       parameters !! "uid" = Some (JString uid) /\ parameters !! "gid" = Some (JString gid) /\
       m = <["gid" := gid]> (<["uid" := uid]> ∅)).
Proof.
  unfold evaluateId.
  destruct (parameters !! "uid") as [uid|].
  - destruct (parameters !! "gid") as [gid|].
    + split.
      * split; [by destruct uid, gid|]. by intros [|].
      * intros m. split.
        -- destruct uid, gid; try done. intros [= <-]. by eexists _, _.
        -- by intros (u & g & [= ->] & [= ->] & ->).
    + split; [split; [by right|done]|]. intros m. split; [done|].
      by intros (u & g & _ & ? & _).
  - split; [split; [by left|done]|]. intros m. split; [done|].
    by intros (u & g & ? & _).
Qed.

(** X18 at parameters with one of the two identities. *)
Lemma evaluateId_whole_or_nil_example :
  evaluateId (<["uid" := JString "1000"]> ∅) = Ret None /\
  evaluateId (<["gid" := JNumber "5"]> ∅) = Ret None.
Proof.
  split.
  - apply (proj1 (evaluateId_whole_or_nil (<["uid" := JString "1000"]> ∅))). right. reflexivity.
  - apply (proj1 (evaluateId_whole_or_nil (<["gid" := JNumber "5"]> ∅))). left. reflexivity.
Defined.

Lemma split_slash_cons (s : string) : exists x xs, split_slash s = x :: xs.
Proof.
  induction s as [|c r (x & xs & IH)]; simpl; [by eexists _, _|].
  destruct (decide (c = "/"%char)); [by eexists _, _|]. rewrite IH. by eexists _, _.
Qed.

Lemma split_slash_plain (s : string) : hasSlash s = false -> split_slash s = [s].
Proof.
  induction s as [|c r IH]; simpl; [done|].
  intros [Hc Hr]%orb_false_elim. apply bool_decide_eq_false in Hc.
  rewrite decide_False by done. by rewrite IH.
Qed.

Lemma clean_step_kept (acc comps : list string) :
  Forall (fun c => c <> "..") comps ->
  foldl (clean_step true) acc comps = rev (filter (fun c => keptElement c = true) comps) ++ acc.
Proof.
  revert acc. induction comps as [|c comps IH]; intros acc Hc; simpl; [done|].
  inversion Hc as [|? ? Hdots Hrest]; subst. rewrite IH by done. unfold clean_step.
  destruct (decide (c = "")) as [->|H1]; [by rewrite filter_cons_False by (by vm_compute)|].
  destruct (decide (c = ".")) as [->|H2]; [by rewrite filter_cons_False by (by vm_compute)|].
  rewrite decide_False by done. rewrite filter_cons_True.
  - simpl. by rewrite <- app_assoc.
  - unfold keptElement. by rewrite !bool_decide_eq_false_2.
Qed.

Lemma split_slash_element (s rest : string) :
  hasSlash s = false -> split_slash (s +:+ "/" +:+ rest) = s :: split_slash rest.
Proof.
  induction s as [|c r IH]; intros Hs.
  - change ("" +:+ "/" +:+ rest) with (String "/" rest). cbn [split_slash].
    by rewrite decide_True.
  - cbn [hasSlash] in Hs. apply orb_false_elim in Hs as [Hc Hr].
    apply bool_decide_eq_false in Hc.
    change (String c r +:+ "/" +:+ rest) with (String c (r +:+ "/" +:+ rest)).
    cbn [split_slash]. rewrite decide_False by done. by rewrite IH.
Qed.

Lemma split_slash_base (volId : string) :
  split_slash ("/var/vcap/data/" +:+ volId) = "" :: "var" :: "vcap" :: "data" :: split_slash volId.
Proof.
  change ("/var/vcap/data/" +:+ volId)
    with ("" +:+ "/" +:+ ("var" +:+ "/" +:+ ("vcap" +:+ "/" +:+ ("data" +:+ "/" +:+ volId)))).
  by rewrite !split_slash_element.
Qed.

Lemma join_slash_base (kept : list string) :
  join_slash ("var" :: "vcap" :: "data" :: kept) =
    "var/vcap/data" +:+ match kept with [] => "" | _ => "/" +:+ join_slash kept end.
Proof. by destruct kept. Qed.

Lemma path_Join_default (volId : string) :
  Forall (fun c => c <> "..") (split_slash volId) ->
  path_Join [DefaultContainerPath; volId] =
    DefaultContainerPath +:+
    match filter (fun c => keptElement c = true) (split_slash volId) with
    | [] => ""
    | kept => "/" +:+ join_slash kept
    end.
Proof.
  intros Hdots.
  change (path_Join [DefaultContainerPath; volId])
    with (path_Clean ("/var/vcap/data/" +:+ volId)).
  change ("/var/vcap/data/" +:+ volId) with (String "/" ("var/vcap/data/" +:+ volId)).
  unfold path_Clean. rewrite bool_decide_eq_true_2 by done. cbv zeta.
  change (String "/" ("var/vcap/data/" +:+ volId)) with ("/var/vcap/data/" +:+ volId).
  rewrite split_slash_base.
  change (foldl (clean_step true) [] ("" :: "var" :: "vcap" :: "data" :: split_slash volId))
    with (foldl (clean_step true) ["data"; "vcap"; "var"] (split_slash volId)).
  rewrite clean_step_kept by done. rewrite rev_app_distr, rev_involutive.
  change (rev ["data"; "vcap"; "var"] ++ ?l) with ("var" :: "vcap" :: "data" :: l).
  cbn [rev app]. rewrite join_slash_base. by destruct (filter _ _).
Qed.

(** X19: Without a [mount], or with the empty one, the container path of
    an instance identifier that has no [..] element is the default
    directory followed by the identifier's elements, the empty ones and [.]
    dropped: it stays under [/var/vcap/data].  For an identifier without a
    slash that is not empty, [.] or [..] it is the directory, a slash and
    the identifier. *)
Theorem default_path_under_base (parameters : gmap string json) (volId : string) :
  parameters !! "mount" = None \/ parameters !! "mount" = Some (JString "") ->
  (Forall (fun c => c <> "..") (split_slash volId) ->
   evaluateContainerPath parameters volId =
     Ret (DefaultContainerPath +:+
          match filter (fun c => keptElement c = true) (split_slash volId) with
          | [] => ""
          | kept => "/" +:+ join_slash kept
          end)) /\
  (hasSlash volId = false -> plainElement volId = true ->
   evaluateContainerPath parameters volId = Ret (DefaultContainerPath +:+ "/" +:+ volId)).
Proof.
  intros Hmount. rewrite evaluateContainerPath_default by done. split.
  - intros Hdots. by rewrite path_Join_default.
  - intros Hslash Hplain. unfold plainElement in Hplain.
    apply andb_true_iff in Hplain as [[H1 H2]%andb_true_iff H3].
    apply negb_true_iff, bool_decide_eq_false in H1, H2, H3.
    rewrite path_Join_default; rewrite split_slash_plain by done.
    + rewrite filter_cons_True; [done|]. unfold keptElement.
      by rewrite !bool_decide_eq_false_2.
    + by repeat constructor.
Qed.

(** X19 at an identifier with empty and [.] elements, and at a plain one. *)
Lemma default_path_under_base_example :
  evaluateContainerPath ∅ "a//./b" = Ret "/var/vcap/data/a/b" /\
  evaluateContainerPath (<["mount" := JString ""]> ∅) "instance-1" = Ret "/var/vcap/data/instance-1".
Proof.
  split.
  - refine (proj1 (default_path_under_base ∅ "a//./b" (or_introl eq_refl)) _).
    vm_compute. repeat constructor; discriminate.
  - exact (proj2 (default_path_under_base (<["mount" := JString ""]> ∅) "instance-1"
                    (or_intror eq_refl)) eq_refl eq_refl).
Defined.

(** ** The start of the process *)

Section StartUp.
Import main.
Variable Sprintf_0f : string -> string.

Lemma assert_map_goes (v : option json) (m : gmap string json) :
  assert_map v = Goes m -> exists ms, v = Some (JObject ms) /\ m = object_map ms.
Proof.
  unfold assert_map. destruct v as [[]|]; try discriminate. intros [= <-]. by eexists.
Qed.

Lemma assert_string_goes (v : option json) (s : string) :
  assert_string v = Goes s -> v = Some (JString s).
Proof. unfold assert_string. destruct v as [[]|]; try discriminate. by intros [= <-]. Qed.

Lemma credentials_port_goes (v : option json) (s : string) :
  credentials_port Sprintf_0f v = Goes s ->
  v = Some (JString s) \/ exists lit, v = Some (JNumber lit) /\ s = Sprintf_0f lit.
Proof.
  unfold credentials_port. destruct v as [[]|]; try discriminate; intros [= <-]; eauto.
Qed.

Lemma ending_bind_goes {A B} (m : ending A) (k : A -> ending B) (b : B) :
  m ≫= k = Goes b -> exists a, m = Goes a /\ k a = Goes b.
Proof. destruct m; try discriminate. intros Hk. by eexists. Qed.

Lemma parseVcapServices_returns_aux (env : Environ) (flags flags' : Flags) :
  parseVcapServices Sprintf_0f env flags = Goes flags' ->
  dbDriver flags <> "" /\ sameSettings flags flags'.
Proof.
  unfold parseVcapServices. destruct (decide (dbDriver flags = "")) as [|Hdriver]; [done|].
  destruct (VCAP_SERVICES env) as [services|]; [|done].
  destruct (json_Unmarshal_bindings services) as [stuff|]; [|done].
  destruct (stuff !! cfServiceName flags) as [stuff2|]; [|done].
  intros Hrun.
  do 7 apply ending_bind_goes in Hrun as (? & _ & Hrun).
  injection Hrun as <-. by repeat split.
Qed.

(** X21: [parseVcapServices] returns only with a database driver given
    and a [VCAP_SERVICES] document that lists the named service with an
    object as its first binding, whose [credentials] object has strings for
    [username], [password], [hostname] and [name] and a string or a number
    for [port]; the five database settings are then those values (a number
    formatted by [%.0f]), whatever they were before, and all other settings
    are as before. *)
Theorem parseVcapServices_returns (env : Environ) (flags flags' : Flags) :
  parseVcapServices Sprintf_0f env flags = Goes flags' ->
  dbDriver flags <> "" /\
  sameSettings flags flags' /\
  exists services stuff binding others credentials,
    VCAP_SERVICES env = Some services /\
    json_Unmarshal_bindings services = Ok stuff /\
    stuff !! cfServiceName flags = Some (JObject binding :: others) /\
    object_map binding !! "credentials" = Some (JObject credentials) /\
    object_map credentials !! "username" = Some (JString (dbUsername flags')) /\
    object_map credentials !! "password" = Some (JString (dbPassword flags')) /\
    object_map credentials !! "hostname" = Some (JString (dbHostname flags')) /\
    object_map credentials !! "name" = Some (JString (dbName flags')) /\
    (object_map credentials !! "port" = Some (JString (dbPort flags')) \/
     exists lit,
       object_map credentials !! "port" = Some (JNumber lit) /\
       dbPort flags' = Sprintf_0f lit).
Proof.
  unfold parseVcapServices. destruct (decide (dbDriver flags = "")) as [|Hdriver]; [done|].
  destruct (VCAP_SERVICES env) as [services|]; [|done].
  destruct (json_Unmarshal_bindings services) as [stuff|] eqn:Hstuff; [|done].
  destruct (stuff !! cfServiceName flags) as [stuff2|] eqn:Hstuff2; [|done].
  intros Hrun. destruct stuff2 as [|first others]; [done|].
  apply ending_bind_goes in Hrun as (stuff3 & (binding & [= ->] & ->)%assert_map_goes & Hrun).
  apply ending_bind_goes in Hrun as (c & (credentials & Hc & ->)%assert_map_goes & Hrun).
  apply ending_bind_goes in Hrun as (u & Hu%assert_string_goes & Hrun).
  apply ending_bind_goes in Hrun as (p & Hp%assert_string_goes & Hrun).
  apply ending_bind_goes in Hrun as (h & Hh%assert_string_goes & Hrun).
  apply ending_bind_goes in Hrun as (port & Hport%credentials_port_goes & Hrun).
  apply ending_bind_goes in Hrun as (n & Hn%assert_string_goes & Hrun).
  injection Hrun as <-. split; [done|]. split; [by repeat split|].
  exists services, stuff, binding, others, credentials. simpl. by repeat split.
Qed.

(** What [parseVcapServices] reads: the document of [VCAP_SERVICES] and
    the settings other than the five it writes. *)
Lemma parseVcapServices_reads (env env2 : Environ) (flags flags2 : Flags) :
  VCAP_SERVICES env2 = VCAP_SERVICES env ->
  sameSettings flags flags2 ->
  parseVcapServices Sprintf_0f env2 flags2 = parseVcapServices Sprintf_0f env flags.
Proof.
  intros Henv (Hd & Ha & Hu & Hp & Hs & Hdr & Hca & Hcf). unfold parseVcapServices.
  by rewrite Henv, Hd, Ha, Hu, Hp, Hs, Hdr, Hca, Hcf.
Qed.

(** X22: A listed service passes every check that ends in
    [logger.Fatal]: from there [parseVcapServices] returns or panics, and
    on a binding list that is empty or [null] it panics, on [stuff2[0]]. *)
Theorem parseVcapServices_listed (env : Environ) (flags : Flags) services stuff stuff2 :
  dbDriver flags <> "" ->
  VCAP_SERVICES env = Some services ->
  json_Unmarshal_bindings services = Ok stuff ->
  stuff !! cfServiceName flags = Some stuff2 ->
  (parseVcapServices Sprintf_0f env flags = Panics \/
   exists flags', parseVcapServices Sprintf_0f env flags = Goes flags') /\
  (stuff2 = [] -> parseVcapServices Sprintf_0f env flags = Panics).
Proof.
  intros Hdriver Henv Hstuff Hlisted. unfold parseVcapServices.
  rewrite decide_False by done. rewrite Henv, Hstuff, Hlisted. split; [|by intros ->].
  destruct (assert_map (stuff2 !! 0%nat)) as [stuff3| | |] eqn:H3;
    [|by destruct (stuff2 !! 0%nat) as [[]|]..|by left]. simpl.
  destruct (assert_map (stuff3 !! "credentials")) as [credentials| | |] eqn:Hc;
    [|by destruct (stuff3 !! "credentials") as [[]|]..|by left]. simpl.
  destruct (credentials !! "username") as [[]|]; simpl; try by left.
  destruct (credentials !! "password") as [[]|]; simpl; try by left.
  destruct (credentials !! "hostname") as [[]|]; simpl; try by left.
  destruct (credentials !! "port") as [[]|]; simpl; try (by left);
    destruct (credentials !! "name") as [[]|]; simpl; try (by left); right; by eexists.
Qed.

(** X23: Where the store's settings come from.  Without [cfServiceName]
    the start-up does not read [VCAP_SERVICES]; with it, the variables
    [DB_USERNAME] and [DB_PASSWORD] and the flags [dbHostname], [dbPort] and
    [dbName] have no part in what the store is given.  A start-up that
    reaches the store has a service spec file, and a data directory or a
    database driver; with [cfServiceName] it has a database driver.  The
    file of the store is [csi-general-services.json] in the data
    directory. *)
Theorem main_store_settings (env : Environ) (flags : Flags) :
  (cfServiceName flags = "" ->
   forall env2, sameVariables env env2 ->
     main.main Sprintf_0f env2 flags = main.main Sprintf_0f env flags) /\
  (cfServiceName flags <> "" ->
   forall env2 flags2, VCAP_SERVICES env2 = VCAP_SERVICES env -> sameSettings flags flags2 ->
     main.main Sprintf_0f env2 flags2 = main.main Sprintf_0f env flags) /\
  (forall arguments, main.main Sprintf_0f env flags = Goes arguments ->
     serviceSpec flags <> "" /\
     (dataDir flags <> "" \/ storeDriver arguments <> "") /\
     (cfServiceName flags <> "" -> storeDriver arguments <> "") /\
     storeDriver arguments = dbDriver flags /\
     storeCACert arguments = dbCACert flags /\
     storeFileName arguments = path_Join [dataDir flags; "csi-general-services.json"]).
Proof.
  split; [|split].
  - intros Hcf env2 [Hu Hp]. unfold main.main.
    replace (parseEnvironment env2 flags) with (parseEnvironment env flags)
      by (unfold parseEnvironment; by rewrite Hu, Hp).
    destruct (checkParams (parseEnvironment env flags)); try done.
    unfold mbind, ending_bind, createServer. cbn [parseEnvironment cfServiceName].
    by rewrite !decide_False by (by intros ?).
  - intros Hcf env2 flags2 Henv (Hd & Ha & Hu & Hp & Hs & Hdr & Hca & Hcf2).
    unfold main.main, checkParams. cbn [parseEnvironment dataDir dbDriver serviceSpec].
    rewrite <- Hd, <- Hdr, <- Hs.
    destruct (decide (dataDir flags = "" /\ dbDriver flags = "")); [done|].
    destruct (decide (serviceSpec flags = "")); [done|].
    unfold mbind at 1 2, ending_bind at 1 2, createServer.
    cbn [parseEnvironment dataDir cfServiceName]. rewrite <- Hcf2, <- Hd.
    rewrite !decide_True by done.
    by rewrite (parseVcapServices_reads env env2 (parseEnvironment env flags)
                  (parseEnvironment env2 flags2)).
  - intros arguments. unfold main.main, checkParams.
    cbn [parseEnvironment dataDir dbDriver serviceSpec].
    destruct (decide (dataDir flags = "" /\ dbDriver flags = "")) as [|Hdata]; [done|].
    destruct (decide (serviceSpec flags = "")) as [|Hspec]; [done|].
    unfold mbind at 1, ending_bind at 1, createServer.
    cbn [parseEnvironment dataDir cfServiceName].
    destruct (decide (cfServiceName flags <> "")) as [Hcf|Hcf].
    + intros (flags' & Hrun & Hargs)%ending_bind_goes. injection Hargs as <-.
      apply parseVcapServices_returns_aux in Hrun as (Hdriver & Hsame).
      destruct Hsame as (Hd & Ha & Hu & Hp & Hs & Hdr & Hca & Hcf2).
      cbn [parseEnvironment dataDir dbDriver dbCACert storeDriver storeCACert storeFileName] in *.
      rewrite <- Hdr, <- Hca. repeat split; try done. by right.
    + intros [= <-].
      cbn [parseEnvironment dataDir dbDriver dbCACert storeDriver storeCACert storeFileName].
      repeat split; try done.
      destruct (decide (dataDir flags = "")); [|by left].
      right. intros ?. by apply Hdata.
Qed.

End StartUp.

(** X21 at a binding of the service [sql-db] with a numeric port. *)
Lemma parseVcapServices_returns_example :
  main.parseVcapServices wholeNumber pushedEnviron pushedFlags = main.Goes boundFlags /\
  main.dbDriver pushedFlags <> "" /\
  sameSettings pushedFlags boundFlags.
Proof.
  assert (main.parseVcapServices wholeNumber pushedEnviron pushedFlags = main.Goes boundFlags)
    as Hrun by (vm_compute; reflexivity).
  split; [exact Hrun|].
  split.
  - exact (proj1 (parseVcapServices_returns wholeNumber pushedEnviron pushedFlags boundFlags
                    Hrun)).
  - exact (proj1 (proj2 (parseVcapServices_returns wholeNumber pushedEnviron pushedFlags
                           boundFlags Hrun))).
Defined.

(** X22 at a service listed with [null] for its bindings. *)
Lemma parseVcapServices_listed_example :
  main.parseVcapServices wholeNumber unboundEnviron pushedFlags = main.Panics.
Proof.
  refine (proj2 (parseVcapServices_listed wholeNumber unboundEnviron pushedFlags
                   (RawDoc (JObject [("sql-db", JNull)])) (<["sql-db" := []]> ∅) [] _ _ _ _)
            eq_refl).
  - discriminate.
  - reflexivity.
  - reflexivity.
  - vm_compute. reflexivity.
Defined.

(** X23 at a pushed broker: the store gets the credentials of the binding,
    whatever [DB_USERNAME] and [DB_PASSWORD] are. *)
Lemma main_store_settings_example :
  main.main wholeNumber pushedEnviron pushedFlags =
    main.Goes (main.mkStoreArguments "mysql" "broker" "secret" "10.0.0.5" "3306" "brokerdb" ""
                 "csi-general-services.json") /\
  main.main wholeNumber (main.mkEnviron None (Some "other") (main.VCAP_SERVICES pushedEnviron))
    pushedFlags = main.main wholeNumber pushedEnviron pushedFlags.
Proof.
  split; [vm_compute; reflexivity|].
  refine (proj1 (proj2 (main_store_settings wholeNumber pushedEnviron pushedFlags)) _
            (main.mkEnviron None (Some "other") (main.VCAP_SERVICES pushedEnviron))
            pushedFlags eq_refl _).
  - discriminate.
  - repeat split.
Defined.
